(** * PdfPreview: the incremental page-rendering engine

    A shallow embedding of the [PdfPreview] class and of [renderPdf]
    (the progressive, scroll-driven PDF viewer of the repository).

    Modelling conventions.
    - The engine runs on one cooperative thread.  Every [async] method
      is embedded as a state transformer run to completion ([await]
      is sequencing); a request that arrives while another operation is
      in flight is an event delivered to a state whose [isLoading] is
      [true], which is how the lemmas about dropped requests are stated.
    - Rejected promises and [throw] are the [Thrown] outcome of the
      [Async] monad; [try]/[catch]/[finally] are combinators over it.
    - Everything the engine reads from outside (the pdf.js document,
      per-page render results, layout measurements, the user agent) is a
      field of [World].  Per-page results are indexed by a call counter,
      so a retry of the same page may end differently.
    - The optional [onLoad]/[onError] callbacks are assumed to return
      normally; each call is logged with its argument.
    - JavaScript numbers that the engine only compares and adds (page
      numbers, layout extents) are [Z]; the device pixel ratio keeps
      [undefined] and [NaN] apart from rational values.  Strings are
      restricted to ASCII for [toLowerCase] and [trim]. *)

From Stdlib Require Import ZArith QArith String Ascii List Lia Sorted.
From stdpp Require Import base gmap sets list strings pretty sorting.
From Equations Require Import Equations.
Import ListNotations.
Local Open Scope Z_scope.
Set Warnings "-register-all".

(** ** JavaScript values used by the engine *)

(** The value of [window.devicePixelRatio] and of the scale derived
    from it. *)
Inductive JsNumber :=
| JsUndefined
| JsNaN
| JsNum (q : Q).

(** [Math.min(a, b)]: both arguments go through [ToNumber], under which
    [undefined] is [NaN]; a [NaN] argument makes the result [NaN]. *)
Definition Math_min (a b : JsNumber) : JsNumber :=
  match a, b with
  | JsNum x, JsNum y => if Qle_bool x y then JsNum x else JsNum y
  | _, _ => JsNaN
  end.

(** Truthiness of a number: [undefined], [NaN] and [0] are falsy. *)
Definition truthy (a : JsNumber) : bool :=
  match a with
  | JsNum x => negb (Qeq_bool x 0)
  | _ => false
  end.

(** [a || b]. *)
Definition js_or (a b : JsNumber) : JsNumber :=
  if truthy a then a else b.

(** A thrown value or rejection reason: an [Error] instance with its
    [message], or any other value, kept as what [String(value)] gives. *)
Inductive JsThrown :=
| JsError (message : string)
| JsOther (shown : string).

(** [error instanceof Error ? error.message : String(error)]. *)
Definition message_of (error : JsThrown) : string :=
  match error with
  | JsError m => m
  | JsOther s => s
  end.

(** [String(error)]. *)
Definition String_of (error : JsThrown) : string :=
  match error with
  | JsError m => "Error: " +:+ m
  | JsOther s => s
  end.

(** [error instanceof Error ? error.message : fallback]. *)
Definition message_or (fallback : string) (error : JsThrown) : string :=
  match error with
  | JsError m => m
  | JsOther _ => fallback
  end.

(** ** Data model *)

(** One entry of the document outline as pdf.js returns it (only the
    fields the engine reads). *)
Inductive OutlineNode :=
| Outline (title : string) (items : list OutlineNode).

Record PDFDocumentProxy := mkDoc {
  numPages : Z;
  outline : list OutlineNode
}.

(** The [data] field of a [BaseReturn]. *)
Inductive Data :=
| DNull
| DDocument (doc : PDFDocumentProxy)
| DPage (number : Z).

Record BaseReturn := mkReturn {
  success : bool;
  data : Data;
  message : option string
}.

(** The drawing surface of a page: as created, after its pixel size
    was set, after pdf.js drew the page on it. *)
Inductive Canvas :=
| Blank
| Sized
| Painted.

(** A [pageWrapper] element appended to [pageContainer]. *)
Record PageWrapper := mkWrapper {
  pw_number : Z;          (* data-page-number of the canvas *)
  pw_scale : JsNumber;    (* deviceScale handed to page.getViewport *)
  pw_divider : bool;      (* has the <hr> divider *)
  pw_canvas : Canvas
}.

(** An [<li>] of the table of contents: the text of its title [<span>]
    (if it has one), its [style.display], and the [<li>] children of its
    nested [<ul>] (if it has one). *)
Inductive TocItem :=
| Li (titleSpan : option string) (display : string)
     (sublist : option (list TocItem)).

(** Children of the mount element [dom]. *)
Inductive DomChild :=
| ViewerContainer    (* the flex container built by the constructor *)
| Foreign (tag : string).

(** The world outside the engine. *)
Record World := mkWorld {
  isSafari : bool;
  devicePixelRatio : JsNumber;
  (* new URL('@/assets/pdf.worker.min.mjs', import.meta.url) *)
  workerUrl : option JsThrown;
  (* pdfjsLib.getDocument(this.pdf).promise *)
  getDocument : JsThrown + PDFDocumentProxy;
  (* pdfDoc.getPage(number), at the given call of getPdfPage *)
  getPage : nat -> Z -> option JsThrown;
  (* canvas.getContext('2d') is not null *)
  getContext : nat -> Z -> bool;
  (* page.render(renderContext).promise *)
  render : nat -> Z -> option JsThrown;
  (* layout *)
  dom_clientHeight : Z;
  dom_scrollHeight : list PageWrapper -> Z;
  pageContainer_scrollHeight : list PageWrapper -> Z
}.

(** The fields of a [PdfPreview] instance, the DOM it owns, and the
    record of what it sent out. *)
Record State := mkState {
  pdfDoc : option PDFDocumentProxy;
  pageNumber : Z;
  total : Z;
  isLoading : bool;
  visiblePages : gset Z;
  pageContainer : list PageWrapper;     (* children of pageContainer *)
  observed : list Z;                    (* canvases under observation *)
  pageIndicator : string;               (* textContent *)
  loadingIndicator : string;            (* style.display *)
  tocButton : string;                   (* style.display *)
  tocSearchInput : string;              (* value *)
  tocListContainer : option (list TocItem);  (* its <ul>, if any *)
  dom_scrollTop : Z;
  dom_children : list DomChild;
  onLoad : bool;                        (* a callback was supplied *)
  onError : bool;
  onLoadCalls : list BaseReturn;
  onErrorCalls : list BaseReturn;
  requests : list Z;                    (* 'Getting PDF page:' log *)
  clock : nat                           (* calls of getPdfPage so far *)
}.

(** Field updates. *)
Definition set_pdfDoc (v : option PDFDocumentProxy) (s : State) : State :=
  mkState v (pageNumber s) (total s) (isLoading s) (visiblePages s)
    (pageContainer s) (observed s) (pageIndicator s) (loadingIndicator s)
    (tocButton s) (tocSearchInput s) (tocListContainer s) (dom_scrollTop s)
    (dom_children s) (onLoad s) (onError s) (onLoadCalls s) (onErrorCalls s)
    (requests s) (clock s).

Definition set_pageNumber (v : Z) (s : State) : State :=
  mkState (pdfDoc s) v (total s) (isLoading s) (visiblePages s)
    (pageContainer s) (observed s) (pageIndicator s) (loadingIndicator s)
    (tocButton s) (tocSearchInput s) (tocListContainer s) (dom_scrollTop s)
    (dom_children s) (onLoad s) (onError s) (onLoadCalls s) (onErrorCalls s)
    (requests s) (clock s).

Definition set_total (v : Z) (s : State) : State :=
  mkState (pdfDoc s) (pageNumber s) v (isLoading s) (visiblePages s)
    (pageContainer s) (observed s) (pageIndicator s) (loadingIndicator s)
    (tocButton s) (tocSearchInput s) (tocListContainer s) (dom_scrollTop s)
    (dom_children s) (onLoad s) (onError s) (onLoadCalls s) (onErrorCalls s)
    (requests s) (clock s).

Definition set_isLoading (v : bool) (s : State) : State :=
  mkState (pdfDoc s) (pageNumber s) (total s) v (visiblePages s)
    (pageContainer s) (observed s) (pageIndicator s) (loadingIndicator s)
    (tocButton s) (tocSearchInput s) (tocListContainer s) (dom_scrollTop s)
    (dom_children s) (onLoad s) (onError s) (onLoadCalls s) (onErrorCalls s)
    (requests s) (clock s).

Definition set_visiblePages (v : gset Z) (s : State) : State :=
  mkState (pdfDoc s) (pageNumber s) (total s) (isLoading s) v
    (pageContainer s) (observed s) (pageIndicator s) (loadingIndicator s)
    (tocButton s) (tocSearchInput s) (tocListContainer s) (dom_scrollTop s)
    (dom_children s) (onLoad s) (onError s) (onLoadCalls s) (onErrorCalls s)
    (requests s) (clock s).

Definition set_pageContainer (v : list PageWrapper) (s : State) : State :=
  mkState (pdfDoc s) (pageNumber s) (total s) (isLoading s) (visiblePages s)
    v (observed s) (pageIndicator s) (loadingIndicator s)
    (tocButton s) (tocSearchInput s) (tocListContainer s) (dom_scrollTop s)
    (dom_children s) (onLoad s) (onError s) (onLoadCalls s) (onErrorCalls s)
    (requests s) (clock s).

Definition set_observed (v : list Z) (s : State) : State :=
  mkState (pdfDoc s) (pageNumber s) (total s) (isLoading s) (visiblePages s)
    (pageContainer s) v (pageIndicator s) (loadingIndicator s)
    (tocButton s) (tocSearchInput s) (tocListContainer s) (dom_scrollTop s)
    (dom_children s) (onLoad s) (onError s) (onLoadCalls s) (onErrorCalls s)
    (requests s) (clock s).

Definition set_pageIndicator (v : string) (s : State) : State :=
  mkState (pdfDoc s) (pageNumber s) (total s) (isLoading s) (visiblePages s)
    (pageContainer s) (observed s) v (loadingIndicator s)
    (tocButton s) (tocSearchInput s) (tocListContainer s) (dom_scrollTop s)
    (dom_children s) (onLoad s) (onError s) (onLoadCalls s) (onErrorCalls s)
    (requests s) (clock s).

Definition set_loadingIndicator (v : string) (s : State) : State :=
  mkState (pdfDoc s) (pageNumber s) (total s) (isLoading s) (visiblePages s)
    (pageContainer s) (observed s) (pageIndicator s) v
    (tocButton s) (tocSearchInput s) (tocListContainer s) (dom_scrollTop s)
    (dom_children s) (onLoad s) (onError s) (onLoadCalls s) (onErrorCalls s)
    (requests s) (clock s).

Definition set_tocButton (v : string) (s : State) : State :=
  mkState (pdfDoc s) (pageNumber s) (total s) (isLoading s) (visiblePages s)
    (pageContainer s) (observed s) (pageIndicator s) (loadingIndicator s)
    v (tocSearchInput s) (tocListContainer s) (dom_scrollTop s)
    (dom_children s) (onLoad s) (onError s) (onLoadCalls s) (onErrorCalls s)
    (requests s) (clock s).

Definition set_tocSearchInput (v : string) (s : State) : State :=
  mkState (pdfDoc s) (pageNumber s) (total s) (isLoading s) (visiblePages s)
    (pageContainer s) (observed s) (pageIndicator s) (loadingIndicator s)
    (tocButton s) v (tocListContainer s) (dom_scrollTop s)
    (dom_children s) (onLoad s) (onError s) (onLoadCalls s) (onErrorCalls s)
    (requests s) (clock s).

Definition set_tocListContainer (v : option (list TocItem)) (s : State)
  : State :=
  mkState (pdfDoc s) (pageNumber s) (total s) (isLoading s) (visiblePages s)
    (pageContainer s) (observed s) (pageIndicator s) (loadingIndicator s)
    (tocButton s) (tocSearchInput s) v (dom_scrollTop s)
    (dom_children s) (onLoad s) (onError s) (onLoadCalls s) (onErrorCalls s)
    (requests s) (clock s).

Definition set_dom_scrollTop (v : Z) (s : State) : State :=
  mkState (pdfDoc s) (pageNumber s) (total s) (isLoading s) (visiblePages s)
    (pageContainer s) (observed s) (pageIndicator s) (loadingIndicator s)
    (tocButton s) (tocSearchInput s) (tocListContainer s) v
    (dom_children s) (onLoad s) (onError s) (onLoadCalls s) (onErrorCalls s)
    (requests s) (clock s).

Definition set_dom_children (v : list DomChild) (s : State) : State :=
  mkState (pdfDoc s) (pageNumber s) (total s) (isLoading s) (visiblePages s)
    (pageContainer s) (observed s) (pageIndicator s) (loadingIndicator s)
    (tocButton s) (tocSearchInput s) (tocListContainer s) (dom_scrollTop s)
    v (onLoad s) (onError s) (onLoadCalls s) (onErrorCalls s)
    (requests s) (clock s).

Definition set_onLoadCalls (v : list BaseReturn) (s : State) : State :=
  mkState (pdfDoc s) (pageNumber s) (total s) (isLoading s) (visiblePages s)
    (pageContainer s) (observed s) (pageIndicator s) (loadingIndicator s)
    (tocButton s) (tocSearchInput s) (tocListContainer s) (dom_scrollTop s)
    (dom_children s) (onLoad s) (onError s) v (onErrorCalls s)
    (requests s) (clock s).

Definition set_onErrorCalls (v : list BaseReturn) (s : State) : State :=
  mkState (pdfDoc s) (pageNumber s) (total s) (isLoading s) (visiblePages s)
    (pageContainer s) (observed s) (pageIndicator s) (loadingIndicator s)
    (tocButton s) (tocSearchInput s) (tocListContainer s) (dom_scrollTop s)
    (dom_children s) (onLoad s) (onError s) (onLoadCalls s) v
    (requests s) (clock s).

Definition set_requests (v : list Z) (s : State) : State :=
  mkState (pdfDoc s) (pageNumber s) (total s) (isLoading s) (visiblePages s)
    (pageContainer s) (observed s) (pageIndicator s) (loadingIndicator s)
    (tocButton s) (tocSearchInput s) (tocListContainer s) (dom_scrollTop s)
    (dom_children s) (onLoad s) (onError s) (onLoadCalls s) (onErrorCalls s)
    v (clock s).

Definition set_clock (v : nat) (s : State) : State :=
  mkState (pdfDoc s) (pageNumber s) (total s) (isLoading s) (visiblePages s)
    (pageContainer s) (observed s) (pageIndicator s) (loadingIndicator s)
    (tocButton s) (tocSearchInput s) (tocListContainer s) (dom_scrollTop s)
    (dom_children s) (onLoad s) (onError s) (onLoadCalls s) (onErrorCalls s)
    (requests s) v.

(** ** The monad of asynchronous methods *)

Inductive Outcome (A : Type) :=
| Returned (a : A)
| Thrown (e : JsThrown).
Arguments Returned {A} a.
Arguments Thrown {A} e.

Definition Async (A : Type) : Type := State -> Outcome A * State.

Definition ret {A} (a : A) : Async A := fun s => (Returned a, s).

Definition bind {A B} (m : Async A) (k : A -> Async B) : Async B :=
  fun s =>
    match m s with
    | (Returned a, s') => k a s'
    | (Thrown e, s') => (Thrown e, s')
    end.

Definition throw {A} (e : JsThrown) : Async A := fun s => (Thrown e, s).

Definition get : Async State := fun s => (Returned s, s).

Definition modify (f : State -> State) : Async unit :=
  fun s => (Returned tt, f s).

(** [try { body } catch (error) { handler error }]. *)
Definition try_catch {A} (body : Async A) (handler : JsThrown -> Async A)
  : Async A :=
  fun s =>
    match body s with
    | (Returned a, s') => (Returned a, s')
    | (Thrown e, s') => handler e s'
    end.

(** [try { body } finally { finalizer }], for a finalizer that
    completes normally. *)
Definition try_finally {A} (body : Async A) (finalizer : State -> State)
  : Async A :=
  fun s => let (r, s') := body s in (r, finalizer s').

(** [await] of a promise of the outside world that either resolves or
    rejects with a reason. *)
Definition await (p : option JsThrown) : Async unit :=
  match p with
  | None => ret tt
  | Some e => throw e
  end.

Declare Scope async_scope.
Delimit Scope async_scope with async.
Notation "'let!' x ':=' m 'in' k" := (bind m (fun x => k))
  (at level 10, x name, m at level 100, k at level 200) : async_scope.
Notation "m ';;' k" := (bind m (fun _ => k))
  (at level 100, k at level 200, right associativity) : async_scope.
Local Open Scope async_scope.

(** ** PageRenderer *)

(** [isSafari() ? Math.min(window.devicePixelRatio, 2)
               : window.devicePixelRatio || 1]. *)
Definition deviceScale (W : World) : JsNumber :=
  if isSafari W then Math_min (devicePixelRatio W) (JsNum 2)
  else js_or (devicePixelRatio W) (JsNum 1).

(** Replaces the canvas of the wrapper appended last. *)
Fixpoint set_last_canvas (c : Canvas) (l : list PageWrapper)
  : list PageWrapper :=
  match l with
  | [] => []
  | [w] => [mkWrapper (pw_number w) (pw_scale w) (pw_divider w) c]
  | w :: l' => w :: set_last_canvas c l'
  end.

(** [if (this.onError) this.onError(msg)]. *)
Definition call_onError (msg : BaseReturn) : Async unit :=
  modify (fun s =>
    if onError s then set_onErrorCalls (onErrorCalls s ++ [msg]) s else s).

(** [if (this.onLoad) this.onLoad(msg)]. *)
Definition call_onLoad (msg : BaseReturn) : Async unit :=
  modify (fun s =>
    if onLoad s then set_onLoadCalls (onLoadCalls s ++ [msg]) s else s).

Definition failure (m : string) : BaseReturn :=
  mkReturn false DNull (Some m).

Definition getPdfPage (W : World) (number : Z) : Async BaseReturn :=
  modify (fun s => set_requests (requests s ++ [number]) s) ;;
  let! s := get in
  match pdfDoc s with
  | None => ret (failure "pdfDoc is undefined")
  | Some _ =>
    try_catch
      (let t := clock s in
       modify (set_clock (S t)) ;;
       await (getPage W t number) ;;
       let pageWrapper :=
         mkWrapper number (deviceScale W) (number <? total s) Blank in
       modify (fun s => set_pageContainer (pageContainer s ++ [pageWrapper]) s) ;;
       modify (fun s => set_observed (observed s ++ [number]) s) ;;
       (if getContext W t number then ret tt
        else throw (JsError "Failed to get canvas context")) ;;
       modify (fun s =>
         set_pageContainer (set_last_canvas Sized (pageContainer s)) s) ;;
       await (render W t number) ;;
       modify (fun s =>
         set_pageContainer (set_last_canvas Painted (pageContainer s)) s) ;;
       ret (mkReturn true (DPage number) None))
      (fun error =>
         let message := message_of error in
         call_onError (failure message) ;;
         ret (failure message))
  end.

(** ** VisibilityTracker *)

(** An entry handed to the intersection callback: the page number
    [parseInt(entry.target.getAttribute('data-page-number') || '0', 10)]
    (with [0] for a missing or unreadable attribute) and the flag. *)
Record IntersectionObserverEntry := mkEntry {
  pageNum : Z;
  isIntersecting : bool
}.

Definition updatePageIndicator (currentPage : Z) : Async unit :=
  modify (fun s =>
    if 0 <? total s
    then set_pageIndicator (pretty currentPage +:+ " / " +:+ pretty (total s)) s
    else s).

(** The body of [entries.forEach]. *)
Definition track (vis : gset Z) (entry : IntersectionObserverEntry) : gset Z :=
  if pageNum entry =? 0 then vis
  else if isIntersecting entry then {[ pageNum entry ]} ∪ vis
  else vis ∖ {[ pageNum entry ]}.

(** [Math.max(x, ...l)]. *)
Definition Math_max (x : Z) (l : list Z) : Z := foldr Z.max x l.

Definition handlePageIntersection (entries : list IntersectionObserverEntry)
  : Async unit :=
  modify (fun s => set_visiblePages (foldl track (visiblePages s) entries) s) ;;
  let! s := get in
  (* if (this.visiblePages.size > 0): the array of its members has a head *)
  match elements (visiblePages s) with
  | [] => ret tt
  | x :: l => updatePageIndicator (Math_max x l)
  end.

(** ** BatchScheduler and NavigationController *)

Definition showLoading : State -> State :=
  fun s => set_isLoading true (set_loadingIndicator "block" s).

Definition hideLoading : State -> State :=
  fun s => set_isLoading false (set_loadingIndicator "none" s).

(** [delay(ms)]: a timer; nothing of the engine changes while it runs. *)
Definition delay (ms : Z) : Async unit := ret tt.

(** [for (let i = startPage; i <= endPage && i <= this.total; i++)]. *)
Equations renderPagesBatch (W : World) (startPage endPage : Z) : Async unit
  by wf (Z.to_nat (endPage + 1 - startPage)) lt :=
renderPagesBatch W i endPage with Z_le_dec i endPage := {
  | left _ => fun s =>
      if i <=? total s
      then (getPdfPage W i ;; delay 10 ;; renderPagesBatch W (i + 1) endPage) s
      else (Returned tt, s)
  | right _ => ret tt }.
Next Obligation. lia. Qed.

(** [Math.ceil((clientHeight - scrollHeight) / (scrollHeight / 3))],
    with exact instead of floating-point division; [None] is
    [Infinity], the quotient by a zero extent (the numerator is positive
    where the engine evaluates this). *)
Definition estimate (clientHeight scrollHeight : Z) : option Z :=
  if scrollHeight =? 0 then None
  else Some (- ((- (3 * (clientHeight - scrollHeight))) / scrollHeight)).

(** [Math.min(a, b)] for an integer [a] and a possibly infinite [b]. *)
Definition min_ext (a : Z) (b : option Z) : Z :=
  match b with
  | None => a
  | Some b => Z.min a b
  end.

Definition navigateToPage (W : World) (pageNumber' : Z) : Async unit :=
  let! s := get in
  if (pageNumber' <? 1) || (total s <? pageNumber')
     || negb (bool_decide (is_Some (pdfDoc s))) || isLoading s
  then ret tt
  else
    try_finally
      (try_catch
         (modify showLoading ;;
          modify (set_pageContainer []) ;;
          modify (set_observed []) ;;
          modify (set_visiblePages ∅) ;;
          modify (set_pageNumber (pageNumber' - 1)) ;;
          modify (set_dom_scrollTop 0) ;;
          let initialBatchSize := 3 in
          renderPagesBatch W pageNumber' (pageNumber' + initialBatchSize - 1) ;;
          let! s := get in
          let scrollHeight := pageContainer_scrollHeight W (pageContainer s) in
          if scrollHeight <? dom_clientHeight W then
            let remainingPages :=
              min_ext (total s - (pageNumber' + initialBatchSize))
                      (estimate (dom_clientHeight W) scrollHeight) in
            if 0 <? remainingPages then
              renderPagesBatch W (pageNumber' + initialBatchSize)
                (pageNumber' + initialBatchSize + remainingPages - 1)
            else ret tt
          else ret tt)
         (fun error =>
            call_onError (mkReturn false DNull (Some (String_of error)))))
      hideLoading.

Definition renderNextPage (W : World) : Async unit :=
  let! s := get in
  if isLoading s || (total s <=? pageNumber s) then ret tt
  else
    modify (set_isLoading true) ;;
    let nextPageToRender := pageNumber s + 1 in
    getPdfPage W nextPageToRender ;;
    modify (set_pageNumber nextPageToRender) ;;
    modify (set_isLoading false).

Definition handleScroll (W : World) : Async unit :=
  let! s := get in
  if isLoading s || (total s <=? pageNumber s) then ret tt
  else if dom_scrollHeight W (pageContainer s) - 200
          <=? dom_scrollTop s + dom_clientHeight W
  then renderNextPage W
  else ret tt.

(** ** OutlineIndex and search *)

(** [String.prototype.toLowerCase], on ASCII. *)
Definition lower (c : ascii) : ascii :=
  let n := nat_of_ascii c in
  if (65 <=? n)%nat && (n <=? 90)%nat then ascii_of_nat (n + 32) else c.

Fixpoint toLowerCase (s : string) : string :=
  match s with
  | EmptyString => EmptyString
  | String c s' => String (lower c) (toLowerCase s')
  end.

(** White space that [trim] removes, on ASCII: tab, line feed, vertical
    tab, form feed, carriage return, space. *)
Definition is_space (c : ascii) : bool :=
  let n := nat_of_ascii c in
  ((9 <=? n)%nat && (n <=? 13)%nat) || (n =? 32)%nat.

Fixpoint trimStart (s : string) : string :=
  match s with
  | EmptyString => EmptyString
  | String c s' => if is_space c then trimStart s' else s
  end.

(** Drops the white space at the end: a character is kept when it is
    not white space or when something is kept after it. *)
Fixpoint trimEnd (s : string) : string :=
  match s with
  | EmptyString => EmptyString
  | String c s' =>
      match trimEnd s' with
      | EmptyString => if is_space c then EmptyString else String c EmptyString
      | rest => String c rest
      end
  end.

(** [String.prototype.trim]. *)
Definition trim (s : string) : string := trimEnd (trimStart s).

(** [s.includes(sub)]: [sub] occurs in [s] at some offset. *)
Fixpoint includes (s sub : string) : bool :=
  String.prefix sub s ||
  match s with
  | EmptyString => false
  | String _ s' => includes s' sub
  end.

(** [filterTocItem(item, searchText)]: the returned flag and the item
    with the [style.display] of every [<li>] under it rewritten. *)
Fixpoint filterTocItem (item : TocItem) (searchText : string)
  : bool * TocItem :=
  match item with
  | Li titleSpan display sublist =>
      let ownTextMatch :=
        match titleSpan with
        | Some textContent => includes (toLowerCase textContent) searchText
        | None => false
        end in
      let children :=
        match sublist with
        | Some subItems =>
            let r :=
              (fix loop (l : list TocItem) : bool * list TocItem :=
                 match l with
                 | [] => (false, [])
                 | subItem :: l' =>
                     let h := filterTocItem subItem searchText in
                     let t := loop l' in
                     (fst h || fst t, snd h :: snd t)
                 end) subItems in
            (fst r, Some (snd r))
        | None => (false, None)
        end in
      let shouldBeVisible := ownTextMatch || fst children in
      (shouldBeVisible,
       Li titleSpan (if shouldBeVisible then "" else "none") (snd children))
  end.

Definition handleTocSearch : Async unit :=
  modify (fun s =>
    let searchText := trim (toLowerCase (tocSearchInput s)) in
    match tocListContainer s with
    | None => s
    | Some items =>
        set_tocListContainer
          (Some (map (fun item => snd (filterTocItem item searchText)) items)) s
    end).

(** [createOutlineItem(item)]. *)
Fixpoint createOutlineItem (item : OutlineNode) : TocItem :=
  match item with
  | Outline title items =>
      Li (Some title) ""
         (match items with
          | [] => None
          | _ :: _ => Some (map createOutlineItem items)
          end)
  end.

Definition renderOutline : Async unit :=
  let! s := get in
  match pdfDoc s with
  | None => ret tt
  | Some doc =>
      match outline doc with
      | [] => modify (set_tocButton "none")
      | _ :: _ =>
          modify (set_tocButton "block") ;;
          modify (set_tocListContainer (Some (map createOutlineItem (outline doc))))
      end
  end.

(** ** PreviewController *)

(** The [while] loop of the initial fill.  [None]: the loop did not
    finish within [fuel] iterations. *)
Fixpoint initialFill (W : World) (fuel : nat) (s : State) {struct fuel}
  : option (Outcome unit * State) :=
  if (pageNumber s <? total s)
     && ((pageContainer_scrollHeight W (pageContainer s) <? dom_clientHeight W)
         || (pageNumber s =? 0))
  then
    match fuel with
    | O => None
    | S fuel' =>
        match renderNextPage W s with
        | (Returned _, s') => initialFill W fuel' s'
        | (Thrown e, s') => Some (Thrown e, s')
        end
    end
  else Some (Returned tt, s).

(** What [reject({ success: false, data: null, message })] hands to the
    awaiting caller: a plain object, not an [Error]. *)
Definition rejection : JsThrown := JsOther "[object Object]".

(** [pdfPreview()]: [Returned r] when the promise resolves with [r],
    [Thrown] when it is rejected. *)
Definition pdfPreview (W : World) (fuel : nat) (s : State)
  : option (Outcome BaseReturn * State) :=
  match workerUrl W with
  | Some error =>
      let message := message_or "Unknown error in PDF preview" error in
      Some ((call_onError (failure message) ;; throw rejection) s)
  | None =>
      let catch (error : JsThrown) : Async BaseReturn :=
        let message := message_of error in
        call_onError (failure message) ;; throw rejection in
      match getDocument W with
      | inl error => Some (catch error s)
      | inr doc =>
          let opened :=
            (modify (set_pdfDoc (Some doc)) ;;
             modify (set_total (numPages doc)) ;;
             call_onLoad (mkReturn true (DDocument doc) None) ;;
             updatePageIndicator 1 ;;
             renderOutline) s in
          match opened with
          | (Thrown error, s1) => Some (catch error s1)
          | (Returned _, s1) =>
              match initialFill W fuel s1 with
              | None => None
              | Some (Thrown error, s2) => Some (catch error s2)
              | Some (Returned _, s2) =>
                  Some (Returned (mkReturn true (DDocument doc) None), s2)
              end
          end
      end
  end.

(** The [options] of [renderPdf] and of the constructor: the mount
    element (its children and scroll offset) and which callbacks are
    supplied. *)
Record RenderOptions := mkOptions {
  dom : list DomChild;
  scrollTop : Z;
  has_onLoad : bool;
  has_onError : bool
}.

(** [new PdfPreview(pdf, options)]. *)
Definition constructor (options : RenderOptions) : State :=
  mkState None 0 0 false ∅ [] [] "" "none" "none" "" None
    (scrollTop options) (dom options ++ [ViewerContainer])
    (has_onLoad options) (has_onError options) [] [] [] 0.

(** What [createReader(file)] ends with: the buffer, [null], or a
    rejection. *)
Inductive FileRead :=
| ReadBuffer
| ReadNull
| ReadRejected (e : JsThrown).

(** What is left when [renderPdf] has returned: the engine if it was
    constructed, the children of the mount element, and the calls the
    [onError] callback of [options] received. *)
Record Mounted := mkMounted {
  engine : option State;
  mount : list DomChild;
  errors : list BaseReturn
}.

(** [renderPdf(file, options)], in a browser ([window] is defined) and
    with a mount element.  The promise it returns always resolves. *)
Definition renderPdf (W : World) (file : FileRead) (options : RenderOptions)
  (fuel : nat) : option Mounted :=
  let catch (error : JsThrown) (extra : list BaseReturn) :=
    if has_onError options
    then extra ++ [failure (message_or "Failed to render PDF" error)]
    else extra in
  match file with
  | ReadRejected e => Some (mkMounted None (dom options) (catch e []))
  | ReadNull =>
      Some (mkMounted None (dom options)
              (catch (JsError "Failed to read PDF file") []))
  | ReadBuffer =>
      let PDF := constructor options in
      match pdfPreview W fuel PDF with
      | None => None
      | Some (Returned _, s) =>
          Some (mkMounted (Some s) (dom_children s) (onErrorCalls s))
      | Some (Thrown e, s) =>
          Some (mkMounted (Some s) (dom_children s) (catch e (onErrorCalls s)))
      end
  end.

(** * Derived definitions

    What the statements below are written with: the outcome of a page
    render read off the world, the states the operations lead to, the
    operations as events, the search as the specification words it, and
    sample documents and worlds. *)

(** ** The outcome of one page render, read off the world *)

(** The canvas of page [number] as call [t] of [getPdfPage] leaves it,
    when [getPage] resolved. *)
Definition canvas_after (W : World) (t : nat) (number : Z) : Canvas :=
  if getContext W t number then
    match render W t number with
    | None => Painted
    | Some _ => Sized
    end
  else Blank.

(** The wrappers that call [t] of [getPdfPage] appends: none when
    [getPage] rejects, one otherwise. *)
Definition appended (W : World) (t : nat) (tot number : Z) : list PageWrapper :=
  match getPage W t number with
  | Some _ => []
  | None =>
      [mkWrapper number (deviceScale W) (number <? tot) (canvas_after W t number)]
  end.

(** The failure that call [t] of [getPdfPage] caught, if any. *)
Definition caught (W : World) (t : nat) (number : Z) : option string :=
  match getPage W t number with
  | Some e => Some (message_of e)
  | None =>
      if getContext W t number then
        match render W t number with
        | None => None
        | Some e => Some (message_of e)
        end
      else Some "Failed to get canvas context"
  end.

Definition result_of (W : World) (t : nat) (number : Z) : BaseReturn :=
  match caught W t number with
  | None => mkReturn true (DPage number) None
  | Some m => failure m
  end.

Definition reported (W : World) (t : nat) (number : Z) (s : State)
  : list BaseReturn :=
  match caught W t number with
  | Some m => if onError s then [failure m] else []
  | None => []
  end.

(** The state after [getPdfPage(number)] on an open document. *)
Definition rendered (W : World) (number : Z) (s : State) : State :=
  let t := clock s in
  let ws := appended W t (total s) number in
  set_onErrorCalls (onErrorCalls s ++ reported W t number s)
    (set_observed (observed s ++ map pw_number ws)
       (set_pageContainer (pageContainer s ++ ws)
          (set_clock (S t) (set_requests (requests s ++ [number]) s)))).

(** The state after [getPdfPage(number)], document open or not. *)
Definition after_getPdfPage (W : World) (number : Z) (s : State) : State :=
  match pdfDoc s with
  | Some _ => rendered W number s
  | None => set_requests (requests s ++ [number]) s
  end.

Definition getPdfPage_result (W : World) (number : Z) (s : State) : BaseReturn :=
  match pdfDoc s with
  | Some _ => result_of W (clock s) number
  | None => failure "pdfDoc is undefined"
  end.

(** What a page render leaves alone. *)
Definition same_engine (s s' : State) : Prop :=
  pdfDoc s' = pdfDoc s /\ total s' = total s /\ pageNumber s' = pageNumber s
  /\ isLoading s' = isLoading s /\ visiblePages s' = visiblePages s
  /\ pageIndicator s' = pageIndicator s /\ onError s' = onError s
  /\ dom_children s' = dom_children s
  /\ tocListContainer s' = tocListContainer s
  /\ loadingIndicator s' = loadingIndicator s
  /\ dom_scrollTop s' = dom_scrollTop s.

(** ** The states the operations lead to *)

(** The pages a batch asks for: [startPage], [startPage + 1], ... up to
    the smaller of [endPage] and [tot]. *)
Definition batch_pages (startPage endPage tot : Z) : list Z :=
  seqZ startPage (Z.min endPage tot - startPage + 1).

Definition after_pages (W : World) (pages : list Z) (s : State) : State :=
  foldl (fun s number => after_getPdfPage W number s) s pages.

(** The state after a [renderNextPage] that passed its guard. *)
Definition next_page (W : World) (s : State) : State :=
  set_pageNumber (pageNumber s + 1) (after_getPdfPage W (pageNumber s + 1) s).

(** The scroll position is within 200 units of the bottom. *)
Definition near_bottom (W : World) (s : State) : Prop :=
  dom_scrollHeight W (pageContainer s) - 200
  <= dom_scrollTop s + dom_clientHeight W.

(** The state [navigateToPage] renders from: the container cleared, the
    observer disconnected, the cursor just before the target. *)
Definition cleared (pageNumber' : Z) (s : State) : State :=
  set_dom_scrollTop 0
    (set_pageNumber (pageNumber' - 1)
       (set_visiblePages ∅
          (set_observed [] (set_pageContainer [] (showLoading s))))).

(** The pages of the second batch of a navigation, given the state the
    first batch left. *)
Definition second_batch (W : World) (pageNumber' : Z) (s : State) : list Z :=
  let scrollHeight := pageContainer_scrollHeight W (pageContainer s) in
  if scrollHeight <? dom_clientHeight W then
    let remainingPages :=
      min_ext (total s - (pageNumber' + 3))
              (estimate (dom_clientHeight W) scrollHeight) in
    if 0 <? remainingPages then
      batch_pages (pageNumber' + 3) (pageNumber' + 3 + remainingPages - 1)
        (total s)
    else []
  else [].

Definition navigated (W : World) (pageNumber' : Z) (s : State) : State :=
  let s1 :=
    after_pages W (batch_pages pageNumber' (pageNumber' + 3 - 1) (total s))
      (cleared pageNumber' s) in
  hideLoading (after_pages W (second_batch W pageNumber' s1) s1).

(** The condition of the [while] loop of the initial fill. *)
Definition fill_more (W : World) (s : State) : bool :=
  (pageNumber s <? total s)
  && ((pageContainer_scrollHeight W (pageContainer s) <? dom_clientHeight W)
      || (pageNumber s =? 0)).

(** The state after [k] single-page steps. *)
Fixpoint steps (W : World) (k : nat) (s : State) : State :=
  match k with
  | O => s
  | S k' => steps W k' (next_page W s)
  end.

(** The state in which the initial fill starts: the document stored,
    [onLoad] called, the indicator and the outline set up. *)
Definition opened (doc : PDFDocumentProxy) (s : State) : State :=
  snd ((modify (set_pdfDoc (Some doc)) ;;
        modify (set_total (numPages doc)) ;;
        call_onLoad (mkReturn true (DDocument doc) None) ;;
        updatePageIndicator 1 ;;
        renderOutline) s).

(** ** Samples *)

Definition sample_outline : list OutlineNode :=
  [Outline "Part One"
     [Outline "Chapter A" [Outline "Section Alpha" []; Outline "Section Beta" []];
      Outline "Chapter B" []];
   Outline "Part Two" [Outline "Appendix" []]].

Definition sample_doc : PDFDocumentProxy := mkDoc 10 sample_outline.

(** Ten pages of 400 units in a viewport of 1000; every render succeeds
    except that of page 2, which is rejected. *)
Definition sample_world : World :=
  mkWorld false (JsNum 3) None (inr sample_doc)
    (fun _ _ => None) (fun _ _ => true)
    (fun _ number => if number =? 2 then Some (JsError "render cancelled") else None)
    1000
    (fun pages => 400 * Z.of_nat (length pages))
    (fun pages => 400 * Z.of_nat (length pages)).

Definition sample_options : RenderOptions := mkOptions [] 0 true true.

(** The sample document opened: pages 1 to 3 are in the container. *)
Definition sample_state : State :=
  match pdfPreview sample_world 10 (constructor sample_options) with
  | Some (_, s) => s
  | None => constructor sample_options
  end.

(** The sample document in a runtime with the given engine and
    [window.devicePixelRatio]; every render succeeds. *)
Definition runtime (safari : bool) (ratio : JsNumber) : World :=
  mkWorld safari ratio None (inr sample_doc)
    (fun _ _ => None) (fun _ _ => true) (fun _ _ => None)
    1000
    (fun pages => 400 * Z.of_nat (length pages))
    (fun pages => 400 * Z.of_nat (length pages)).

Definition sample_loaded : State :=
  set_total 10 (set_pdfDoc (Some sample_doc) (constructor sample_options)).

Definition sample_first : State := snd (renderNextPage sample_world sample_loaded).

(** A world in which pdf.js cannot read the document. *)
Definition unreadable_world : World :=
  mkWorld false (JsNum 1) None (inl (JsError "Invalid PDF structure."))
    (fun _ _ => None) (fun _ _ => true) (fun _ _ => None)
    1000
    (fun pages => 400 * Z.of_nat (length pages))
    (fun pages => 400 * Z.of_nat (length pages)).

(** ** Operations as events *)

(** The browser moves the scroll offset to [top] and fires the scroll
    listener. *)
Definition scroll (W : World) (top : Z) (s : State) : State :=
  snd (handleScroll W (set_dom_scrollTop top s)).

Definition scrolls (W : World) (tops : list Z) (s : State) : State :=
  foldl (fun s top => scroll W top s) s tops.

(** What reaches the engine from outside, one operation at a time. *)
Inductive Event :=
| Open                                  (* pdfPreview() *)
| Scroll (top : Z)                      (* a scroll to offset [top] *)
| Navigate (n : Z)                      (* navigateToPage(n) *)
| Intersection (entries : list IntersectionObserverEntry)
| Search (text : string).               (* typing [text] in the search box *)

(** Iterations that the initial fill of the world's document may take. *)
Definition open_fuel (W : World) : nat :=
  match getDocument W with
  | inr doc => Z.to_nat (numPages doc)
  | inl _ => O
  end.

(** The observer reports only canvases it observes. *)
Definition observable (s : State) (entries : list IntersectionObserverEntry)
  : list IntersectionObserverEntry :=
  filter (fun entry => pageNum entry ∈ observed s) entries.

(** One operation, run to completion; [None] if it does not complete. *)
Definition dispatch (W : World) (ev : Event) (s : State) : option State :=
  match ev with
  | Open =>
      match pdfPreview W (open_fuel W) s with
      | Some (_, s') => Some s'
      | None => None
      end
  | Scroll top => Some (scroll W top s)
  | Navigate n => Some (snd (navigateToPage W n s))
  | Intersection entries =>
      Some (snd (handlePageIntersection (observable s entries) s))
  | Search text => Some (snd (handleTocSearch (set_tocSearchInput text s)))
  end.

Fixpoint run (W : World) (evs : list Event) (s : State) : option State :=
  match evs with
  | [] => Some s
  | ev :: evs' =>
      match dispatch W ev s with
      | Some s' => run W evs' s'
      | None => None
      end
  end.

(** What holds between operations. *)
Record Idle (W : World) (s : State) : Prop := mkIdle {
  idle_flag : isLoading s = false;
  idle_cursor : 0 <= pageNumber s;
  idle_total :
    total s = 0
    \/ exists doc, getDocument W = inr doc /\ total s = numPages doc
                   /\ pdfDoc s = Some doc;
  idle_pages : observed s <> [] \/ visiblePages s <> ∅ -> 0 < total s
}.

(** ** The search as the specification words it *)

Definition titleSpan_of (item : TocItem) : option string :=
  match item with Li titleSpan _ _ => titleSpan end.

Definition display_of (item : TocItem) : string :=
  match item with Li _ display _ => display end.

Definition children (item : TocItem) : list TocItem :=
  match item with
  | Li _ _ (Some subItems) => subItems
  | Li _ _ None => []
  end.

(** The node and everything below it, in document order. *)
Fixpoint nodes (item : TocItem) : list TocItem :=
  match item with
  | Li _ _ sublist =>
      item :: match sublist with
              | Some subItems => flat_map nodes subItems
              | None => []
              end
  end.

Definition descendants (item : TocItem) : list TocItem :=
  flat_map nodes (children item).

(** The title of the node contains [searchText], compared in lower
    case. *)
Definition own_match (searchText : string) (item : TocItem) : bool :=
  match titleSpan_of item with
  | Some textContent => includes (toLowerCase textContent) searchText
  | None => false
  end.

(** The search as the specification words it: a node is visible when
    its own title matches or a node below it does. *)
Definition visible (searchText : string) (item : TocItem) : bool :=
  own_match searchText item
  || existsb (own_match searchText) (descendants item).

(** The same, computed along the tree. *)
Fixpoint matches (searchText : string) (item : TocItem) : bool :=
  match item with
  | Li _ _ sublist =>
      own_match searchText item
      || match sublist with
         | Some subItems => existsb (matches searchText) subItems
         | None => false
         end
  end.

(** The tree with the [style.display] of every node set from
    [matches], nothing else touched. *)
Fixpoint shown (searchText : string) (item : TocItem) : TocItem :=
  match item with
  | Li titleSpan _ sublist =>
      Li titleSpan (if matches searchText item then "" else "none")
         (option_map (map (shown searchText)) sublist)
  end.

(** The tree without its [style.display] values. *)
Fixpoint structure (item : TocItem) : TocItem :=
  match item with
  | Li titleSpan _ sublist =>
      Li titleSpan "" (option_map (map structure) sublist)
  end.

(** The claim C7 reads the query as typed (lower-cased for the
    comparison, not trimmed). *)
Definition claimed_visible (query : string) (item : TocItem) : bool :=
  visible (toLowerCase query) item.

(** ** What the page flow keeps *)

(** A wrapper as [getPdfPage] builds it for a document of [tot] pages:
    its number is a page of the document, the divider is there unless it
    is the last page, and the canvas was sized for the device scale. *)
Definition page_of (W : World) (tot : Z) (w : PageWrapper) : Prop :=
  1 <= pw_number w <= tot
  /\ pw_divider w = (pw_number w <? tot)
  /\ pw_scale w = deviceScale W.

(** What holds of the page flow between operations. *)
Record Flow (W : World) (s : State) : Prop := mkFlow {
  flow_idle : Idle W s;
  flow_pages : Forall (page_of W (total s)) (pageContainer s);
  flow_observed : observed s = map pw_number (pageContainer s);
  flow_visible : forall p, p ∈ visiblePages s -> p ∈ observed s;
  flow_cursor : pageNumber s <= Z.max 0 (total s)
}.

(** No event of the sequence is a navigation. *)
Definition no_navigation (evs : list Event) : Prop :=
  Forall (fun ev => match ev with Navigate _ => False | _ => True end) evs.

(** What holds until the first navigation: the pages asked for are
    1, 2, ... up to the cursor, and the pages in the flow are among them,
    in increasing order. *)
Record InOrder (s : State) : Prop := mkInOrder {
  order_requests : requests s = seqZ 1 (pageNumber s);
  order_pages : StronglySorted Z.lt (map pw_number (pageContainer s));
  order_bound : Forall (fun w => pw_number w <= pageNumber s) (pageContainer s)
}.

(** ** The intersection callback, entry by entry *)

(** What the entries say last about page [p]: the flag of the last
    entry for [p], entries without a page number not counting. *)
Fixpoint last_report (p : Z) (entries : list IntersectionObserverEntry)
  : option bool :=
  match entries with
  | [] => None
  | entry :: rest =>
      match last_report p rest with
      | Some b => Some b
      | None =>
          if (pageNum entry =? p) && negb (pageNum entry =? 0)
          then Some (isIntersecting entry)
          else None
      end
  end.

(** ** The table of contents read back *)

(** The outline entry an [<li>] stands for: the text of its title and
    the entries of its nested list. *)
Fixpoint to_outline (item : TocItem) : OutlineNode :=
  match item with
  | Li titleSpan _ sublist =>
      Outline (match titleSpan with Some title => title | None => "" end)
              (match sublist with
               | Some subItems => map to_outline subItems
               | None => []
               end)
  end.

(** Typing [text] in the search box: the browser sets the value of the
    input and fires [oninput]. *)
Definition search (text : string) (s : State) : State :=
  snd (handleTocSearch (set_tocSearchInput text s)).

(** Every character of the string is white space. *)
Fixpoint blank (s : string) : bool :=
  match s with
  | EmptyString => true
  | String c s' => is_space c && blank s'
  end.

(** ** The rest of the viewer: panel, listener, teardown *)

(** The engine together with the parts of the instance that only
    [toggleToc], the click handler of an outline title and [destroy]
    touch. *)
Record Viewer := mkViewer {
  core : State;
  tocContainer : string;               (* style.transform *)
  tocButton_backgroundColor : string;  (* style.backgroundColor *)
  tocSearchInput_focus : bool;         (* focus() was called *)
  scroll_listener : bool;              (* handleScroll is registered *)
  pdfDoc_destroy : nat                 (* calls of pdfDoc.destroy() *)
}.

(** The instance as the constructor leaves it: the panel moved out of
    view, the scroll listener registered. *)
Definition new_viewer (options : RenderOptions) : Viewer :=
  mkViewer (constructor options) "translateX(100%)" "rgba(0, 0, 0, 0.5)"
    false true 0.

Definition with_core (s : State) (v : Viewer) : Viewer :=
  mkViewer s (tocContainer v) (tocButton_backgroundColor v)
    (tocSearchInput_focus v) (scroll_listener v) (pdfDoc_destroy v).

(** [toggleToc()].  The transform is compared with the text the engine
    itself assigns. *)
Definition toggleToc (v : Viewer) : Viewer :=
  let isHidden := bool_decide (tocContainer v = "translateX(100%)") in
  let v1 :=
    mkViewer (core v)
      (if isHidden then "translateX(0)" else "translateX(100%)")
      (if isHidden then "rgba(0, 0, 0, 0.7)" else "rgba(0, 0, 0, 0.5)")
      (tocSearchInput_focus v) (scroll_listener v) (pdfDoc_destroy v) in
  if isHidden then
    mkViewer (snd (handleTocSearch (set_tocSearchInput "" (core v1))))
      (tocContainer v1) (tocButton_backgroundColor v1)
      true (scroll_listener v1) (pdfDoc_destroy v1)
  else v1.

(** [destroy()]. *)
Definition destroy (v : Viewer) : Viewer :=
  mkViewer (set_dom_children [] (set_observed [] (core v)))
    (tocContainer v) (tocButton_backgroundColor v) (tocSearchInput_focus v)
    false
    (match pdfDoc (core v) with
     | Some _ => S (pdfDoc_destroy v)
     | None => pdfDoc_destroy v
     end).

(** The [dest] of an outline entry: a name to look up, or the
    destination itself ([None] when the entry has none); of an explicit
    destination only its first element, the page reference, is read. *)
Inductive ItemDest :=
| Named (name : string)
| Explicit (dest : option Z).

(** What pdf.js answers about destinations: [getDestination(name)]
    resolves to a destination or to [null], or rejects;
    [getPageIndex(ref)] resolves to a page index or rejects. *)
Record Resolver := mkResolver {
  getDestination : string -> JsThrown + option Z;
  getPageIndex : Z -> JsThrown + Z
}.

(** The [onclick] handler of an outline title. *)
Definition title_onclick (W : World) (R : Resolver) (dest : ItemDest)
  (v : Viewer) : Viewer :=
  let s := core v in
  if negb (bool_decide (is_Some (pdfDoc s))) || isLoading s then v
  else
    let catch (s' : State) := with_core (hideLoading s') v in
    let resolved :=
      match dest with
      | Named name => getDestination R name
      | Explicit d => inr d
      end in
    match resolved with
    | inl _ => catch s
    | inr None => v
    | inr (Some ref) =>
        match getPageIndex R ref with
        | inl _ => catch s
        | inr pageIndex =>
            match navigateToPage W (pageIndex + 1) s with
            | (Returned _, s') => toggleToc (with_core s' v)
            | (Thrown _, s') => catch s'
            end
        end
    end.

(** A resolver that knows one named destination, on the page with
    index 4, and no page for the reference 99. *)
Definition sample_resolver : Resolver :=
  mkResolver
    (fun name => if String.eqb name "chapter-b" then inr (Some 7) else inr None)
    (fun ref => if ref =? 99 then inl (JsError "Invalid page reference")
                else inr (ref - 3)).

(** The sample viewer with the sample document opened. *)
Definition sample_viewer : Viewer :=
  with_core sample_state (new_viewer sample_options).

(** * Object storage (lib/s3.ts)

    The functions that talk to the S3-compatible store.  The stored
    settings are what [getS3Settings()] returns ([None] for [null]); the
    store itself is a record of answers, one per kind of command; each
    function returns its result together with the alerts it showed and
    the commands it sent. *)

Module S3.

(** [S3Settings]; [region] and [isMinio] are optional. *)
Record S3Settings := mkSettings {
  endpoint : string;
  bucketName : string;
  region : option string;
  accessKeyId : string;
  secretAccessKey : string;
  isMinio : option bool
}.

(** The settings object handed to [new S3Client]. *)
Record ClientConfig := mkConfig {
  client_endpoint : string;
  client_region : string;
  client_accessKeyId : string;
  client_secretAccessKey : string;
  forcePathStyle : bool
}.

(** A string is truthy when it is not empty. *)
Definition filled (s : string) : bool := negb (String.eqb s "").

(** [a || b] for an optional string [a]. *)
Definition or_else (a : option string) (b : string) : string :=
  match a with
  | Some s => if filled s then s else b
  | None => b
  end.

(** [s.replace(/\/$/, '')]: the last character is dropped when it is a
    slash. *)
Fixpoint strip_slash (s : string) : string :=
  match s with
  | EmptyString => EmptyString
  | String c EmptyString =>
      if Ascii.eqb c "/" then EmptyString else s
  | String c s' => String c (strip_slash s')
  end.

(** The client settings both [getS3Client] and [testS3Connection]
    build. *)
Definition clientSettings (settings : S3Settings) : ClientConfig :=
  mkConfig (strip_slash (endpoint settings))
    (or_else (region settings) "us-east-1")
    (accessKeyId settings) (secretAccessKey settings)
    (match isMinio settings with Some true => true | _ => false end).

(** [getS3Client()], given what [getS3Settings()] returns. *)
Definition getS3Client (stored : option S3Settings) : option ClientConfig :=
  match stored with
  | None => None
  | Some settings =>
      if negb (filled (endpoint settings))
         || negb (filled (accessKeyId settings))
         || negb (filled (secretAccessKey settings))
      then None
      else Some (clientSettings settings)
  end.

(** The commands of the SDK that the module sends. *)
Inductive Command :=
| ListObjectsV2 (Bucket : string) (ContinuationToken Prefix : option string)
    (MaxKeys : Z)
| PutObject (Bucket Key : string) (Body : list Byte.byte)
| GetObject (Bucket Key : string)
| DeleteObject (Bucket Key : string).

(** An entry of [response.Contents]. *)
Record Object := mkObject {
  Key : option string;
  LastModified : option Z;
  Size : option Z
}.

Record ListOutput := mkListOutput {
  Contents : option (list Object);
  NextContinuationToken : option string
}.

(** The answer to a [GetObject]: the body, if any, with what
    [transformToByteArray()] gives. *)
Record GetOutput := mkGetOutput {
  Body : option (JsThrown + list Byte.byte);
  ContentLength : option Z;
  ContentType : option string
}.

(** What [s3Client.send(command)] ends with, for each kind of
    command. *)
Record Store := mkStore {
  list_objects : ClientConfig -> Command -> JsThrown + ListOutput;
  put_object : ClientConfig -> Command -> option JsThrown;
  get_object : ClientConfig -> Command -> JsThrown + GetOutput;
  delete_object : ClientConfig -> Command -> option JsThrown
}.

(** What a call did besides returning: the [alert]s shown and the
    commands sent, in order. *)
Record Effects := mkEffects {
  alerts : list string;
  sent : list (ClientConfig * Command)
}.

Definition quiet : Effects := mkEffects [] [].

(** [{ success, error? }]. *)
Record Status := mkStatus {
  ok : bool;
  error : option string
}.

Definition testS3Connection (R : Store) (settings : S3Settings)
  : Status * Effects :=
  if negb (filled (endpoint settings))
     || negb (filled (accessKeyId settings))
     || negb (filled (secretAccessKey settings))
  then (mkStatus false
          (Some "Endpoint, Access Key, and Secret Key are required."), quiet)
  else if negb (filled (bucketName settings))
  then (mkStatus false
          (Some "Bucket Name is required to test the connection."), quiet)
  else
    let s3Client := clientSettings settings in
    let command := ListObjectsV2 (bucketName settings) None None 1 in
    let effects := mkEffects [] [(s3Client, command)] in
    match list_objects R s3Client command with
    | inr _ => (mkStatus true None, effects)
    | inl err => (mkStatus false (Some (message_of err)), effects)
    end.

Record S3File := mkFile {
  key : string;
  lastModified : option Z;
  size : option Z
}.

Record ListS3FilesResult := mkResult {
  files : list S3File;
  nextContinuationToken : option string
}.

Record ListOptions := mkListOptions {
  continuationToken : option string;
  prefix : option string;
  maxKeys : option Z
}.

Definition not_configured : string :=
  "S3 settings are not configured. Please configure them in the settings menu.".

Definition no_bucket : string := "S3 bucket name is not configured.".

Definition listS3Files (R : Store) (stored : option S3Settings)
  (options : ListOptions) : ListS3FilesResult * Effects :=
  match getS3Client stored with
  | None => (mkResult [] None, mkEffects [not_configured] [])
  | Some s3Client =>
      match stored with
      | None => (mkResult [] None, quiet)
      | Some settings =>
          if negb (filled (bucketName settings)) then (mkResult [] None, quiet)
          else
            let command :=
              ListObjectsV2 (bucketName settings) (continuationToken options)
                (prefix options)
                (match maxKeys options with
                 | Some n => if n =? 0 then 50 else n
                 | None => 50
                 end) in
            match list_objects R s3Client command with
            | inr response =>
                let files :=
                  match Contents response with
                  | Some items =>
                      List.filter (fun item => filled (key item))
                        (map (fun item =>
                                mkFile (match Key item with
                                        | Some k => k
                                        | None => ""
                                        end)
                                  (LastModified item) (Size item)) items)
                  | None => []
                  end in
                (mkResult files (NextContinuationToken response),
                 mkEffects [] [(s3Client, command)])
            | inl err =>
                (mkResult [] None,
                 mkEffects
                   ["Failed to list files from S3. Error: " +:+ message_of err]
                   [(s3Client, command)])
            end
      end
  end.

Definition uploadToS3 (R : Store) (stored : option S3Settings)
  (fileKey : string) (data : list Byte.byte) : Status * Effects :=
  match getS3Client stored with
  | None => (mkStatus false (Some not_configured), mkEffects [not_configured] [])
  | Some s3Client =>
      match stored with
      | None => (mkStatus false (Some no_bucket), mkEffects [no_bucket] [])
      | Some settings =>
          if negb (filled (bucketName settings))
          then (mkStatus false (Some no_bucket), mkEffects [no_bucket] [])
          else
            let command := PutObject (bucketName settings) fileKey data in
            match put_object R s3Client command with
            | None => (mkStatus true None, mkEffects [] [(s3Client, command)])
            | Some err =>
                let errorMessage := message_of err in
                (mkStatus false (Some errorMessage),
                 mkEffects
                   ["Failed to upload file to S3. Error: " +:+ errorMessage]
                   [(s3Client, command)])
            end
      end
  end.


(** [s.split(sep)] for a one-character separator: never empty. *)
Fixpoint split (sep : ascii) (s : string) : list string :=
  match s with
  | EmptyString => [EmptyString]
  | String c s' =>
      if Ascii.eqb c sep then EmptyString :: split sep s'
      else match split sep s' with
           | h :: t => String c h :: t
           | [] => [String c EmptyString]
           end
  end.

(** [l.pop()] of a list that is not empty. *)
Definition pop (l : list string) : string := List.last l EmptyString.

(** [fileKey.split('/').pop() || fileKey]. *)
Definition fileName_of (fileKey : string) : string :=
  let name := pop (split "/" fileKey) in
  if filled name then name else fileKey.

(** [s.endsWith(suffix)]. *)
Fixpoint endsWith (s suffix : string) : bool :=
  String.eqb s suffix
  || match s with
     | EmptyString => false
     | String _ s' => endsWith s' suffix
     end.

(** The type given to the [File] that [downloadFromS3] builds. *)
Definition mimeType_of (fileName : string) (contentType : option string)
  : string :=
  if endsWith (toLowerCase fileName) ".xlsx"
  then "application/vnd.openxmlformats-officedocument.spreadsheetml.sheet"
  else if endsWith (toLowerCase fileName) ".xls"
  then "application/vnd.ms-excel"
  else or_else contentType "".

(** The arguments of [new File([blobPart], fileName, { type })]. *)
Record File := mkFileObject {
  file_bytes : list Byte.byte;
  file_name : string;
  file_type : string
}.

(** [downloadFromS3(fileKey)]: [Returned None] is [null]; [Thrown] is
    the rejection that follows the alert. *)
Definition downloadFromS3 (R : Store) (stored : option S3Settings)
  (fileKey : string) : Outcome (option File) * Effects :=
  match getS3Client stored with
  | None => (Returned None, mkEffects [not_configured] [])
  | Some s3Client =>
      match stored with
      | None => (Returned None, mkEffects [no_bucket] [])
      | Some settings =>
          if negb (filled (bucketName settings))
          then (Returned None, mkEffects [no_bucket] [])
          else
            let command := GetObject (bucketName settings) fileKey in
            let catch (err : JsThrown) :=
              (Thrown err,
               mkEffects
                 ["Failed to download file from S3. Error: " +:+ message_of err]
                 [(s3Client, command)]) in
            match get_object R s3Client command with
            | inl err => catch err
            | inr response =>
                let empty :=
                  JsError "Empty file from S3 or unknown content length." in
                match Body response, ContentLength response with
                | None, _ => catch empty
                | _, None => catch empty
                | Some body, Some n =>
                    if n <=? 0 then catch empty
                    else
                      match body with
                      | inl err => catch err
                      | inr bytes =>
                          let fileName := fileName_of fileKey in
                          (Returned
                             (Some (mkFileObject bytes fileName
                                      (mimeType_of fileName
                                         (ContentType response)))),
                           mkEffects [] [(s3Client, command)])
                      end
                end
            end
      end
  end.

End S3.

(** ** Samples for the object store *)

Definition sample_settings : S3.S3Settings :=
  S3.mkSettings "http://127.0.0.1:9000/" "documents" (Some "") "minio" "secret"
    (Some true).

(** A store that holds one spreadsheet and lists it after an object
    without a key; it refuses uploads. *)
Definition sample_store : S3.Store :=
  S3.mkStore
    (fun _ _ =>
       inr (S3.mkListOutput
              (Some [S3.mkObject None None None;
                     S3.mkObject (Some "reports/2024/Budget.XLSX") (Some 1700000000)
                       (Some 3)])
              (Some "next")))
    (fun _ _ => Some (JsError "AccessDenied"))
    (fun _ command =>
       match command with
       | S3.GetObject _ "reports/2024/Budget.XLSX" =>
           inr (S3.mkGetOutput (Some (inr [Byte.x00; Byte.x01; Byte.x02]))
                  (Some 3) (Some "binary/octet-stream"))
       | S3.GetObject _ "empty" =>
           inr (S3.mkGetOutput (Some (inr [])) (Some 0) None)
       | _ => inl (JsError "NoSuchKey")
       end)
    (fun _ _ => None).

(** * The file sidebar and its refresh *)

Module Sidebar.

(** [populateSidebar] writes the file name into the [innerHTML] of a
    row as it is, so which elements the row has depends on the name.
    What the code looks for in a row: [download_btn] and [delete_btn]
    tell whether [querySelector('.download-btn')] and
    [querySelector('.delete-btn')] find an element in it, and
    [load_more_inside] counts its outermost elements of class
    [load-more-button].  The template itself has both buttons and no
    element of that class. *)
Record RowDom := mkRowDom {
  download_btn : bool;
  delete_btn : bool;
  load_more_inside : nat
}.

(** The HTML parser of the browser on the row written for a file name.
    The other texts of a row are a colour of the code's own and
    formatted numbers. *)
Definition Parser := string -> RowDom.

(** A child of the [#s3-file-list] element: the row of a file (its
    [data-file-key], the name and the colour of the icon written into
    it, and the number of outermost [load-more-button] elements inside
    it), the "No files found" block, or the "Load More" item. *)
Inductive Child :=
| FileRow (fileKey fileName iconColor : string) (inside : nat)
| EmptyState
| LoadMore.

(** [name.split('.').pop()?.toLowerCase() || '']. *)
Definition extension_of (name : string) : string :=
  toLowerCase (S3.pop (S3.split "." name)).

(** The [switch] on the extension in [populateSidebar]. *)
Definition iconColor_of (fileExtension : string) : string :=
  if String.eqb fileExtension "docx" || String.eqb fileExtension "doc"
  then "#2563eb"
  else if String.eqb fileExtension "xlsx" || String.eqb fileExtension "xls"
  then "#059669"
  else if String.eqb fileExtension "pptx" || String.eqb fileExtension "ppt"
  then "#dc2626"
  else "#6b7280".

Definition row_of (P : Parser) (file : S3.S3File) : Child :=
  let fileName := S3.fileName_of (S3.key file) in
  FileRow (S3.key file) fileName (iconColor_of (extension_of fileName))
    (load_more_inside (P fileName)).

(** [fileList.querySelector('.load-more-button')?.remove()]: the first
    element of that class in document order is taken out, be it the
    "Load More" item or an element inside a row. *)
Fixpoint remove_load_more (fileList : list Child) : list Child :=
  match fileList with
  | [] => []
  | LoadMore :: rest => rest
  | FileRow fileKey fileName iconColor (S inside) :: rest =>
      FileRow fileKey fileName iconColor inside :: rest
  | child :: rest => child :: remove_load_more rest
  end.

(** The [files.forEach] of [populateSidebar]: a row is appended after
    its listeners are attached, and [downloadBtn.addEventListener] or
    [deleteBtn.addEventListener] throws a [TypeError] when the button
    was not found, which ends the loop.  The result is the list and
    whether the loop came to its end. *)
Fixpoint append_rows (P : Parser) (files : list S3.S3File)
  (fileList : list Child) : list Child * bool :=
  match files with
  | [] => (fileList, true)
  | file :: rest =>
      let fileName := S3.fileName_of (S3.key file) in
      if download_btn (P fileName) && delete_btn (P fileName)
      then append_rows P rest (fileList ++ [row_of P file])
      else (fileList, false)
  end.

(** [populateSidebar(files, append)] on the children of the list
    element: the children it leaves, and [false] when it threw. *)
Definition populateSidebar (P : Parser) (files : list S3.S3File)
  (append : bool) (fileList : list Child) : list Child * bool :=
  let cleared := if append then fileList else [] in
  let kept := remove_load_more cleared in
  match files, append with
  | [], false => (kept ++ [EmptyState], true)
  | _, _ => append_rows P files kept
  end.

(** [addLoadMoreButton(onClick)]. *)
Definition addLoadMoreButton (fileList : list Child) : list Child :=
  remove_load_more fileList ++ [LoadMore].

(** The module variables of the page and the children of the list
    element, if the sidebar was created. *)
Record Page := mkPage {
  s3IsLoading : bool;
  s3NextContinuationToken : option string;
  s3SearchPrefix : string;
  fileList : option (list Child)
}.

(** [refreshS3FileList(append)], with the effects of its listing.  An
    exception of [populateSidebar] is caught and logged: the token is
    then not stored and no "Load More" item is added. *)
Definition refreshS3FileList (P : Parser) (R : S3.Store)
  (stored : option S3.S3Settings) (append : bool) (page : Page)
  : Page * S3.Effects :=
  if s3IsLoading page then (page, S3.quiet)
  else
    let listed :=
      S3.listS3Files R stored
        (S3.mkListOptions
           (if append then s3NextContinuationToken page else None)
           (Some (s3SearchPrefix page)) None) in
    let files := S3.files (fst listed) in
    let nextContinuationToken := S3.nextContinuationToken (fst listed) in
    let more :=
      match nextContinuationToken with
      | Some token => S3.filled token
      | None => false
      end in
    match fileList page with
    | None =>
        (mkPage false nextContinuationToken (s3SearchPrefix page) None,
         snd listed)
    | Some children =>
        let populated := populateSidebar P files append children in
        if snd populated
        then
          (mkPage false nextContinuationToken (s3SearchPrefix page)
             (Some (if more then addLoadMoreButton (fst populated)
                    else fst populated)),
           snd listed)
        else
          (mkPage false (s3NextContinuationToken page) (s3SearchPrefix page)
             (Some (fst populated)),
           snd listed)
    end.

(** How [openFile] chooses what to open a file with. *)
Inductive Opener :=
| ImageViewer
| PdfViewer
| OfficeEditor.

Definition opener_of (name : string) : Opener :=
  let extension := extension_of name in
  if existsb (String.eqb extension) ["jpg"; "jpeg"; "png"; "gif"; "bmp"; "webp"]
  then ImageViewer
  else if String.eqb extension "pdf" then PdfViewer
  else OfficeEditor.

(** A row parsed as the template. *)
Definition intact (dom : RowDom) : bool :=
  download_btn dom && delete_btn dom && (load_more_inside dom =? 0)%nat.

(** A child that is not the "Load More" item and holds no element of
    its class. *)
Definition clean (child : Child) : Prop :=
  match child with
  | FileRow _ _ _ inside => inside = 0%nat
  | EmptyState => True
  | LoadMore => False
  end.

(** The list has at most one element of class [load-more-button]: the
    "Load More" item, as its last child. *)
Definition tidy (fileList : list Child) : Prop :=
  exists rows,
    (fileList = rows \/ fileList = rows ++ [LoadMore]) /\ Forall clean rows.

End Sidebar.

(** A parser for names that hold no markup but, possibly, the opening
    of a comment: the comment swallows the rest of the row, the buttons
    with it. *)
Definition sample_parser : Sidebar.Parser :=
  fun fileName =>
    if includes fileName "<!--" then Sidebar.mkRowDom false false 0
    else Sidebar.mkRowDom true true 0.

(** A store that lists three documents, the second with a name that
    opens a comment. *)
Definition markup_store : S3.Store :=
  S3.mkStore
    (fun _ _ =>
       inr (S3.mkListOutput
              (Some [S3.mkObject (Some "documents/a.docx") None None;
                     S3.mkObject (Some "documents/a<!--b.docx") None None;
                     S3.mkObject (Some "documents/c.docx") None None])
              (Some "next")))
    (fun _ _ => None)
    (fun _ _ => inl (JsError "NoSuchKey"))
    (fun _ _ => None).

(** * Properties *)

(** ** One page render *)

Lemma set_last_canvas_snoc (c : Canvas) (l : list PageWrapper) (w : PageWrapper) :
  set_last_canvas c (l ++ [w])
  = l ++ [mkWrapper (pw_number w) (pw_scale w) (pw_divider w) c].
Proof.
  induction l as [|a l IH]; [reflexivity|].
  cbn [app set_last_canvas]. rewrite IH.
  destruct (l ++ [w]) eqn:E; [|reflexivity].
  destruct l; discriminate.
Qed.

Lemma getPdfPage_open (W : World) (number : Z) (s : State) :
  is_Some (pdfDoc s) ->
  getPdfPage W number s
  = (Returned (result_of W (clock s) number), rendered W number s).
Proof.
  intros [doc Hdoc].
  unfold getPdfPage, rendered, result_of, reported, appended, caught,
    canvas_after, bind, modify, get, try_catch, await, call_onError, ret, throw.
  destruct s; cbn in *. subst.
  cbn.
  destruct (getPage W clock0 number) as [e|]; cbn.
  { destruct onError0; cbn; rewrite ?app_nil_r; reflexivity. }
  destruct (getContext W clock0 number); cbn.
  - rewrite !set_last_canvas_snoc; cbn.
    destruct (render W clock0 number) as [e|]; cbn.
    + destruct onError0; cbn; rewrite ?app_nil_r; reflexivity.
    + rewrite !set_last_canvas_snoc, ?app_nil_r; reflexivity.
  - destruct onError0; cbn; rewrite ?app_nil_r; reflexivity.
Qed.

Lemma getPdfPage_closed (W : World) (number : Z) (s : State) :
  pdfDoc s = None ->
  getPdfPage W number s
  = (Returned (failure "pdfDoc is undefined"),
     set_requests (requests s ++ [number]) s).
Proof.
  intros Hdoc. unfold getPdfPage, bind, modify, get, ret.
  destruct s; cbn in *. subst. reflexivity.
Qed.

Lemma getPdfPage_run (W : World) (number : Z) (s : State) :
  getPdfPage W number s
  = (Returned (getPdfPage_result W number s), after_getPdfPage W number s).
Proof.
  unfold getPdfPage_result, after_getPdfPage.
  destruct (pdfDoc s) eqn:E.
  - apply getPdfPage_open. rewrite E. eauto.
  - apply getPdfPage_closed, E.
Qed.

Lemma same_engine_refl (s : State) : same_engine s s.
Proof. repeat split. Qed.

Lemma same_engine_trans (s1 s2 s3 : State) :
  same_engine s1 s2 -> same_engine s2 s3 -> same_engine s1 s3.
Proof. unfold same_engine. intuition congruence. Qed.

Lemma after_getPdfPage_same (W : World) (number : Z) (s : State) :
  same_engine s (after_getPdfPage W number s).
Proof.
  unfold after_getPdfPage, rendered.
  destruct (pdfDoc s) eqn:E; destruct s; cbn in *; repeat split; assumption.
Qed.

Lemma after_pages_same (W : World) (pages : list Z) (s : State) :
  same_engine s (after_pages W pages s).
Proof.
  revert s. induction pages as [|p pages IH]; intros s; cbn.
  - apply same_engine_refl.
  - eapply same_engine_trans; [apply (after_getPdfPage_same W p)|apply IH].
Qed.

Lemma renderPagesBatch_run (W : World) (startPage endPage : Z) (s : State) :
  renderPagesBatch W startPage endPage s
  = (Returned tt, after_pages W (batch_pages startPage endPage (total s)) s).
Proof.
  remember (Z.to_nat (endPage + 1 - startPage)) as n eqn:Hn.
  revert startPage s Hn.
  induction n as [|n IH]; intros i s Hn;
    rewrite renderPagesBatch_equation_1; cbn;
    destruct (Z_le_dec i endPage) as [Hle|Hgt]; cbn; unfold batch_pages.
  - lia.
  - unfold ret. rewrite seqZ_nil by lia. reflexivity.
  - destruct (Z.leb_spec i (total s)) as [Ht|Ht].
    + unfold bind, delay, ret. rewrite getPdfPage_run.
      rewrite (IH (i + 1)) by lia.
      destruct (after_getPdfPage_same W i s) as (_ & Htot & _).
      rewrite Htot. unfold batch_pages.
      rewrite (seqZ_cons i) by lia. cbn.
      replace (Z.succ i) with (i + 1) by lia.
      replace (Z.pred (Z.min endPage (total s) - i + 1))
        with (Z.min endPage (total s) - (i + 1) + 1) by lia.
      reflexivity.
    + rewrite seqZ_nil by lia. reflexivity.
  - unfold ret. rewrite seqZ_nil by lia. reflexivity.
Qed.

(** ** Single-page steps *)

Lemma renderNextPage_run (W : World) (s : State) :
  isLoading s = false -> pageNumber s < total s ->
  renderNextPage W s = (Returned tt, next_page W s).
Proof.
  intros Hbusy Hlt. unfold renderNextPage, next_page, bind, get, modify.
  rewrite Hbusy. destruct (Z.leb_spec (total s) (pageNumber s)); [lia|].
  cbn [orb]. cbv beta. rewrite getPdfPage_run.
  unfold after_getPdfPage, rendered, reported.
  destruct s; cbn in *; subst. destruct pdfDoc0; reflexivity.
Qed.

Lemma renderNextPage_skip (W : World) (s : State) :
  isLoading s = true \/ total s <= pageNumber s ->
  renderNextPage W s = (Returned tt, s).
Proof.
  intros H. unfold renderNextPage, bind, get.
  destruct (isLoading s); [reflexivity|].
  destruct (Z.leb_spec (total s) (pageNumber s)); [reflexivity|].
  destruct H; [discriminate|lia].
Qed.

Lemma handleScroll_skip (W : World) (s : State) :
  isLoading s = true \/ total s <= pageNumber s ->
  handleScroll W s = (Returned tt, s).
Proof.
  intros H. unfold handleScroll, bind, get.
  destruct (isLoading s); [reflexivity|].
  destruct (Z.leb_spec (total s) (pageNumber s)); [reflexivity|].
  destruct H; [discriminate|lia].
Qed.

Lemma handleScroll_far (W : World) (s : State) :
  ~ near_bottom W s -> handleScroll W s = (Returned tt, s).
Proof.
  intros H. unfold handleScroll, bind, get, near_bottom in *.
  destruct (isLoading s || (total s <=? pageNumber s)); [reflexivity|].
  destruct (Z.leb_spec (dom_scrollHeight W (pageContainer s) - 200)
              (dom_scrollTop s + dom_clientHeight W)); [lia|reflexivity].
Qed.

Lemma handleScroll_run (W : World) (s : State) :
  isLoading s = false -> pageNumber s < total s -> near_bottom W s ->
  handleScroll W s = (Returned tt, next_page W s).
Proof.
  intros Hbusy Hlt Hnear.
  rewrite <- (renderNextPage_run W s Hbusy Hlt).
  unfold handleScroll, bind, get, near_bottom in *.
  rewrite Hbusy. destruct (Z.leb_spec (total s) (pageNumber s)); [lia|]. cbn.
  destruct (Z.leb_spec (dom_scrollHeight W (pageContainer s) - 200)
              (dom_scrollTop s + dom_clientHeight W)); [reflexivity|lia].
Qed.

(** ** Navigation *)

Lemma navigateToPage_run (W : World) (pageNumber' : Z) (s : State) :
  1 <= pageNumber' <= total s -> is_Some (pdfDoc s) -> isLoading s = false ->
  navigateToPage W pageNumber' s = (Returned tt, navigated W pageNumber' s).
Proof.
  intros [H1 H2] Hdoc Hbusy.
  unfold navigateToPage. unfold bind at 1. unfold get at 1.
  destruct (Z.ltb_spec pageNumber' 1); [lia|].
  destruct (Z.ltb_spec (total s) pageNumber'); [lia|].
  rewrite bool_decide_eq_true_2 by assumption. rewrite Hbusy. cbn [orb negb].
  unfold try_finally, try_catch, navigated.
  unfold bind, modify, get, ret. cbn.
  fold (cleared pageNumber' s).
  rewrite renderPagesBatch_run.
  replace (total (cleared pageNumber' s)) with (total s)
    by (destruct s; reflexivity).
  set (s1 := after_pages W _ (cleared pageNumber' s)).
  unfold second_batch.
  destruct (pageContainer_scrollHeight W (pageContainer s1) <? dom_clientHeight W);
    [|reflexivity].
  cbn zeta.
  destruct (0 <? min_ext _ _); [|reflexivity].
  rewrite renderPagesBatch_run. reflexivity.
Qed.

(** ** Device scale *)



Lemma deviceScale_other_undefined (W : World) :
  isSafari W = false -> devicePixelRatio W = JsUndefined ->
  deviceScale W = JsNum 1.
Proof. intros Hs Hd. unfold deviceScale. rewrite Hs, Hd. reflexivity. Qed.

Example scale_safari_3 : deviceScale (runtime true (JsNum 3)) = JsNum 2.
Proof. reflexivity. Qed.

Example scale_other_3 : deviceScale (runtime false (JsNum 3)) = JsNum 3.
Proof. reflexivity. Qed.

Example scale_other_undefined : deviceScale (runtime false JsUndefined) = JsNum 1.
Proof. reflexivity. Qed.

Example scale_safari_fraction :
  deviceScale (runtime true (JsNum (3 # 2))) = JsNum (3 # 2).
Proof. reflexivity. Qed.

(** Outside what a browser gives: [Math.min(undefined, 2)] is [NaN],
    the default [1] is written in the other branch only.  Safari always
    defines [window.devicePixelRatio]. *)
Example scale_safari_undefined :
  deviceScale (runtime true JsUndefined) = JsNaN.
Proof. reflexivity. Qed.


(** ** Rejected navigation *)

Lemma navigateToPage_skip (W : World) (n : Z) (s : State) :
  n < 1 \/ total s < n \/ isLoading s = true ->
  navigateToPage W n s = (Returned tt, s).
Proof.
  intros H. unfold navigateToPage, bind, get.
  destruct (Z.ltb_spec n 1); [reflexivity|].
  destruct (Z.ltb_spec (total s) n); [reflexivity|].
  destruct H as [H|[H|H]]; [lia|lia|].
  rewrite H. cbn [orb]. rewrite orb_true_r. reflexivity.
Qed.

(** C6: [navigateToPage(n)] with [n] outside [1, total], or called
    while the busy flag is set, returns at once and leaves the whole
    state as it was: no render request, the container, the cursor, the
    VisibleSet and the busy flag untouched. *)
Theorem navigateToPage_rejected (W : World) (n : Z) (s : State) :
  n < 1 \/ total s < n \/ isLoading s = true ->
  navigateToPage W n s = (Returned tt, s).
Proof. apply navigateToPage_skip. Qed.

Lemma navigateToPage_rejected_witness :
  (11 < 1 \/ total sample_state < 11 \/ isLoading sample_state = true)
  /\ navigateToPage sample_world 11 sample_state = (Returned tt, sample_state).
Proof.
  assert (H : 11 < 1 \/ total sample_state < 11 \/ isLoading sample_state = true)
    by (right; left; vm_compute; reflexivity).
  split; [exact H|exact (navigateToPage_rejected sample_world 11 sample_state H)].
Defined.

(** ** Scroll continuation *)

Lemma after_getPdfPage_requests (W : World) (number : Z) (s : State) :
  requests (after_getPdfPage W number s) = requests s ++ [number].
Proof.
  unfold after_getPdfPage, rendered. destruct (pdfDoc s); destruct s; reflexivity.
Qed.

Lemma after_getPdfPage_container (W : World) (number : Z) (s : State) :
  exists ws,
    pageContainer (after_getPdfPage W number s) = pageContainer s ++ ws
    /\ (length ws <= 1)%nat
    /\ Forall (fun w => pw_number w = number) ws
    /\ (is_Some (pdfDoc s) -> getPage W (clock s) number = None ->
        ws = [mkWrapper number (deviceScale W) (number <? total s)
                (canvas_after W (clock s) number)]).
Proof.
  unfold after_getPdfPage, rendered, appended.
  destruct (pdfDoc s) eqn:Hdoc.
  - destruct (getPage W (clock s) number) eqn:Hpage.
    + exists []. destruct s; cbn in *.
      repeat split; [lia|constructor|discriminate].
    + exists [mkWrapper number (deviceScale W) (number <? total s)
                (canvas_after W (clock s) number)].
      destruct s; cbn in *.
      split; [reflexivity|].
      repeat split; [lia|repeat constructor].
  - exists []. destruct s; cbn in *. rewrite app_nil_r.
    repeat split; [lia|constructor|]. intros [? ?]; discriminate.
Qed.

(** The scenario of the specification: ten pages in a viewport of two
    and a half; opening renders pages 1 to 3, a scroll near the bottom
    renders page 4 only, and once page 10 is rendered further scroll
    events change nothing. *)
Example open_then_scroll :
  requests sample_state = [1; 2; 3]
  /\ requests (scroll sample_world 300 sample_state) = [1; 2; 3; 4]
  /\ requests (scrolls sample_world (repeat 5000 9) sample_state)
     = seqZ 1 10
  /\ scrolls sample_world (repeat 5000 9) sample_state
     = scrolls sample_world (repeat 5000 7) sample_state.
Proof. vm_compute. repeat split. Qed.

(** C3: a scroll event that finds the busy flag set, or every page
    already rendered, changes nothing (the request is dropped); one that
    finds the engine idle with pages left and the scroll position within
    200 units of the bottom asks for exactly one page, the successor of
    the cursor, appends at most that one page (exactly that one when the
    page could be fetched), and leaves the engine idle again. *)
Theorem handleScroll_one_page (W : World) (s : State) :
  (isLoading s = true \/ total s <= pageNumber s ->
   handleScroll W s = (Returned tt, s))
  /\ (isLoading s = false -> pageNumber s < total s -> near_bottom W s ->
      let s' := snd (handleScroll W s) in
      fst (handleScroll W s) = Returned tt
      /\ requests s' = requests s ++ [pageNumber s + 1]
      /\ pageNumber s' = pageNumber s + 1
      /\ isLoading s' = false
      /\ exists ws,
           pageContainer s' = pageContainer s ++ ws
           /\ (length ws <= 1)%nat
           /\ Forall (fun w => pw_number w = pageNumber s + 1) ws
           /\ (is_Some (pdfDoc s) ->
               getPage W (clock s) (pageNumber s + 1) = None ->
               length ws = 1%nat)).
Proof.
  split; [apply handleScroll_skip|].
  intros Hbusy Hlt Hnear. cbv zeta.
  rewrite (handleScroll_run W s Hbusy Hlt Hnear). cbn [fst snd].
  unfold next_page.
  pose proof (after_getPdfPage_same W (pageNumber s + 1) s)
    as (_ & _ & _ & Hload & _).
  pose proof (after_getPdfPage_requests W (pageNumber s + 1) s) as Hreq.
  destruct (after_getPdfPage_container W (pageNumber s + 1) s)
    as (ws & Hws & Hlen & Hall & Hone).
  set (s1 := after_getPdfPage W (pageNumber s + 1) s) in *.
  split; [reflexivity|].
  split; [destruct s1; exact Hreq|].
  split; [destruct s1; reflexivity|].
  split; [destruct s1; cbn in *; congruence|].
  exists ws. split; [destruct s1; exact Hws|].
  split; [exact Hlen|]. split; [exact Hall|].
  intros Hdoc Hpage. rewrite (Hone Hdoc Hpage). reflexivity.
Qed.

Lemma handleScroll_one_page_witness :
  let busy := set_isLoading true sample_state in
  handleScroll sample_world busy = (Returned tt, busy)
  /\ requests (snd (handleScroll sample_world sample_state)) = [1; 2; 3; 4]
  /\ map pw_number (pageContainer (snd (handleScroll sample_world sample_state)))
     = [1; 2; 3; 4].
Proof.
  cbv zeta. split.
  - apply (proj1 (handleScroll_one_page sample_world
                    (set_isLoading true sample_state))).
    left. reflexivity.
  - assert (Hbusy : isLoading sample_state = false) by reflexivity.
    assert (Hlt : pageNumber sample_state < total sample_state)
      by (vm_compute; reflexivity).
    assert (Hnear : near_bottom sample_world sample_state)
      by (vm_compute; discriminate).
    destruct (proj2 (handleScroll_one_page sample_world sample_state)
                Hbusy Hlt Hnear) as (_ & Hreq & _).
    split; [exact Hreq|vm_compute; reflexivity].
Defined.

(** ** The cursor after a failed render *)

Lemma handleScroll_cases (W : World) (s : State) :
  snd (handleScroll W s) = s
  \/ (isLoading s = false /\ pageNumber s < total s
      /\ snd (handleScroll W s) = next_page W s).
Proof.
  destruct (isLoading s) eqn:Hbusy.
  { left. rewrite handleScroll_skip by (left; exact Hbusy). reflexivity. }
  destruct (Z_le_dec (total s) (pageNumber s)) as [Hle|Hlt].
  { left. rewrite handleScroll_skip by (right; exact Hle). reflexivity. }
  destruct (Z_le_dec (dom_scrollHeight W (pageContainer s) - 200)
              (dom_scrollTop s + dom_clientHeight W)) as [Hnear|Hfar].
  - right. rewrite handleScroll_run by (assumption || lia). auto with zarith.
  - left. rewrite handleScroll_far by exact Hfar. reflexivity.
Qed.

Lemma next_page_fields (W : World) (s : State) :
  requests (next_page W s) = requests s ++ [pageNumber s + 1]
  /\ pageNumber (next_page W s) = pageNumber s + 1
  /\ total (next_page W s) = total s
  /\ isLoading (next_page W s) = isLoading s
  /\ pdfDoc (next_page W s) = pdfDoc s.
Proof.
  unfold next_page.
  pose proof (after_getPdfPage_same W (pageNumber s + 1) s)
    as (Hdoc & Htot & _ & Hload & _).
  pose proof (after_getPdfPage_requests W (pageNumber s + 1) s) as Hreq.
  destruct (after_getPdfPage W (pageNumber s + 1) s); cbn in *.
  repeat split; assumption.
Qed.

Lemma scrolls_requests (W : World) (tops : list Z) (s : State) :
  exists extra,
    requests (scrolls W tops s) = requests s ++ extra
    /\ Forall (fun q => pageNumber s < q) extra
    /\ pageNumber s <= pageNumber (scrolls W tops s).
Proof.
  revert s. induction tops as [|top tops IH]; intros s.
  { exists []. cbn. rewrite app_nil_r. repeat split; [constructor|lia]. }
  change (scrolls W (top :: tops) s) with (scrolls W tops (scroll W top s)).
  destruct (IH (scroll W top s)) as (extra & Hreq & Hall & Hle).
  unfold scroll in *.
  set (s0 := set_dom_scrollTop top s) in *.
  assert (Hp : pageNumber s0 = pageNumber s) by (destruct s; reflexivity).
  assert (Hr : requests s0 = requests s) by (destruct s; reflexivity).
  destruct (handleScroll_cases W s0) as [Hsame|(_ & _ & Hnext)].
  - rewrite Hsame in *. exists extra. rewrite Hreq, Hr, <- Hp.
    repeat split; assumption.
  - rewrite Hnext in *.
    destruct (next_page_fields W s0) as (Hreq' & Hpn' & _).
    exists ((pageNumber s + 1) :: extra).
    rewrite Hreq, Hreq', Hr, Hp, <- app_assoc. cbn.
    repeat split.
    + constructor; [lia|].
      eapply Forall_impl; [exact Hall|]. cbn. intros q Hq. lia.
    + lia.
Qed.

(** C10: a single-page render step (the one a scroll continuation and
    every iteration of the initial fill run) asks for the page after the
    cursor and then moves the cursor onto it whatever the render
    returned, a failure result included; every page that later scroll
    events ask for lies beyond it, so the failed page is not asked for
    again. *)
Theorem cursor_advances_past_failure (W : World) (s : State) (tops : list Z) :
  isLoading s = false -> pageNumber s < total s ->
  let p := pageNumber s + 1 in
  let s1 := snd (renderNextPage W s) in
  requests s1 = requests s ++ [p]
  /\ pageNumber s1 = p
  /\ isLoading s1 = false
  /\ exists extra,
       requests (scrolls W tops s1) = requests s1 ++ extra
       /\ Forall (fun q => p < q) extra.
Proof.
  intros Hbusy Hlt. cbv zeta. rewrite (renderNextPage_run W s Hbusy Hlt).
  cbn [snd]. destruct (next_page_fields W s) as (Hreq & Hpn & _ & Hload & _).
  split; [exact Hreq|]. split; [exact Hpn|]. split; [congruence|].
  destruct (scrolls_requests W tops (next_page W s)) as (extra & He & Hall & _).
  exists extra. split; [exact He|]. rewrite Hpn in Hall. exact Hall.
Qed.

Lemma cursor_advances_past_failure_witness :
  success (getPdfPage_result sample_world 2 sample_first) = false
  /\ pageNumber (snd (renderNextPage sample_world sample_first)) = 2
  /\ requests (scrolls sample_world [5000; 0; 6000]
                 (snd (renderNextPage sample_world sample_first)))
     = [1; 2; 3; 4; 5].
Proof.
  assert (Hbusy : isLoading sample_first = false) by reflexivity.
  assert (Hlt : pageNumber sample_first < total sample_first)
    by (vm_compute; reflexivity).
  destruct (cursor_advances_past_failure sample_world sample_first
              [5000; 0; 6000] Hbusy Hlt) as (_ & Hpn & _).
  split; [reflexivity|]. split; [exact Hpn|vm_compute; reflexivity].
Defined.

(** ** Initial fill *)

Lemma steps_fields (W : World) (k : nat) (s : State) :
  requests (steps W k s) = requests s ++ seqZ (pageNumber s + 1) (Z.of_nat k)
  /\ pageNumber (steps W k s) = pageNumber s + Z.of_nat k
  /\ total (steps W k s) = total s
  /\ isLoading (steps W k s) = isLoading s
  /\ pdfDoc (steps W k s) = pdfDoc s.
Proof.
  revert s. induction k as [|k IH]; intros s.
  - cbn. rewrite app_nil_r. repeat split; lia.
  - cbn [steps]. destruct (IH (next_page W s)) as (Hr & Hp & Ht & Hl & Hd).
    destruct (next_page_fields W s) as (Hr' & Hp' & Ht' & Hl' & Hd').
    rewrite Hr, Hp, Ht, Hl, Hd, Hr', Hp', Ht', Hl', Hd'.
    repeat split; try lia.
    rewrite <- app_assoc. f_equal.
    rewrite (seqZ_cons (pageNumber s + 1) (Z.of_nat (S k))) by lia.
    cbn [app]. do 2 f_equal; lia.
Qed.

Lemma initialFill_run (W : World) (fuel : nat) (s : State) :
  isLoading s = false -> total s - pageNumber s <= Z.of_nat fuel ->
  exists k,
    (k <= fuel)%nat
    /\ initialFill W fuel s = Some (Returned tt, steps W k s)
    /\ fill_more W (steps W k s) = false
    /\ forall j, (j < k)%nat -> fill_more W (steps W j s) = true.
Proof.
  revert s. induction fuel as [|fuel IH]; intros s Hbusy Hfuel.
  - exists O. cbn [initialFill steps]. fold (fill_more W s).
    destruct (fill_more W s) eqn:Hmore.
    + unfold fill_more in Hmore. apply andb_true_iff in Hmore as [Hlt _].
      apply Z.ltb_lt in Hlt. lia.
    + repeat split; [lia|]. intros j Hj. lia.
  - cbn [initialFill]. fold (fill_more W s).
    destruct (fill_more W s) eqn:Hmore.
    + assert (Hlt : pageNumber s < total s).
      { unfold fill_more in Hmore. apply andb_true_iff in Hmore as [Hlt _].
        apply Z.ltb_lt in Hlt. exact Hlt. }
      rewrite (renderNextPage_run W s Hbusy Hlt).
      destruct (next_page_fields W s) as (_ & Hp & Ht & Hl & _).
      destruct (IH (next_page W s)) as (k & Hk & Hrun & Hstop & Hbefore).
      { congruence. }
      { rewrite Hp, Ht. lia. }
      exists (S k). cbn [steps]. repeat split; [lia|assumption|assumption|].
      intros [|j] Hj; [exact Hmore|]. cbn [steps]. apply Hbefore. lia.
    + exists O. cbn [steps]. repeat split; [lia|assumption|].
      intros j Hj. lia.
Qed.

Lemma opened_run (doc : PDFDocumentProxy) (s : State) :
  (modify (set_pdfDoc (Some doc)) ;;
   modify (set_total (numPages doc)) ;;
   call_onLoad (mkReturn true (DDocument doc) None) ;;
   updatePageIndicator 1 ;;
   renderOutline) s
  = (Returned tt, opened doc s).
Proof.
  unfold opened, bind, modify, call_onLoad, updatePageIndicator, renderOutline,
    get, ret.
  destruct s; cbn.
  destruct onLoad0; cbn; destruct (0 <? numPages doc); cbn;
    destruct (outline doc); reflexivity.
Qed.

Lemma opened_fields (doc : PDFDocumentProxy) (s : State) :
  pdfDoc (opened doc s) = Some doc
  /\ total (opened doc s) = numPages doc
  /\ pageNumber (opened doc s) = pageNumber s
  /\ isLoading (opened doc s) = isLoading s
  /\ requests (opened doc s) = requests s
  /\ pageContainer (opened doc s) = pageContainer s
  /\ observed (opened doc s) = observed s
  /\ visiblePages (opened doc s) = visiblePages s
  /\ dom_children (opened doc s) = dom_children s
  /\ onErrorCalls (opened doc s) = onErrorCalls s.
Proof.
  unfold opened, bind, modify, call_onLoad, updatePageIndicator, renderOutline,
    get, ret.
  destruct s; cbn.
  destruct onLoad0; cbn; destruct (0 <? numPages doc); cbn;
    destruct (outline doc); cbn; repeat split.
Qed.

Lemma pdfPreview_loaded (W : World) (fuel : nat) (s : State)
  (doc : PDFDocumentProxy) :
  workerUrl W = None -> getDocument W = inr doc ->
  isLoading s = false -> numPages doc - pageNumber s <= Z.of_nat fuel ->
  exists k,
    pdfPreview W fuel s
    = Some (Returned (mkReturn true (DDocument doc) None),
            steps W k (opened doc s))
    /\ fill_more W (steps W k (opened doc s)) = false
    /\ forall j, (j < k)%nat -> fill_more W (steps W j (opened doc s)) = true.
Proof.
  intros Hworker Hdoc Hbusy Hfuel.
  destruct (opened_fields doc s) as (_ & Ht & Hp & Hl & _).
  destruct (initialFill_run W fuel (opened doc s)) as (k & _ & Hrun & Hstop & Hbefore).
  { congruence. }
  { rewrite Ht, Hp. exact Hfuel. }
  exists k. unfold pdfPreview. rewrite Hworker, Hdoc, opened_run, Hrun.
  repeat split; assumption.
Qed.

(** C2: opening a document runs the initial fill from page 1, one page
    per step and in order, and the fill ends after [k] pages where [k]
    is the first count, not counting zero, at which every page is
    rendered or the scroll extent of the rendered content has reached
    the client extent of the viewport; page 1 is rendered without
    looking at the extents, so a document with a page gets [k >= 1]. *)
Theorem initial_fill (W : World) (options : RenderOptions)
  (doc : PDFDocumentProxy) (fuel : nat) :
  workerUrl W = None -> getDocument W = inr doc ->
  numPages doc <= Z.of_nat fuel ->
  let start := opened doc (constructor options) in
  let full (s : State) :=
    dom_clientHeight W <= pageContainer_scrollHeight W (pageContainer s) in
  exists k,
    pdfPreview W fuel (constructor options)
    = Some (Returned (mkReturn true (DDocument doc) None), steps W k start)
    /\ requests (steps W k start) = seqZ 1 (Z.of_nat k)
    /\ pageNumber (steps W k start) = Z.of_nat k
    /\ (0 < numPages doc -> (1 <= k)%nat)
    /\ (numPages doc <= Z.of_nat k \/ full (steps W k start))
    /\ forall j, (1 <= j < k)%nat ->
         Z.of_nat j < numPages doc /\ ~ full (steps W j start).
Proof.
  intros Hworker Hdoc Hfuel. cbv zeta.
  destruct (pdfPreview_loaded W fuel (constructor options) doc Hworker Hdoc)
    as (k & Hrun & Hstop & Hbefore); [reflexivity|cbn; lia|].
  set (start := opened doc (constructor options)) in *.
  destruct (opened_fields doc (constructor options))
    as (_ & Ht & Hp & _ & Hr & _).
  fold start in Ht, Hp, Hr. cbn in Hp, Hr.
  assert (Hfields : forall j,
    requests (steps W j start) = seqZ 1 (Z.of_nat j)
    /\ pageNumber (steps W j start) = Z.of_nat j
    /\ total (steps W j start) = numPages doc).
  { intros j. destruct (steps_fields W j start) as (Hr' & Hp' & Ht' & _).
    rewrite Hr', Hp', Ht', Hr, Hp, Ht. cbn. repeat split. }
  exists k. split; [exact Hrun|].
  destruct (Hfields k) as (Hrk & Hpk & Htk).
  split; [exact Hrk|]. split; [exact Hpk|].
  split.
  { intros Hpos. destruct k as [|k]; [|lia]. exfalso.
    unfold fill_more in Hstop. rewrite Hpk, Htk in Hstop.
    change (Z.of_nat 0) with 0 in Hstop.
    rewrite Z.eqb_refl, orb_true_r, andb_true_r in Hstop.
    apply Z.ltb_ge in Hstop. lia. }
  split.
  { unfold fill_more in Hstop. rewrite Htk, Hpk in Hstop.
    apply andb_false_iff in Hstop as [Hstop|Hstop].
    - left. apply Z.ltb_ge in Hstop. exact Hstop.
    - right. apply orb_false_iff in Hstop as [Hstop _].
      apply Z.ltb_ge in Hstop. exact Hstop. }
  intros j [Hj1 Hjk]. specialize (Hbefore j Hjk).
  destruct (Hfields j) as (_ & Hpj & Htj).
  unfold fill_more in Hbefore. rewrite Htj, Hpj in Hbefore.
  apply andb_true_iff in Hbefore as [Hlt Hor].
  apply Z.ltb_lt in Hlt. split; [exact Hlt|].
  apply orb_true_iff in Hor as [Hor|Hor].
  - apply Z.ltb_lt in Hor. lia.
  - apply Z.eqb_eq in Hor. lia.
Qed.

Lemma initial_fill_witness :
  exists k,
    pdfPreview sample_world 10 (constructor sample_options)
    = Some (Returned (mkReturn true (DDocument sample_doc) None),
            steps sample_world k (opened sample_doc (constructor sample_options)))
    /\ requests (steps sample_world k
                   (opened sample_doc (constructor sample_options)))
       = seqZ 1 (Z.of_nat k).
Proof.
  assert (Hfuel : numPages sample_doc <= Z.of_nat 10) by (cbn; lia).
  destruct (initial_fill sample_world sample_options sample_doc 10
              eq_refl eq_refl Hfuel) as (k & Hrun & Hreq & _).
  exists k. split; [exact Hrun|exact Hreq].
Defined.

(** ** Sequences of operations *)

Lemma next_page_idle (W : World) (s : State) :
  Idle W s -> pageNumber s < total s -> Idle W (next_page W s).
Proof.
  intros [Hflag Hcur Htot Hpages] Hlt.
  destruct (next_page_fields W s) as (_ & Hp & Ht & Hl & Hd).
  split.
  - congruence.
  - lia.
  - rewrite Ht, Hd. exact Htot.
  - intros _. lia.
Qed.

Lemma steps_idle (W : World) (k : nat) (s : State) :
  Idle W s -> (forall j, (j < k)%nat -> fill_more W (steps W j s) = true) ->
  Idle W (steps W k s).
Proof.
  revert s. induction k as [|k IH]; intros s Hidle Hmore; [exact Hidle|].
  cbn [steps]. apply IH.
  - apply next_page_idle; [exact Hidle|].
    specialize (Hmore O ltac:(lia)). cbn [steps] in Hmore.
    unfold fill_more in Hmore. apply andb_true_iff in Hmore as [Hlt _].
    apply Z.ltb_lt in Hlt. exact Hlt.
  - intros j Hj. apply (Hmore (S j)). lia.
Qed.

Lemma scroll_idle (W : World) (top : Z) (s : State) :
  Idle W s -> Idle W (scroll W top s).
Proof.
  intros Hidle. unfold scroll.
  assert (Hidle0 : Idle W (set_dom_scrollTop top s)).
  { destruct Hidle; destruct s; split; assumption. }
  destruct (handleScroll_cases W (set_dom_scrollTop top s))
    as [Hsame|(_ & Hlt & Hnext)].
  - rewrite Hsame. exact Hidle0.
  - rewrite Hnext. apply next_page_idle; assumption.
Qed.

Lemma hideLoading_fields (s : State) :
  isLoading (hideLoading s) = false
  /\ pageNumber (hideLoading s) = pageNumber s
  /\ total (hideLoading s) = total s
  /\ pdfDoc (hideLoading s) = pdfDoc s
  /\ loadingIndicator (hideLoading s) = "none".
Proof. destruct s; repeat split. Qed.

Lemma cleared_fields (n : Z) (s : State) :
  pageNumber (cleared n s) = n - 1
  /\ total (cleared n s) = total s
  /\ pdfDoc (cleared n s) = pdfDoc s.
Proof. destruct s; repeat split. Qed.

Lemma navigated_fields (W : World) (n : Z) (s : State) :
  isLoading (navigated W n s) = false
  /\ pageNumber (navigated W n s) = n - 1
  /\ total (navigated W n s) = total s
  /\ pdfDoc (navigated W n s) = pdfDoc s
  /\ loadingIndicator (navigated W n s) = "none".
Proof.
  unfold navigated.
  generalize (batch_pages n (n + 3 - 1) (total s)). intros pages.
  generalize (after_pages_same W pages (cleared n s)).
  generalize (after_pages W pages (cleared n s)). intros s1 (Hd1 & Ht1 & Hp1 & _).
  generalize (after_pages_same W (second_batch W n s1) s1).
  generalize (after_pages W (second_batch W n s1) s1).
  intros s2 (Hd2 & Ht2 & Hp2 & _).
  destruct (hideLoading_fields s2) as (Hl & Hp & Ht & Hd & Hi).
  destruct (cleared_fields n s) as (Hp0 & Ht0 & Hd0).
  repeat split; congruence.
Qed.

Lemma navigateToPage_unopened (W : World) (n : Z) (s : State) :
  pdfDoc s = None -> navigateToPage W n s = (Returned tt, s).
Proof.
  intros H. unfold navigateToPage, bind, get. rewrite H.
  rewrite bool_decide_eq_false_2 by (intros [? ?]; discriminate).
  cbn [negb]. rewrite orb_true_r. reflexivity.
Qed.

Lemma navigate_idle (W : World) (n : Z) (s : State) :
  Idle W s -> Idle W (snd (navigateToPage W n s)).
Proof.
  intros Hidle.
  destruct (Z_lt_dec n 1) as [H1|H1].
  { rewrite navigateToPage_skip by (left; exact H1). exact Hidle. }
  destruct (Z_lt_dec (total s) n) as [H2|H2].
  { rewrite navigateToPage_skip by (right; left; exact H2). exact Hidle. }
  destruct (pdfDoc s) eqn:Hdoc.
  2:{ rewrite navigateToPage_unopened by exact Hdoc. exact Hidle. }
  destruct Hidle as [Hflag Hcur Htot Hpages].
  rewrite navigateToPage_run; [|lia|rewrite Hdoc; eauto|exact Hflag].
  cbn [snd]. destruct (navigated_fields W n s) as (Hl & Hp & Ht & Hd & _).
  split.
  - exact Hl.
  - lia.
  - rewrite Ht, Hd. exact Htot.
  - intros _. lia.
Qed.

Lemma handlePageIntersection_run (entries : list IntersectionObserverEntry)
  (s : State) :
  handlePageIntersection entries s
  = (Returned tt,
     let vis := foldl track (visiblePages s) entries in
     match elements vis with
     | [] => set_visiblePages vis s
     | x :: l =>
         if 0 <? total s
         then set_pageIndicator (pretty (Math_max x l) +:+ " / " +:+ pretty (total s))
                (set_visiblePages vis s)
         else set_visiblePages vis s
     end).
Proof.
  unfold handlePageIntersection, bind, modify, get, updatePageIndicator, ret.
  destruct s; cbn.
  destruct (elements (foldl track visiblePages0 entries)); reflexivity.
Qed.

Lemma intersection_idle (W : World) (entries : list IntersectionObserverEntry)
  (s : State) :
  Idle W s -> Idle W (snd (handlePageIntersection (observable s entries) s)).
Proof.
  intros [Hflag Hcur Htot Hpages].
  assert (Hpos : observed s <> []
                 \/ foldl track (visiblePages s) (observable s entries) <> ∅
                 -> 0 < total s).
  { intros [H|H]; [apply Hpages; left; exact H|].
    destruct (observable s entries) as [|e l] eqn:Hobs.
    - apply Hpages. right. exact H.
    - apply Hpages. left.
      assert (He : e ∈ observable s entries) by (rewrite Hobs; left).
      unfold observable in He. apply list_elem_of_filter in He as [He _].
      intros Hnil. rewrite Hnil in He. inversion He. }
  rewrite handlePageIntersection_run. cbn [snd]. cbv zeta.
  destruct (elements _); [|destruct (0 <? total s)];
    destruct s; cbn in *; split; cbn; assumption.
Qed.

Lemma search_idle (W : World) (text : string) (s : State) :
  Idle W s -> Idle W (snd (handleTocSearch (set_tocSearchInput text s))).
Proof.
  intros [Hflag Hcur Htot Hpages]. unfold handleTocSearch, modify.
  destruct s; cbn in *. destruct tocListContainer0; split; cbn; assumption.
Qed.

Lemma call_onError_idle (W : World) (msg : BaseReturn) (e : JsThrown)
  (s : State) :
  Idle W s ->
  exists s', (call_onError msg ;; throw (A:=BaseReturn) e) s = (Thrown e, s')
             /\ Idle W s'.
Proof.
  intros [Hflag Hcur Htot Hpages]. unfold bind, call_onError, modify, throw.
  eexists. split; [reflexivity|].
  destruct s; cbn in *. destruct onError0; split; cbn; assumption.
Qed.

Lemma opened_idle (W : World) (doc : PDFDocumentProxy) (s : State) :
  getDocument W = inr doc -> Idle W s -> Idle W (opened doc s).
Proof.
  intros Hdoc [Hflag Hcur Htot Hpages].
  destruct (opened_fields doc s) as (Hd & Ht & Hp & Hl & _ & _ & Ho & Hv & _).
  split.
  - congruence.
  - lia.
  - right. exists doc. auto.
  - rewrite Ho, Hv, Ht. intros H. specialize (Hpages H).
    destruct Htot as [H0|(doc' & Hdoc' & Ht' & _)]; [lia|].
    rewrite Hdoc in Hdoc'. inversion Hdoc'. subst doc'. lia.
Qed.

Lemma open_idle (W : World) (s : State) :
  Idle W s -> exists s', dispatch W Open s = Some s' /\ Idle W s'.
Proof.
  intros Hidle. cbn [dispatch]. unfold pdfPreview.
  destruct (workerUrl W) as [e|] eqn:Hworker.
  { destruct (call_onError_idle W
                (failure (message_or "Unknown error in PDF preview" e))
                rejection s Hidle) as (s' & Hrun & Hidle').
    rewrite Hrun. eauto. }
  destruct (getDocument W) as [e|doc] eqn:Hdoc.
  { destruct (call_onError_idle W (failure (message_of e)) rejection s Hidle)
      as (s' & Hrun & Hidle').
    rewrite Hrun. eauto. }
  pose proof (opened_idle W doc s Hdoc Hidle) as Hopened.
  destruct (opened_fields doc s) as (_ & Ht & Hp & _).
  destruct (initialFill_run W (open_fuel W) (opened doc s))
    as (k & _ & Hrun & _ & Hbefore).
  { apply Hopened. }
  { rewrite Ht, Hp. unfold open_fuel. rewrite Hdoc.
    destruct Hidle as [_ Hcur _ _]. lia. }
  rewrite opened_run, Hrun. eexists. split; [reflexivity|].
  apply steps_idle; assumption.
Qed.

Lemma dispatch_idle (W : World) (ev : Event) (s : State) :
  Idle W s -> exists s', dispatch W ev s = Some s' /\ Idle W s'.
Proof.
  intros Hidle. destruct ev as [|top|n|entries|text].
  - apply open_idle, Hidle.
  - eexists. split; [reflexivity|]. apply scroll_idle, Hidle.
  - eexists. split; [reflexivity|]. apply navigate_idle, Hidle.
  - eexists. split; [reflexivity|]. apply intersection_idle, Hidle.
  - eexists. split; [reflexivity|]. apply search_idle, Hidle.
Qed.

Lemma constructor_idle (W : World) (options : RenderOptions) :
  Idle W (constructor options).
Proof.
  split; cbn; [reflexivity|lia|left; reflexivity|].
  intros [H|H]; congruence.
Qed.

Lemma run_idle (W : World) (evs : list Event) (s : State) :
  Idle W s -> exists s', run W evs s = Some s' /\ Idle W s'.
Proof.
  revert s. induction evs as [|ev evs IH]; intros s Hidle; cbn [run].
  - eauto.
  - destruct (dispatch_idle W ev s Hidle) as (s1 & Hrun & Hidle1).
    rewrite Hrun. apply IH, Hidle1.
Qed.

(** [try { body } catch (error) { handler } finally { hideLoading() }]
    ends with the busy flag released whichever way [body] and [handler]
    end. *)
Lemma finally_releases {A : Type} (body : Async A)
  (handler : JsThrown -> Async A) (s : State) :
  isLoading (snd (try_finally (try_catch body handler) hideLoading s)) = false.
Proof.
  unfold try_finally. destruct (try_catch body handler s) as [r s'].
  cbn [snd]. destruct s'; reflexivity.
Qed.

(** C1: after any sequence of operations on a freshly constructed
    engine, every one of them run to completion, the busy flag is false;
    whichever operation comes next completes and leaves it false again.
    Every prefix of a sequence is a sequence, so the flag is false before
    and after each operation of the sequence. *)
Theorem busy_flag_released (W : World) (options : RenderOptions)
  (evs : list Event) :
  exists s,
    run W evs (constructor options) = Some s
    /\ isLoading s = false
    /\ forall ev, exists s',
         dispatch W ev s = Some s' /\ isLoading s' = false.
Proof.
  destruct (run_idle W evs (constructor options) (constructor_idle W options))
    as (s & Hrun & Hidle).
  exists s. split; [exact Hrun|]. split; [apply Hidle|].
  intros ev. destruct (dispatch_idle W ev s Hidle) as (s' & Hstep & Hidle').
  exists s'. split; [exact Hstep|apply Hidle'].
Qed.

(** ** The page indicator *)

Lemma Math_max_spec (x : Z) (l : list Z) :
  Math_max x l ∈ x :: l /\ forall y, y ∈ x :: l -> y <= Math_max x l.
Proof.
  unfold Math_max. induction l as [|a l [IHin IHle]]; cbn [foldr].
  - split; [left|]. intros y Hy. apply list_elem_of_singleton in Hy. lia.
  - split.
    + destruct (Z.max_spec a (foldr Z.max x l)) as [[_ ->]|[_ ->]].
      * apply elem_of_cons in IHin as [->|Hin]; [left|].
        right. right. exact Hin.
      * right. left.
    + intros y Hy.
      assert (Hy' : y = a \/ y ∈ x :: l).
      { apply elem_of_cons in Hy as [->|Hy]; [right; left|].
        apply elem_of_cons in Hy as [->|Hy]; [left; reflexivity|].
        right. right. exact Hy. }
      destruct Hy' as [->|Hy']; [lia|]. specialize (IHle y Hy'). lia.
Qed.

Lemma indicator_after_intersection
  (entries : list IntersectionObserverEntry) (s : State) :
  0 < total s ->
  let s' := snd (handlePageIntersection entries s) in
  visiblePages s' <> ∅ ->
  exists m,
    m ∈ visiblePages s'
    /\ (forall x, x ∈ visiblePages s' -> x <= m)
    /\ pageIndicator s' = pretty m +:+ " / " +:+ pretty (total s').
Proof.
  intros Hpos. cbv zeta. rewrite handlePageIntersection_run. cbn [snd]. cbv zeta.
  set (vis := foldl track (visiblePages s) entries).
  destruct (elements vis) as [|x l] eqn:Hel.
  { intros Hne. exfalso. apply Hne.
    apply elements_empty_inv in Hel. apply leibniz_equiv in Hel.
    destruct s; exact Hel. }
  destruct (Z.ltb_spec 0 (total s)); [|lia].
  intros _. exists (Math_max x l).
  destruct (Math_max_spec x l) as [Hin Hle].
  assert (Hvis : visiblePages
                   (set_pageIndicator
                      (pretty (Math_max x l) +:+ " / " +:+ pretty (total s))
                      (set_visiblePages vis s)) = vis)
    by (destruct s; reflexivity).
  rewrite Hvis. split; [|split].
  - apply elem_of_elements. rewrite Hel. exact Hin.
  - intros y Hy. apply Hle. rewrite <- Hel. apply elem_of_elements. exact Hy.
  - destruct s; reflexivity.
Qed.

(** C4: in any state the engine reaches, after an intersection update
    for observed canvases that leaves the VisibleSet non-empty, the page
    indicator reads [m / total] where [m] is the largest page number of
    the VisibleSet. *)
Theorem indicator_shows_max (W : World) (options : RenderOptions)
  (evs : list Event) (s : State) (entries : list IntersectionObserverEntry) :
  run W evs (constructor options) = Some s ->
  Forall (fun entry => pageNum entry ∈ observed s) entries ->
  let s' := snd (handlePageIntersection entries s) in
  visiblePages s' <> ∅ ->
  exists m,
    m ∈ visiblePages s'
    /\ (forall x, x ∈ visiblePages s' -> x <= m)
    /\ pageIndicator s' = pretty m +:+ " / " +:+ pretty (total s').
Proof.
  intros Hrun Hobs. cbv zeta. intros Hne.
  destruct (run_idle W evs (constructor options) (constructor_idle W options))
    as (s0 & Hrun0 & Hidle).
  rewrite Hrun in Hrun0. inversion Hrun0. subst s0.
  apply indicator_after_intersection; [|exact Hne].
  apply (idle_pages W s Hidle).
  destruct entries as [|e entries].
  - right. intros Hempty. apply Hne.
    rewrite handlePageIntersection_run. cbn [snd foldl]. cbv zeta.
    rewrite Hempty. rewrite elements_empty. destruct s; reflexivity.
  - left. inversion Hobs as [|? ? He _]. intros Hnil. rewrite Hnil in He.
    inversion He.
Qed.

Lemma indicator_shows_max_witness :
  let entries :=
    [mkEntry 1 true; mkEntry 3 true; mkEntry 2 true; mkEntry 1 false] in
  let s' := snd (handlePageIntersection entries sample_state) in
  exists m,
    m ∈ visiblePages s'
    /\ (forall x, x ∈ visiblePages s' -> x <= m)
    /\ pageIndicator s' = pretty m +:+ " / " +:+ pretty (total s').
Proof.
  cbv zeta.
  apply (indicator_shows_max sample_world sample_options [Open]).
  - vm_compute. reflexivity.
  - vm_compute. repeat constructor.
  - intros H. apply (f_equal size) in H. vm_compute in H. discriminate.
Defined.

Example indicator_sample :
  pageIndicator
    (snd (handlePageIntersection
            [mkEntry 1 true; mkEntry 3 true; mkEntry 2 true; mkEntry 1 false]
            sample_state))
  = "3 / 10".
Proof. vm_compute. reflexivity. Qed.

(** ** Failed page renders *)

Lemma after_pages_requests (W : World) (pages : list Z) (s : State) :
  requests (after_pages W pages s) = requests s ++ pages.
Proof.
  revert s. induction pages as [|p pages IH]; intros s; cbn.
  - rewrite app_nil_r. reflexivity.
  - unfold after_pages in IH. rewrite IH, after_getPdfPage_requests.
    rewrite <- app_assoc. reflexivity.
Qed.

Lemma after_pages_container (W : World) (pages : list Z) (s : State) :
  exists ws, pageContainer (after_pages W pages s) = pageContainer s ++ ws.
Proof.
  revert s. induction pages as [|p pages IH]; intros s; cbn.
  - exists []. rewrite app_nil_r. reflexivity.
  - destruct (IH (after_getPdfPage W p s)) as (ws & Hws).
    destruct (after_getPdfPage_container W p s) as (ws0 & Hws0 & _).
    exists (ws0 ++ ws). unfold after_pages in Hws. rewrite Hws, Hws0.
    rewrite app_assoc. reflexivity.
Qed.

(** The claim C8 at a concrete batch: in the sample world the render of
    page 2 is rejected, and the batch from 2 to 4 then goes on to render
    pages 3 and 4. *)
Lemma batch_not_aborted :
  let s := cleared 2 sample_state in
  let s' := snd (renderPagesBatch sample_world 2 4 s) in
  fst (getPdfPage sample_world 2 s) = Returned (failure "render cancelled")
  /\ requests s' = requests s ++ [2; 3; 4]
  /\ map (fun w => (pw_number w, pw_canvas w)) (pageContainer s')
     = [(2, Sized); (3, Painted); (4, Painted)].
Proof. vm_compute. repeat split. Qed.

(** C8, amended: when the render of a page fails (no drawing context,
    or [getPage] or [render] rejected), [getPdfPage] returns a failure
    result instead of throwing, hands it to the [onError] callback when
    one is supplied, and leaves every wrapper already in the container in
    place; a batch that starts at that page is not cut short: it asks for
    every page up to its end (or the last page of the document), whatever
    each render returned, and the wrappers present before the batch stay
    in place. *)
Theorem render_failure_contained (W : World) (s : State) (number endPage : Z)
  (m : string) :
  is_Some (pdfDoc s) -> caught W (clock s) number = Some m ->
  let s1 := snd (getPdfPage W number s) in
  let s2 := snd (renderPagesBatch W number endPage s) in
  fst (getPdfPage W number s) = Returned (failure m)
  /\ onErrorCalls s1
     = onErrorCalls s ++ (if onError s then [failure m] else [])
  /\ (exists ws, pageContainer s1 = pageContainer s ++ ws)
  /\ fst (renderPagesBatch W number endPage s) = Returned tt
  /\ requests s2 = requests s ++ batch_pages number endPage (total s)
  /\ (exists ws, pageContainer s2 = pageContainer s ++ ws).
Proof.
  intros Hdoc Hcaught. cbv zeta.
  rewrite getPdfPage_run, renderPagesBatch_run. cbn [fst snd].
  destruct Hdoc as [doc Hdoc].
  split.
  { unfold getPdfPage_result, result_of. rewrite Hdoc, Hcaught. reflexivity. }
  split.
  { unfold after_getPdfPage, rendered, reported. rewrite Hdoc, Hcaught.
    destruct s; reflexivity. }
  split.
  { destruct (after_getPdfPage_container W number s) as (ws & Hws & _).
    exists ws. exact Hws. }
  split; [reflexivity|].
  split; [apply after_pages_requests|apply after_pages_container].
Qed.

Lemma render_failure_contained_witness :
  let s := cleared 2 sample_state in
  fst (getPdfPage sample_world 2 s) = Returned (failure "render cancelled")
  /\ requests (snd (renderPagesBatch sample_world 2 4 s))
     = requests s ++ batch_pages 2 4 (total s).
Proof.
  cbv zeta.
  assert (Hdoc : is_Some (pdfDoc (cleared 2 sample_state)))
    by (vm_compute; eauto).
  assert (Hcaught : caught sample_world (clock (cleared 2 sample_state)) 2
                    = Some "render cancelled") by (vm_compute; reflexivity).
  destruct (render_failure_contained sample_world (cleared 2 sample_state) 2 4
              "render cancelled" Hdoc Hcaught) as (Hres & _ & _ & _ & Hreq & _).
  split; [exact Hres|exact Hreq].
Defined.

(** ** Failed document load *)

(** The claim C9 at a concrete load failure: the mount element, empty
    before, is not empty afterwards; it holds the viewer container that
    the constructor appended. *)
Lemma failed_load_leaves_container :
  option_map mount (renderPdf unreadable_world ReadBuffer sample_options 0)
  = Some [ViewerContainer]
  /\ option_map mount (renderPdf unreadable_world ReadBuffer sample_options 0)
     <> Some [].
Proof. split; [vm_compute; reflexivity|discriminate]. Qed.

(** C9, amended: when pdf.js rejects the document, [pdfPreview] reports
    the failure to the [onError] callback (when one is supplied) and
    rejects; [renderPdf] catches the rejection, reports once more, and
    resolves, so nothing propagates past it.  No page is requested or
    rendered and no document is stored, but the mount element is not
    emptied: it keeps its children and the viewer container that the
    constructor appended. *)
Theorem load_failure_reported (W : World) (options : RenderOptions)
  (fuel : nat) (e : JsThrown) :
  workerUrl W = None -> getDocument W = inl e ->
  exists s,
    pdfPreview W fuel (constructor options) = Some (Thrown rejection, s)
    /\ renderPdf W ReadBuffer options fuel
       = Some (mkMounted (Some s) (dom options ++ [ViewerContainer])
                 (if has_onError options
                  then [failure (message_of e); failure "Failed to render PDF"]
                  else []))
    /\ pageContainer s = [] /\ requests s = [] /\ pdfDoc s = None
    /\ isLoading s = false.
Proof.
  intros Hworker Hdoc. unfold renderPdf, pdfPreview. rewrite Hworker, Hdoc.
  unfold bind, call_onError, modify, throw, constructor. cbn.
  destruct (has_onError options) eqn:Herr; cbn; rewrite ?Herr;
    eexists; repeat split.
Qed.

Lemma load_failure_reported_witness :
  exists s,
    renderPdf unreadable_world ReadBuffer sample_options 0
    = Some (mkMounted (Some s) [ViewerContainer]
              [failure "Invalid PDF structure."; failure "Failed to render PDF"]).
Proof.
  destruct (load_failure_reported unreadable_world sample_options 0
              (JsError "Invalid PDF structure.") eq_refl eq_refl)
    as (s & _ & Hrender & _).
  exists s. exact Hrender.
Defined.

(** ** Outline search *)

Lemma TocItem_forest_ind (P : TocItem -> Prop) :
  (forall titleSpan display, P (Li titleSpan display None)) ->
  (forall titleSpan display subItems,
     Forall P subItems -> P (Li titleSpan display (Some subItems))) ->
  forall item, P item.
Proof.
  intros Hleaf Hnode. fix IH 1. intros [titleSpan display [subItems|]].
  - apply Hnode. induction subItems as [|a l IHl]; constructor.
    + apply IH.
    + exact IHl.
  - apply Hleaf.
Qed.

Lemma OutlineNode_forest_ind (P : OutlineNode -> Prop) :
  (forall title items, Forall P items -> P (Outline title items)) ->
  forall item, P item.
Proof.
  intros Hnode. fix IH 1. intros [title items].
  apply Hnode. induction items as [|a l IHl]; constructor.
  - apply IH.
  - exact IHl.
Qed.

Lemma filter_loop_spec (f : TocItem -> bool * TocItem) (subItems : list TocItem) :
  (fix loop (l : list TocItem) : bool * list TocItem :=
     match l with
     | [] => (false, [])
     | subItem :: l' =>
         let h := f subItem in
         let t := loop l' in
         (fst h || fst t, snd h :: snd t)
     end) subItems
  = (existsb (fun x => fst (f x)) subItems, map (fun x => snd (f x)) subItems).
Proof.
  induction subItems as [|a l IH]; [reflexivity|].
  rewrite IH. reflexivity.
Qed.

Lemma filterTocItem_spec (searchText : string) (item : TocItem) :
  filterTocItem item searchText
  = (matches searchText item, shown searchText item).
Proof.
  induction item as [titleSpan display|titleSpan display subItems IH]
    using TocItem_forest_ind.
  - reflexivity.
  - cbn [filterTocItem matches shown option_map].
    rewrite (filter_loop_spec (fun x => filterTocItem x searchText)).
    cbn [fst snd].
    assert (H1 : existsb (fun x => fst (filterTocItem x searchText)) subItems
                 = existsb (matches searchText) subItems).
    { induction IH as [|a l Ha _ IHl]; [reflexivity|].
      cbn [existsb]. rewrite Ha, IHl. reflexivity. }
    assert (H2 : map (fun x => snd (filterTocItem x searchText)) subItems
                 = map (shown searchText) subItems).
    { clear H1. induction IH as [|a l Ha _ IHl]; [reflexivity|].
      cbn [map]. rewrite Ha, IHl. reflexivity. }
    rewrite H1, H2. reflexivity.
Qed.

Lemma shown_structure (searchText : string) (item : TocItem) :
  structure (shown searchText item) = structure item.
Proof.
  induction item as [titleSpan display|titleSpan display subItems IH]
    using TocItem_forest_ind; [reflexivity|].
  cbn [shown structure option_map]. do 2 f_equal.
  induction IH as [|a l Ha _ IHl]; [reflexivity|].
  cbn [map]. rewrite Ha, IHl. reflexivity.
Qed.

Lemma existsb_flat_map {A B : Type} (f : B -> bool) (g : A -> list B)
  (l : list A) :
  existsb f (flat_map g l) = existsb (fun x => existsb f (g x)) l.
Proof.
  induction l as [|a l IH]; [reflexivity|].
  cbn [flat_map existsb]. rewrite existsb_app, IH. reflexivity.
Qed.

Lemma matches_visible (searchText : string) (item : TocItem) :
  matches searchText item = visible searchText item.
Proof.
  induction item as [titleSpan display|titleSpan display subItems IH]
    using TocItem_forest_ind; [reflexivity|].
  unfold visible, descendants. cbn [matches children]. f_equal.
  rewrite existsb_flat_map.
  induction IH as [|a l Ha _ IHl]; [reflexivity|].
  cbn [existsb]. rewrite Ha, IHl. f_equal.
  unfold visible, descendants. destruct a as [t d sub].
  cbn [nodes existsb children]. destruct sub; reflexivity.
Qed.

Lemma own_match_shown (q searchText : string) (item : TocItem) :
  own_match q (shown searchText item) = own_match q item.
Proof. destruct item; reflexivity. Qed.

Lemma nodes_shown (searchText : string) (item : TocItem) :
  nodes (shown searchText item) = map (shown searchText) (nodes item).
Proof.
  induction item as [titleSpan display|titleSpan display subItems IH]
    using TocItem_forest_ind; [reflexivity|].
  cbn [shown nodes option_map map]. f_equal.
  induction IH as [|a l Ha _ IHl]; [reflexivity|].
  cbn [map flat_map]. rewrite map_app, Ha, IHl. reflexivity.
Qed.

Lemma forest_nodes_shown (searchText : string) (items : list TocItem) :
  flat_map nodes (map (shown searchText) items)
  = map (shown searchText) (flat_map nodes items).
Proof.
  induction items as [|a l IH]; [reflexivity|].
  cbn [map flat_map]. rewrite map_app, nodes_shown, IH. reflexivity.
Qed.

Lemma visible_shown (q searchText : string) (item : TocItem) :
  visible q (shown searchText item) = visible q item.
Proof.
  unfold visible, descendants. rewrite own_match_shown. f_equal.
  destruct item as [t d [subItems|]]; [|reflexivity].
  cbn [shown children option_map]. rewrite forest_nodes_shown.
  generalize (flat_map nodes subItems). intros l.
  induction l as [|a l IH]; [reflexivity|].
  cbn [map existsb]. rewrite own_match_shown, IH. reflexivity.
Qed.

Lemma display_shown (searchText : string) (item : TocItem) :
  display_of (shown searchText item)
  = if visible searchText (shown searchText item) then "" else "none".
Proof.
  rewrite visible_shown, <- matches_visible. destruct item; reflexivity.
Qed.

Lemma includes_empty (s : string) : includes s "" = true.
Proof. destruct s; reflexivity. Qed.

Lemma shown_createOutlineItem (item : OutlineNode) :
  shown "" (createOutlineItem item) = createOutlineItem item.
Proof.
  induction item as [title items IH] using OutlineNode_forest_ind.
  cbn [createOutlineItem]. destruct items as [|a l]; [cbn; f_equal|].
  { unfold own_match. cbn. rewrite includes_empty. reflexivity. }
  cbn [shown matches option_map]. unfold own_match at 1. cbn [titleSpan_of].
  rewrite includes_empty. cbn [orb]. do 2 f_equal.
  rewrite map_map.
  induction IH as [|b l' Hb _ IHl]; [reflexivity|].
  cbn [map]. rewrite Hb, IHl. reflexivity.
Qed.

Lemma matches_structure (searchText : string) (item : TocItem) :
  matches searchText (structure item) = matches searchText item.
Proof.
  induction item as [titleSpan display|titleSpan display subItems IH]
    using TocItem_forest_ind; [reflexivity|].
  cbn [structure matches option_map]. f_equal.
  induction IH as [|a l Ha _ IHl]; [reflexivity|].
  cbn [map existsb]. rewrite Ha, IHl. reflexivity.
Qed.

Lemma shown_of_structure (searchText : string) (item : TocItem) :
  shown searchText (structure item) = shown searchText item.
Proof.
  induction item as [titleSpan display|titleSpan display subItems IH]
    using TocItem_forest_ind; [reflexivity|].
  change (structure (Li titleSpan display (Some subItems)))
    with (Li titleSpan "" (Some (map structure subItems))).
  cbn [shown option_map].
  change (Li titleSpan "" (Some (map structure subItems)))
    with (structure (Li titleSpan display (Some subItems))).
  rewrite matches_structure. do 2 f_equal.
  rewrite map_map.
  induction IH as [|a l Ha _ IHl]; [reflexivity|].
  cbn [map]. rewrite Ha, IHl. reflexivity.
Qed.

Lemma handleTocSearch_run (s : State) (items : list TocItem) :
  tocListContainer s = Some items ->
  tocListContainer (snd (handleTocSearch s))
  = Some (map (shown (trim (toLowerCase (tocSearchInput s)))) items).
Proof.
  intros Hitems. unfold handleTocSearch, modify. cbn [snd]. rewrite Hitems.
  destruct s; cbn. f_equal. apply map_ext. intros item.
  rewrite filterTocItem_spec. reflexivity.
Qed.

(** The claim C7 at a concrete search: with the query typed with a
    trailing blank, the engine shows the section whose title contains the
    trimmed query and its ancestors, although no title contains the query
    as typed. *)
Lemma search_trims_the_query :
  let s := set_tocSearchInput "alpha " sample_state in
  match tocListContainer (snd (handleTocSearch s)) with
  | Some items' =>
      map (fun n => (titleSpan_of n, display_of n, claimed_visible "alpha " n))
          (flat_map nodes items')
      = [(Some "Part One", "", false);
         (Some "Chapter A", "", false);
         (Some "Section Alpha", "", false);
         (Some "Section Beta", "none", false);
         (Some "Chapter B", "none", false);
         (Some "Part Two", "none", false);
         (Some "Appendix", "none", false)]
  | None => False
  end.
Proof. vm_compute. reflexivity. Qed.

(** C7, amended: the search filters on the query lower-cased and
    trimmed of surrounding white space.  After a search every node of
    the list is displayed exactly when its own title, in lower case,
    contains that text or the title of some node below it does, and is
    hidden otherwise; only [style.display] values change, the tree of
    titles is the same; and when the trimmed query is empty, a list that
    was built from the outline is again exactly as built, every node
    displayed, whatever earlier searches had hidden. *)
Theorem search_is_a_filter (s : State) (items : list TocItem) :
  tocListContainer s = Some items ->
  let searchText := trim (toLowerCase (tocSearchInput s)) in
  exists items',
    tocListContainer (snd (handleTocSearch s)) = Some items'
    /\ map structure items' = map structure items
    /\ Forall (fun n => display_of n
                        = if visible searchText n then "" else "none")
         (flat_map nodes items')
    /\ (searchText = "" ->
        forall contents,
          map structure items = map structure (map createOutlineItem contents) ->
          items' = map createOutlineItem contents).
Proof.
  intros Hitems. cbv zeta.
  set (searchText := trim (toLowerCase (tocSearchInput s))).
  exists (map (shown searchText) items).
  split; [apply handleTocSearch_run, Hitems|].
  split.
  { rewrite map_map. apply map_ext. intros item. apply shown_structure. }
  split.
  { rewrite forest_nodes_shown. apply List.Forall_forall. intros n Hn.
    apply List.in_map_iff in Hn as (n0 & <- & _). apply display_shown. }
  intros Hempty contents Hsame. rewrite Hempty.
  transitivity (map (shown "") (map structure items)).
  { rewrite map_map. apply map_ext. intros item.
    symmetry. apply shown_of_structure. }
  rewrite Hsame, !map_map. apply map_ext. intros item.
  rewrite shown_of_structure. apply shown_createOutlineItem.
Qed.

Lemma search_is_a_filter_witness :
  exists items',
    tocListContainer (snd (handleTocSearch (set_tocSearchInput "BETA" sample_state)))
    = Some items'
    /\ map structure items' = map structure (map createOutlineItem sample_outline).
Proof.
  assert (Hitems : tocListContainer (set_tocSearchInput "BETA" sample_state)
                   = Some (map createOutlineItem sample_outline))
    by (vm_compute; reflexivity).
  destruct (search_is_a_filter (set_tocSearchInput "BETA" sample_state)
              (map createOutlineItem sample_outline) Hitems)
    as (items' & Hrun & Hsame & _).
  exists items'. split; [exact Hrun|exact Hsame].
Defined.

(** ** What the page flow keeps *)

Lemma after_getPdfPage_layout (W : World) (number : Z) (s : State) :
  exists ws,
    pageContainer (after_getPdfPage W number s) = pageContainer s ++ ws
    /\ observed (after_getPdfPage W number s) = observed s ++ map pw_number ws
    /\ Forall (fun w => pw_number w = number
                        /\ pw_divider w = (number <? total s)
                        /\ pw_scale w = deviceScale W) ws.
Proof.
  unfold after_getPdfPage, rendered, appended.
  destruct (pdfDoc s).
  - destruct (getPage W (clock s) number).
    + exists []. destruct s; cbn. rewrite !app_nil_r. repeat split. constructor.
    + exists [mkWrapper number (deviceScale W) (number <? total s)
                (canvas_after W (clock s) number)].
      destruct s; cbn. split; [reflexivity|]. split; [reflexivity|].
      repeat constructor.
  - exists []. destruct s; cbn. rewrite !app_nil_r. repeat split. constructor.
Qed.

Lemma after_getPdfPage_flow (W : World) (number : Z) (s : State) :
  1 <= number <= total s ->
  Forall (page_of W (total s)) (pageContainer s) ->
  observed s = map pw_number (pageContainer s) ->
  Forall (page_of W (total s)) (pageContainer (after_getPdfPage W number s))
  /\ observed (after_getPdfPage W number s)
     = map pw_number (pageContainer (after_getPdfPage W number s)).
Proof.
  intros Hn Hpages Hobs.
  destruct (after_getPdfPage_layout W number s) as (ws & Hc & Ho & Hws).
  rewrite Hc, Ho, Hobs, map_app. split; [|reflexivity].
  apply Forall_app. split; [exact Hpages|].
  eapply Forall_impl; [exact Hws|]. cbn. intros w (Hw & Hd & Hs).
  unfold page_of. rewrite Hw. auto.
Qed.

Lemma after_pages_flow (W : World) (pages : list Z) (s : State) :
  Forall (fun p => 1 <= p <= total s) pages ->
  Forall (page_of W (total s)) (pageContainer s) ->
  observed s = map pw_number (pageContainer s) ->
  Forall (page_of W (total s)) (pageContainer (after_pages W pages s))
  /\ observed (after_pages W pages s)
     = map pw_number (pageContainer (after_pages W pages s)).
Proof.
  revert s. induction pages as [|p pages IH]; intros s Hin Hpages Hobs.
  - split; assumption.
  - inversion Hin as [|? ? Hp Hrest]; subst.
    destruct (after_getPdfPage_flow W p s Hp Hpages Hobs) as (Hpages' & Hobs').
    destruct (after_getPdfPage_same W p s) as (_ & Htot & _).
    change (after_pages W (p :: pages) s)
      with (after_pages W pages (after_getPdfPage W p s)).
    rewrite <- Htot. apply IH; rewrite ?Htot; assumption.
Qed.

Lemma batch_pages_bounds (startPage endPage tot : Z) :
  Forall (fun p => startPage <= p <= Z.min endPage tot)
    (batch_pages startPage endPage tot).
Proof.
  unfold batch_pages. apply Forall_forall. intros p Hp.
  apply elem_of_seqZ in Hp. lia.
Qed.

Lemma next_page_layout (W : World) (s : State) :
  pageContainer (next_page W s)
  = pageContainer (after_getPdfPage W (pageNumber s + 1) s)
  /\ observed (next_page W s)
     = observed (after_getPdfPage W (pageNumber s + 1) s)
  /\ visiblePages (next_page W s) = visiblePages s.
Proof.
  unfold next_page.
  destruct (after_getPdfPage_same W (pageNumber s + 1) s)
    as (_ & _ & _ & _ & Hv & _).
  destruct (after_getPdfPage W (pageNumber s + 1) s); cbn in *.
  repeat split. exact Hv.
Qed.

Lemma next_page_flow (W : World) (s : State) :
  Flow W s -> pageNumber s < total s -> Flow W (next_page W s).
Proof.
  intros [Hidle Hpages Hobs Hvis Hcur] Hlt.
  destruct (next_page_fields W s) as (_ & Hp & Ht & _).
  destruct (next_page_layout W s) as (Hc & Ho & Hv).
  pose proof (idle_cursor W s Hidle) as H0.
  destruct (after_getPdfPage_flow W (pageNumber s + 1) s) as (Hpages' & Hobs');
    [lia|assumption|assumption|].
  destruct (after_getPdfPage_layout W (pageNumber s + 1) s) as (ws & _ & Ho' & _).
  split.
  - apply next_page_idle; assumption.
  - rewrite Ht, Hc. exact Hpages'.
  - rewrite Ho, Hc. exact Hobs'.
  - intros p Hin. rewrite Hv in Hin. rewrite Ho, Ho'.
    apply elem_of_app. left. apply Hvis, Hin.
  - rewrite Hp, Ht. lia.
Qed.

Lemma steps_flow (W : World) (k : nat) (s : State) :
  Flow W s -> (forall j, (j < k)%nat -> fill_more W (steps W j s) = true) ->
  Flow W (steps W k s).
Proof.
  revert s. induction k as [|k IH]; intros s Hflow Hmore; [exact Hflow|].
  cbn [steps]. apply IH.
  - apply next_page_flow; [exact Hflow|].
    specialize (Hmore O ltac:(lia)). cbn [steps] in Hmore.
    unfold fill_more in Hmore. apply andb_true_iff in Hmore as [Hlt _].
    apply Z.ltb_lt in Hlt. exact Hlt.
  - intros j Hj. apply (Hmore (S j)). lia.
Qed.

Lemma scroll_flow (W : World) (top : Z) (s : State) :
  Flow W s -> Flow W (scroll W top s).
Proof.
  intros Hflow. unfold scroll.
  assert (Hflow0 : Flow W (set_dom_scrollTop top s)).
  { destruct Hflow as [[] ? ? ? ?]. destruct s. repeat split; assumption. }
  destruct (handleScroll_cases W (set_dom_scrollTop top s))
    as [Hsame|(_ & Hlt & Hnext)].
  - rewrite Hsame. exact Hflow0.
  - rewrite Hnext. apply next_page_flow; assumption.
Qed.

Lemma navigated_layout (W : World) (n : Z) (s : State) :
  1 <= n ->
  Forall (page_of W (total s)) (pageContainer (navigated W n s))
  /\ observed (navigated W n s) = map pw_number (pageContainer (navigated W n s))
  /\ visiblePages (navigated W n s) = ∅
  /\ dom_scrollTop (navigated W n s) = 0.
Proof.
  intros Hn. unfold navigated.
  assert (H0 : total (cleared n s) = total s
               /\ pageContainer (cleared n s) = []
               /\ observed (cleared n s) = []
               /\ visiblePages (cleared n s) = ∅
               /\ dom_scrollTop (cleared n s) = 0)
    by (destruct s; repeat split).
  destruct H0 as (Ht0 & Hc0 & Ho0 & Hv0 & Hs0).
  pose proof (batch_pages_bounds n (n + 3 - 1) (total s)) as Hb1.
  revert Hb1. generalize (batch_pages n (n + 3 - 1) (total s)). intros pages1 Hb1.
  destruct (after_pages_flow W pages1 (cleared n s)) as (Hp1 & Hob1).
  { rewrite Ht0. eapply Forall_impl; [exact Hb1|]. cbn. intros; lia. }
  { rewrite Hc0. constructor. }
  { rewrite Hc0, Ho0. reflexivity. }
  pose proof (after_pages_same W pages1 (cleared n s))
    as (_ & Ht1 & _ & _ & Hv1 & _ & _ & _ & _ & _ & Hs1).
  revert Hp1 Hob1 Ht1 Hv1 Hs1.
  generalize (after_pages W pages1 (cleared n s)). intros s1 Hp1 Hob1 Ht1 Hv1 Hs1.
  assert (Hb2 : Forall (fun p => 1 <= p <= total s1) (second_batch W n s1)).
  { unfold second_batch.
    destruct (_ <? _); [|constructor].
    destruct (0 <? _); [|constructor].
    eapply Forall_impl; [apply batch_pages_bounds|]. cbn. intros; lia. }
  revert Hb2. generalize (second_batch W n s1). intros pages2 Hb2.
  rewrite <- Ht1 in Hp1.
  destruct (after_pages_flow W pages2 s1 Hb2 Hp1 Hob1) as (Hp2 & Hob2).
  pose proof (after_pages_same W pages2 s1)
    as (_ & Ht2 & _ & _ & Hv2 & _ & _ & _ & _ & _ & Hs2).
  revert Hp2 Hob2 Ht2 Hv2 Hs2.
  generalize (after_pages W pages2 s1). intros s2 Hp2 Hob2 Ht2 Hv2 Hs2.
  assert (H3 : pageContainer (hideLoading s2) = pageContainer s2
               /\ observed (hideLoading s2) = observed s2
               /\ visiblePages (hideLoading s2) = visiblePages s2
               /\ dom_scrollTop (hideLoading s2) = dom_scrollTop s2)
    by (destruct s2; repeat split).
  destruct H3 as (Hc3 & Ho3 & Hv3 & Hs3).
  rewrite Hc3, Ho3, Hv3, Hs3.
  split; [|split; [exact Hob2|split; congruence]].
  rewrite <- Ht0, <- Ht1. exact Hp2.
Qed.

Lemma navigate_flow (W : World) (n : Z) (s : State) :
  Flow W s -> Flow W (snd (navigateToPage W n s)).
Proof.
  intros Hflow.
  destruct (Z_lt_dec n 1) as [H1|H1].
  { rewrite navigateToPage_skip by (left; exact H1). exact Hflow. }
  destruct (Z_lt_dec (total s) n) as [H2|H2].
  { rewrite navigateToPage_skip by (right; left; exact H2). exact Hflow. }
  destruct (pdfDoc s) eqn:Hdoc.
  2:{ rewrite navigateToPage_unopened by exact Hdoc. exact Hflow. }
  pose proof (navigate_idle W n s (flow_idle W s Hflow)) as Hidle.
  assert (Hrun : navigateToPage W n s = (Returned tt, navigated W n s)).
  { apply navigateToPage_run;
      [lia|rewrite Hdoc; eauto|apply (flow_idle W s Hflow)]. }
  rewrite Hrun in *. cbn [snd] in *.
  destruct (navigated_fields W n s) as (_ & Hp & Ht & _).
  destruct (navigated_layout W n s) as (Hpages & Hobs & Hvis & _); [lia|].
  split.
  - exact Hidle.
  - rewrite Ht. exact Hpages.
  - exact Hobs.
  - intros q Hin. rewrite Hvis in Hin. set_solver.
  - rewrite Hp, Ht. lia.
Qed.

Lemma track_members (vis : gset Z) (entries : list IntersectionObserverEntry)
  (p : Z) :
  p ∈ foldl track vis entries ->
  p ∈ vis \/ exists entry, entry ∈ entries /\ pageNum entry = p.
Proof.
  revert vis. induction entries as [|e entries IH]; intros vis Hin; cbn in Hin.
  - left. exact Hin.
  - destruct (IH _ Hin) as [Hin'|(e' & He' & Hp)].
    + unfold track in Hin'.
      destruct (pageNum e =? 0); [left; exact Hin'|].
      destruct (isIntersecting e).
      * apply elem_of_union in Hin' as [Hin'|Hin']; [|left; exact Hin'].
        apply elem_of_singleton in Hin'. right. exists e. split; [left|auto].
      * apply elem_of_difference in Hin' as [Hin' _]. left. exact Hin'.
    + right. exists e'. split; [right; exact He'|exact Hp].
Qed.

Lemma intersection_fields (entries : list IntersectionObserverEntry) (s : State) :
  let s' := snd (handlePageIntersection entries s) in
  visiblePages s' = foldl track (visiblePages s) entries
  /\ pageContainer s' = pageContainer s
  /\ observed s' = observed s
  /\ total s' = total s
  /\ pageNumber s' = pageNumber s
  /\ requests s' = requests s.
Proof.
  cbv zeta. rewrite handlePageIntersection_run. cbn [snd]. cbv zeta.
  destruct (elements _); [|destruct (0 <? total s)];
    destruct s; repeat split.
Qed.

Lemma intersection_flow (W : World) (entries : list IntersectionObserverEntry)
  (s : State) :
  Flow W s -> Flow W (snd (handlePageIntersection (observable s entries) s)).
Proof.
  intros Hflow.
  pose proof (intersection_idle W entries s (flow_idle W s Hflow)) as Hidle.
  destruct Hflow as [_ Hpages Hobs Hvis Hcur].
  destruct (intersection_fields (observable s entries) s)
    as (Hv & Hc & Ho & Ht & Hp & _).
  split.
  - exact Hidle.
  - rewrite Ht, Hc. exact Hpages.
  - rewrite Ho, Hc. exact Hobs.
  - intros p Hin. rewrite Hv in Hin. rewrite Ho.
    apply track_members in Hin as [Hin|(e & He & <-)]; [apply Hvis, Hin|].
    unfold observable in He. apply list_elem_of_filter in He as [He _]. exact He.
  - rewrite Hp, Ht. exact Hcur.
Qed.

Lemma search_flow (W : World) (text : string) (s : State) :
  Flow W s -> Flow W (snd (handleTocSearch (set_tocSearchInput text s))).
Proof.
  intros Hflow.
  pose proof (search_idle W text s (flow_idle W s Hflow)) as Hidle.
  destruct Hflow as [_ Hpages Hobs Hvis Hcur].
  unfold handleTocSearch, modify in *. cbn [snd] in *.
  destruct s; cbn in *. destruct tocListContainer0; split; assumption.
Qed.

Lemma call_onError_flow (W : World) (msg : BaseReturn) (e : JsThrown)
  (s : State) :
  Flow W s ->
  exists s', (call_onError msg ;; throw (A:=BaseReturn) e) s = (Thrown e, s')
             /\ Flow W s'.
Proof.
  intros [[Hflag Hc Htot Hpg] Hpages Hobs Hvis Hcur].
  unfold bind, call_onError, modify, throw.
  eexists. split; [reflexivity|].
  destruct s; cbn in *. destruct onError0; repeat split; assumption.
Qed.

Lemma opened_flow (W : World) (doc : PDFDocumentProxy) (s : State) :
  getDocument W = inr doc -> Flow W s -> Flow W (opened doc s).
Proof.
  intros Hdoc [Hidle Hpages Hobs Hvis Hcur].
  pose proof (opened_idle W doc s Hdoc Hidle) as Hidle'.
  destruct (opened_fields doc s)
    as (_ & Ht & Hp & _ & _ & Hc & Ho & Hv & _).
  assert (Hsame : pageContainer s = [] \/ total s = numPages doc).
  { destruct (pageContainer s) as [|w l] eqn:E; [left; reflexivity|right].
    assert (Hpos : 0 < total s).
    { apply (idle_pages W s Hidle). left. rewrite Hobs, ?E. discriminate. }
    destruct (idle_total W s Hidle) as [H0|(doc' & Hdoc' & Ht' & _)]; [lia|].
    rewrite Hdoc in Hdoc'. inversion Hdoc'. subst doc'. exact Ht'. }
  split.
  - exact Hidle'.
  - rewrite Ht, Hc. destruct Hsame as [Hnil|Hsame].
    + rewrite Hnil. constructor.
    + rewrite <- Hsame. exact Hpages.
  - rewrite Ho, Hc. exact Hobs.
  - rewrite Hv, Ho. exact Hvis.
  - rewrite Hp, Ht.
    destruct (idle_total W s Hidle) as [H0|(doc' & Hdoc' & Ht' & _)].
    + rewrite H0 in Hcur. lia.
    + rewrite Hdoc in Hdoc'. inversion Hdoc'. subst doc'.
      rewrite Ht' in Hcur. exact Hcur.
Qed.

Lemma open_flow (W : World) (s : State) :
  Flow W s -> exists s', dispatch W Open s = Some s' /\ Flow W s'.
Proof.
  intros Hflow. cbn [dispatch]. unfold pdfPreview.
  destruct (workerUrl W) as [e|] eqn:Hworker.
  { destruct (call_onError_flow W
                (failure (message_or "Unknown error in PDF preview" e))
                rejection s Hflow) as (s' & Hrun & Hflow').
    rewrite Hrun. eauto. }
  destruct (getDocument W) as [e|doc] eqn:Hdoc.
  { destruct (call_onError_flow W (failure (message_of e)) rejection s Hflow)
      as (s' & Hrun & Hflow').
    rewrite Hrun. eauto. }
  pose proof (opened_flow W doc s Hdoc Hflow) as Hopened.
  destruct (opened_fields doc s) as (_ & Ht & Hp & _).
  destruct (initialFill_run W (open_fuel W) (opened doc s))
    as (k & _ & Hrun & _ & Hbefore).
  { apply Hopened. }
  { rewrite Ht, Hp. unfold open_fuel. rewrite Hdoc.
    pose proof (idle_cursor W s (flow_idle W s Hflow)). lia. }
  rewrite opened_run, Hrun. eexists. split; [reflexivity|].
  apply steps_flow; assumption.
Qed.

Lemma dispatch_flow (W : World) (ev : Event) (s : State) :
  Flow W s -> exists s', dispatch W ev s = Some s' /\ Flow W s'.
Proof.
  intros Hflow. destruct ev as [|top|n|entries|text].
  - apply open_flow, Hflow.
  - eexists. split; [reflexivity|]. apply scroll_flow, Hflow.
  - eexists. split; [reflexivity|]. apply navigate_flow, Hflow.
  - eexists. split; [reflexivity|]. apply intersection_flow, Hflow.
  - eexists. split; [reflexivity|]. apply search_flow, Hflow.
Qed.

Lemma constructor_flow (W : World) (options : RenderOptions) :
  Flow W (constructor options).
Proof.
  split; cbn.
  - apply constructor_idle.
  - constructor.
  - reflexivity.
  - intros p Hp. set_solver.
  - lia.
Qed.

Lemma run_flow (W : World) (evs : list Event) (s : State) :
  Flow W s -> exists s', run W evs s = Some s' /\ Flow W s'.
Proof.
  revert s. induction evs as [|ev evs IH]; intros s Hflow; cbn [run].
  - eauto.
  - destruct (dispatch_flow W ev s Hflow) as (s1 & Hrun & Hflow1).
    rewrite Hrun. apply IH, Hflow1.
Qed.

(** X1: whatever operations ran, every page wrapper in the container
    carries a page number of the document, has the divider unless it is
    the last page, was sized for the device scale, and its canvas is
    observed; the observer watches nothing else. *)
Theorem page_flow_well_formed (W : World) (options : RenderOptions)
  (evs : list Event) :
  exists s,
    run W evs (constructor options) = Some s
    /\ Forall (fun w => 1 <= pw_number w <= total s
                        /\ pw_divider w = (pw_number w <? total s)
                        /\ pw_scale w = deviceScale W) (pageContainer s)
    /\ observed s = map pw_number (pageContainer s).
Proof.
  destruct (run_flow W evs (constructor options) (constructor_flow W options))
    as (s & Hrun & Hflow).
  exists s. split; [exact Hrun|].
  split; [apply (flow_pages W s Hflow)|apply (flow_observed W s Hflow)].
Qed.

(** X2: whatever operations ran, the VisibleSet only holds numbers of
    pages that are in the container, and the cursor lies between 0 and
    the page count. *)
Theorem visible_pages_are_rendered (W : World) (options : RenderOptions)
  (evs : list Event) :
  exists s,
    run W evs (constructor options) = Some s
    /\ (forall p, p ∈ visiblePages s ->
        exists w, w ∈ pageContainer s /\ pw_number w = p)
    /\ 0 <= pageNumber s <= Z.max 0 (total s).
Proof.
  destruct (run_flow W evs (constructor options) (constructor_flow W options))
    as (s & Hrun & Hflow).
  exists s. split; [exact Hrun|]. split.
  - intros p Hp. apply (flow_visible W s Hflow) in Hp.
    rewrite (flow_observed W s Hflow) in Hp.
    apply list_elem_of_fmap in Hp as (w & -> & Hw). eauto.
  - split; [apply (idle_cursor W s (flow_idle W s Hflow))|].
    apply (flow_cursor W s Hflow).
Qed.

(** ** Until the first navigation *)

Lemma next_page_order (W : World) (s : State) :
  0 <= pageNumber s -> InOrder s -> InOrder (next_page W s).
Proof.
  intros H0 [Hreq Hsorted Hbound].
  destruct (next_page_fields W s) as (Hr & Hp & _).
  destruct (next_page_layout W s) as (Hc & _ & _).
  destruct (after_getPdfPage_layout W (pageNumber s + 1) s) as (ws & Hc' & _ & Hws).
  split.
  - rewrite Hr, Hp, Hreq.
    rewrite (seqZ_app 1 (pageNumber s) 1) by lia.
    rewrite (seqZ_cons (1 + pageNumber s) 1) by lia.
    rewrite (seqZ_nil (Z.succ (1 + pageNumber s))) by lia.
    replace (1 + pageNumber s) with (pageNumber s + 1) by lia. reflexivity.
  - rewrite Hc, Hc', map_app. apply StronglySorted_app. split; [|split].
    + intros x1 x2 Hx1 Hx2.
      apply list_elem_of_fmap in Hx1 as (w1 & -> & Hw1).
      apply list_elem_of_fmap in Hx2 as (w2 & -> & Hw2).
      rewrite Forall_forall in Hbound, Hws.
      specialize (Hbound w1 Hw1). destruct (Hws w2 Hw2) as (Hn & _). lia.
    + exact Hsorted.
    + destruct (after_getPdfPage_container W (pageNumber s + 1) s)
        as (ws0 & Hc0 & Hlen & _).
      rewrite Hc' in Hc0. apply app_inv_head in Hc0. subst ws0.
      destruct ws as [|w [|w' ws']]; cbn in Hlen; [constructor| |lia].
      repeat constructor.
  - rewrite Hc, Hc', Hp. apply Forall_app. split.
    + eapply Forall_impl; [exact Hbound|]. cbn. intros; lia.
    + eapply Forall_impl; [exact Hws|]. cbn. intros w (Hw & _). lia.
Qed.

Lemma steps_order (W : World) (k : nat) (s : State) :
  0 <= pageNumber s -> InOrder s -> InOrder (steps W k s).
Proof.
  revert s. induction k as [|k IH]; intros s H0 Horder; [exact Horder|].
  cbn [steps]. destruct (next_page_fields W s) as (_ & Hp & _).
  apply IH; [lia|]. apply next_page_order; assumption.
Qed.

Lemma dispatch_order (W : World) (ev : Event) (s s' : State) :
  match ev with Navigate _ => False | _ => True end ->
  Idle W s -> InOrder s -> dispatch W ev s = Some s' -> InOrder s'.
Proof.
  intros Hev Hidle Horder Hstep.
  pose proof (idle_cursor W s Hidle) as H0.
  destruct ev as [|top|n|entries|text]; cbn [dispatch] in Hstep.
  - unfold pdfPreview in Hstep.
    assert (Herr : forall msg e s1,
              (call_onError msg ;; throw (A:=BaseReturn) e) s = (Thrown e, s1) ->
              InOrder s1).
    { intros msg e s1 H. unfold bind, call_onError, modify, throw in H.
      inversion H. destruct Horder. destruct s; cbn in *.
      destruct onError0; split; assumption. }
    destruct (workerUrl W) as [e|].
    { destruct (call_onError_idle W
                  (failure (message_or "Unknown error in PDF preview" e))
                  rejection s Hidle) as (s1 & Hrun & _).
      rewrite Hrun in Hstep. inversion Hstep. subst. eapply Herr, Hrun. }
    destruct (getDocument W) as [e|doc] eqn:Hdoc.
    { destruct (call_onError_idle W (failure (message_of e)) rejection s Hidle)
        as (s1 & Hrun & _).
      rewrite Hrun in Hstep. inversion Hstep. subst. eapply Herr, Hrun. }
    destruct (opened_fields doc s) as (_ & Ht & Hp & Hl & Hr & Hc & _).
    destruct (initialFill_run W (open_fuel W) (opened doc s))
      as (k & _ & Hrun & _).
    { rewrite Hl. apply Hidle. }
    { rewrite Ht, Hp. unfold open_fuel. rewrite Hdoc. lia. }
    rewrite opened_run, Hrun in Hstep. inversion Hstep. subst s'.
    apply steps_order; [lia|].
    destruct Horder as [Hreq Hsorted Hbound].
    split; rewrite ?Hr, ?Hc, ?Hp; assumption.
  - inversion Hstep. subst s'. unfold scroll.
    assert (Horder0 : InOrder (set_dom_scrollTop top s)).
    { destruct Horder. destruct s; split; assumption. }
    destruct (handleScroll_cases W (set_dom_scrollTop top s))
      as [Hsame|(_ & _ & Hnext)].
    + rewrite Hsame. exact Horder0.
    + rewrite Hnext. apply next_page_order; [|exact Horder0].
      destruct s; exact H0.
  - destruct Hev.
  - inversion Hstep. subst s'.
    destruct (intersection_fields (observable s entries) s)
      as (_ & Hc & _ & _ & Hp & Hr).
    destruct Horder as [Hreq Hsorted Hbound].
    split; rewrite ?Hr, ?Hc, ?Hp; assumption.
  - inversion Hstep. subst s'. destruct Horder as [Hreq Hsorted Hbound].
    unfold handleTocSearch, modify. cbn [snd].
    destruct s; cbn in *. destruct tocListContainer0; split; assumption.
Qed.

Lemma run_order (W : World) (evs : list Event) (s : State) :
  no_navigation evs -> Idle W s -> InOrder s ->
  exists s', run W evs s = Some s' /\ InOrder s'.
Proof.
  revert s. induction evs as [|ev evs IH]; intros s Hevs Hidle Horder; cbn [run].
  - eauto.
  - inversion Hevs as [|? ? Hev Hrest]; subst.
    destruct (dispatch_idle W ev s Hidle) as (s1 & Hstep & Hidle1).
    rewrite Hstep. apply IH; [exact Hrest|exact Hidle1|].
    exact (dispatch_order W ev s s1 Hev Hidle Horder Hstep).
Qed.

(** X3: as long as no navigation took place, the pages asked for are
    exactly 1, 2, ... up to the cursor, each once and in order, and the
    pages in the container are in strictly increasing order (so none is
    there twice). *)
Theorem pages_in_order_until_navigation (W : World) (options : RenderOptions)
  (evs : list Event) :
  no_navigation evs ->
  exists s,
    run W evs (constructor options) = Some s
    /\ requests s = seqZ 1 (pageNumber s)
    /\ StronglySorted Z.lt (map pw_number (pageContainer s)).
Proof.
  intros Hevs.
  destruct (run_order W evs (constructor options) Hevs
              (constructor_idle W options)) as (s & Hrun & [Hreq Hsorted _]).
  { split; cbn; constructor. }
  exists s. auto.
Qed.

Lemma pages_in_order_until_navigation_witness :
  exists s,
    run sample_world [Open; Scroll 300; Search "beta"; Scroll 900]
      (constructor sample_options) = Some s
    /\ requests s = seqZ 1 (pageNumber s)
    /\ StronglySorted Z.lt (map pw_number (pageContainer s)).
Proof.
  apply pages_in_order_until_navigation.
  repeat constructor.
Defined.

(** ** A completed navigation *)

Lemma after_pages_numbers (W : World) (pages : list Z) (s : State) :
  exists ws,
    pageContainer (after_pages W pages s) = pageContainer s ++ ws
    /\ Forall (fun w => pw_number w ∈ pages) ws.
Proof.
  revert s. induction pages as [|p pages IH]; intros s.
  - exists []. cbn. rewrite app_nil_r. split; [reflexivity|constructor].
  - change (after_pages W (p :: pages) s)
      with (after_pages W pages (after_getPdfPage W p s)).
    destruct (IH (after_getPdfPage W p s)) as (ws & Hws & Hin).
    destruct (after_getPdfPage_layout W p s) as (ws0 & Hws0 & _ & Hin0).
    exists (ws0 ++ ws). rewrite Hws, Hws0, app_assoc. split; [reflexivity|].
    apply Forall_app. split.
    + eapply Forall_impl; [exact Hin0|]. cbn. intros w (-> & _). left.
    + eapply Forall_impl; [exact Hin|]. cbn. intros w Hw. right. exact Hw.
Qed.

Lemma min_ext_le (a : Z) (b : option Z) : min_ext a b <= a.
Proof. destruct b; cbn; lia. Qed.

Lemma navigation_pages (W : World) (n : Z) (s s1 : State) :
  1 <= n <= total s -> total s1 = total s ->
  exists k,
    batch_pages n (n + 3 - 1) (total s) ++ second_batch W n s1 = seqZ n k
    /\ Z.min 3 (total s - n + 1) <= k <= total s - n + 1.
Proof.
  intros Hn Ht. unfold second_batch, batch_pages. rewrite Ht.
  destruct (_ <? _).
  2:{ rewrite app_nil_r. eexists. split; [reflexivity|lia]. }
  cbv zeta.
  pose proof (min_ext_le (total s - (n + 3))
                (estimate (dom_clientHeight W)
                   (pageContainer_scrollHeight W (pageContainer s1)))) as Hle.
  revert Hle. generalize (min_ext (total s - (n + 3))
                (estimate (dom_clientHeight W)
                   (pageContainer_scrollHeight W (pageContainer s1)))).
  intros r Hle.
  destruct (Z.ltb_spec 0 r) as [Hr|Hr].
  2:{ rewrite app_nil_r. eexists. split; [reflexivity|lia]. }
  exists (3 + r). split; [|lia].
  replace (Z.min (n + 3 - 1) (total s) - n + 1) with 3 by lia.
  replace (Z.min (n + 3 + r - 1) (total s) - (n + 3) + 1) with r by lia.
  rewrite (seqZ_app n 3 r) by lia. reflexivity.
Qed.

Lemma navigated_pages (W : World) (n : Z) (s : State) :
  1 <= n <= total s ->
  exists k,
    requests (navigated W n s) = requests s ++ seqZ n k
    /\ Z.min 3 (total s - n + 1) <= k <= total s - n + 1
    /\ Forall (fun w => n <= pw_number w < n + k) (pageContainer (navigated W n s)).
Proof.
  intros Hn. unfold navigated.
  assert (H0 : total (cleared n s) = total s
               /\ pageContainer (cleared n s) = []
               /\ requests (cleared n s) = requests s)
    by (destruct s; repeat split).
  destruct H0 as (Ht0 & Hc0 & Hr0).
  set (pages1 := batch_pages n (n + 3 - 1) (total s)).
  pose proof (after_pages_requests W pages1 (cleared n s)) as Hr1.
  destruct (after_pages_numbers W pages1 (cleared n s)) as (ws1 & Hc1 & Hin1).
  pose proof (after_pages_same W pages1 (cleared n s)) as (_ & Ht1 & _).
  revert Hr1 Hc1 Ht1.
  generalize (after_pages W pages1 (cleared n s)). intros s1 Hr1 Hc1 Ht1.
  rewrite Ht0 in Ht1.
  destruct (navigation_pages W n s s1 Hn Ht1) as (k & Hk & Hbound).
  fold pages1 in Hk.
  pose proof (after_pages_requests W (second_batch W n s1) s1) as Hr2.
  destruct (after_pages_numbers W (second_batch W n s1) s1) as (ws2 & Hc2 & Hin2).
  revert Hr2 Hc2 Hin2 Hk. generalize (second_batch W n s1).
  intros pages2. generalize (after_pages W pages2 s1).
  intros s2 Hr2 Hc2 Hin2 Hk.
  assert (H3 : pageContainer (hideLoading s2) = pageContainer s2
               /\ requests (hideLoading s2) = requests s2)
    by (destruct s2; repeat split).
  destruct H3 as (Hc3 & Hr3).
  exists k. rewrite Hc3, Hr3, Hr2, Hr1, Hr0, Hc2, Hc1, Hc0, <- app_assoc, Hk.
  split; [reflexivity|]. split; [exact Hbound|].
  cbn [app]. apply Forall_app. split.
  - eapply Forall_impl; [exact Hin1|]. cbn. intros w Hw.
    assert (Hw' : pw_number w ∈ seqZ n k)
      by (rewrite <- Hk; apply elem_of_app; left; exact Hw).
    apply elem_of_seqZ in Hw'. lia.
  - eapply Forall_impl; [exact Hin2|]. cbn. intros w Hw.
    assert (Hw' : pw_number w ∈ seqZ n k)
      by (rewrite <- Hk; apply elem_of_app; right; exact Hw).
    apply elem_of_seqZ in Hw'. lia.
Qed.

(** X4: a navigation that is accepted replaces the page flow: it asks
    for a block of consecutive pages n, n+1, ... of at least three pages
    (fewer only when the document ends first) and never past the last
    page, the container holds pages of that block only, the canvases
    under observation are exactly those of the container (none of the
    pages removed), the loading indicator is hidden and the busy flag is
    released; the cursor is left just before n.  The VisibleSet and the
    scroll offset are reset when the container is cleared, but observer
    reports and scrolling can arrive while the block is rendered, so
    nothing is said of them at the end of the call. *)
Theorem navigation_renders_block (W : World) (n : Z) (s : State) :
  1 <= n <= total s -> is_Some (pdfDoc s) -> isLoading s = false ->
  let s' := snd (navigateToPage W n s) in
  fst (navigateToPage W n s) = Returned tt
  /\ (exists k,
        requests s' = requests s ++ seqZ n k
        /\ Z.min 3 (total s - n + 1) <= k <= total s - n + 1
        /\ Forall (fun w => n <= pw_number w < n + k) (pageContainer s'))
  /\ observed s' = map pw_number (pageContainer s')
  /\ loadingIndicator s' = "none"
  /\ isLoading s' = false
  /\ pageNumber s' = n - 1.
Proof.
  intros Hn Hdoc Hbusy. cbv zeta.
  rewrite (navigateToPage_run W n s Hn Hdoc Hbusy). cbn [fst snd].
  destruct (navigated_fields W n s) as (Hl & Hp & _ & _ & Hi).
  destruct (navigated_layout W n s) as (_ & Ho & _ & _); [lia|].
  split; [reflexivity|]. split; [apply navigated_pages, Hn|].
  repeat split; assumption.
Qed.

Lemma navigation_renders_block_witness :
  let s' := snd (navigateToPage sample_world 9 sample_state) in
  exists k,
    requests s' = requests sample_state ++ seqZ 9 k
    /\ Z.min 3 (total sample_state - 9 + 1) <= k <= total sample_state - 9 + 1.
Proof.
  cbv zeta.
  assert (Hn : 1 <= 9 <= total sample_state) by (vm_compute; split; discriminate).
  assert (Hdoc : is_Some (pdfDoc sample_state)) by (vm_compute; eauto).
  destruct (navigation_renders_block sample_world 9 sample_state Hn Hdoc eq_refl)
    as (_ & (k & Hreq & Hk & _) & _).
  exists k. split; [exact Hreq|exact Hk].
Defined.

(** X5: the cursor is not moved past the pages a navigation rendered:
    after an accepted [navigateToPage(n)] the next scroll event that
    finds the position near the bottom asks for page n once more,
    although the navigation already asked for it. *)
Theorem scroll_after_navigation_repeats_page (W : World) (n top : Z)
  (s : State) :
  1 <= n <= total s -> is_Some (pdfDoc s) -> isLoading s = false ->
  let s1 := snd (navigateToPage W n s) in
  near_bottom W (set_dom_scrollTop top s1) ->
  (exists rest, requests s1 = requests s ++ n :: rest)
  /\ requests (scroll W top s1) = requests s1 ++ [n]
  /\ pageNumber (scroll W top s1) = n.
Proof.
  intros Hn Hdoc Hbusy. cbv zeta.
  rewrite (navigateToPage_run W n s Hn Hdoc Hbusy). cbn [snd].
  destruct (navigated_fields W n s) as (Hl & Hp & Ht & _).
  destruct (navigated_pages W n s Hn) as (k & Hreq & Hk & _).
  revert Hl Hp Ht Hreq. generalize (navigated W n s). intros s1 Hl Hp Ht Hreq Hnear.
  split.
  { exists (seqZ (Z.succ n) (Z.pred k)). rewrite Hreq.
    rewrite (seqZ_cons n k) by lia. reflexivity. }
  unfold scroll.
  assert (H0 : isLoading (set_dom_scrollTop top s1) = false
               /\ pageNumber (set_dom_scrollTop top s1) = n - 1
               /\ total (set_dom_scrollTop top s1) = total s
               /\ requests (set_dom_scrollTop top s1) = requests s1)
    by (destruct s1; cbn in *; auto).
  destruct H0 as (Hl0 & Hp0 & Ht0 & Hr0).
  rewrite handleScroll_run; [|exact Hl0|lia|exact Hnear]. cbn [snd].
  destruct (next_page_fields W (set_dom_scrollTop top s1)) as (Hr' & Hp' & _).
  rewrite Hr', Hp', Hp0, Hr0. split; [f_equal; f_equal; lia|lia].
Qed.

Lemma scroll_after_navigation_repeats_page_witness :
  requests (scroll sample_world 5000 (snd (navigateToPage sample_world 5 sample_state)))
  = requests (snd (navigateToPage sample_world 5 sample_state)) ++ [5].
Proof.
  assert (Hn : 1 <= 5 <= total sample_state) by (vm_compute; split; discriminate).
  assert (Hdoc : is_Some (pdfDoc sample_state)) by (vm_compute; eauto).
  assert (Hnear : near_bottom sample_world
                    (set_dom_scrollTop 5000
                       (snd (navigateToPage sample_world 5 sample_state))))
    by (vm_compute; discriminate).
  exact (proj1 (proj2 (scroll_after_navigation_repeats_page sample_world 5 5000
                         sample_state Hn Hdoc eq_refl Hnear))).
Defined.

(** ** The intersection callback, entry by entry *)

Lemma track_last_report (entries : list IntersectionObserverEntry)
  (vis : gset Z) (p : Z) :
  p ∈ foldl track vis entries
  <-> match last_report p entries with
      | Some b => b = true
      | None => p ∈ vis
      end.
Proof.
  revert vis. induction entries as [|e entries IH]; intros vis; [reflexivity|].
  cbn [foldl last_report]. rewrite IH.
  destruct (last_report p entries) as [b|]; [reflexivity|].
  unfold track.
  destruct (Z.eqb_spec (pageNum e) 0) as [H0|H0].
  { rewrite andb_false_r. reflexivity. }
  rewrite andb_true_r.
  clear IH.
  destruct (Z.eqb_spec (pageNum e) p) as [Hp|Hp]; destruct (isIntersecting e).
  - rewrite elem_of_union, elem_of_singleton. intuition congruence.
  - rewrite elem_of_difference, elem_of_singleton. intuition congruence.
  - rewrite elem_of_union, elem_of_singleton. intuition congruence.
  - rewrite elem_of_difference, elem_of_singleton. intuition congruence.
Qed.

(** X6: after an intersection update a page is in the VisibleSet
    exactly when the last entry about it says it intersects, or, when no
    entry is about it, when it was in the set before; entries whose
    target has no page number change nothing. *)
Theorem intersection_last_entry_wins
  (entries : list IntersectionObserverEntry) (s : State) (p : Z) :
  p ∈ visiblePages (snd (handlePageIntersection entries s))
  <-> match last_report p entries with
      | Some b => b = true
      | None => p ∈ visiblePages s
      end.
Proof.
  destruct (intersection_fields entries s) as (Hv & _).
  rewrite Hv. apply track_last_report.
Qed.

(** X7: an intersection update that leaves the VisibleSet empty, or
    that comes while no document with pages is open, does not touch the
    page indicator: it keeps showing what it showed. *)
Theorem indicator_kept_without_visible_page
  (entries : list IntersectionObserverEntry) (s : State) :
  visiblePages (snd (handlePageIntersection entries s)) = ∅ \/ total s <= 0 ->
  pageIndicator (snd (handlePageIntersection entries s)) = pageIndicator s.
Proof.
  intros H. destruct (intersection_fields entries s) as (Hv & _).
  rewrite Hv in H. rewrite handlePageIntersection_run. cbn [snd]. cbv zeta.
  destruct (elements (foldl track (visiblePages s) entries)) as [|x l] eqn:Hel.
  { destruct s; reflexivity. }
  destruct (Z.ltb_spec 0 (total s)) as [Hpos|Hpos]; [|destruct s; reflexivity].
  destruct H as [H|H]; [|lia].
  rewrite H, elements_empty in Hel. discriminate.
Qed.

Lemma indicator_kept_without_visible_page_witness :
  pageIndicator
    (snd (handlePageIntersection [mkEntry 2 true; mkEntry 2 false] sample_state))
  = pageIndicator sample_state.
Proof.
  apply indicator_kept_without_visible_page.
  left. apply leibniz_equiv. apply elements_empty_inv. vm_compute. reflexivity.
Defined.

(** ** What a failed render leaves behind *)

(** X8: what [getPdfPage] leaves in the page flow depends on where the
    render failed.  When [getPage] is rejected nothing is appended; when
    the drawing context is missing or [render] is rejected the wrapper
    of the page stays in the container, observed, with a canvas that was
    never painted; only a full success paints it and calls no error
    callback.  When no document is open the failure is returned without
    calling the error callback and without touching the container. *)
Theorem failed_render_leaves_wrapper (W : World) (number : Z) (s : State) :
  let s' := snd (getPdfPage W number s) in
  let r := fst (getPdfPage W number s) in
  let wrapper c := mkWrapper number (deviceScale W) (number <? total s) c in
  (pdfDoc s = None ->
   r = Returned (failure "pdfDoc is undefined")
   /\ pageContainer s' = pageContainer s /\ onErrorCalls s' = onErrorCalls s)
  /\ (is_Some (pdfDoc s) ->
      forall e, getPage W (clock s) number = Some e ->
      r = Returned (failure (message_of e))
      /\ pageContainer s' = pageContainer s /\ observed s' = observed s)
  /\ (is_Some (pdfDoc s) -> getPage W (clock s) number = None ->
      observed s' = observed s ++ [number]
      /\ (getContext W (clock s) number = false ->
          r = Returned (failure "Failed to get canvas context")
          /\ pageContainer s' = pageContainer s ++ [wrapper Blank])
      /\ (getContext W (clock s) number = true ->
          forall e, render W (clock s) number = Some e ->
          r = Returned (failure (message_of e))
          /\ pageContainer s' = pageContainer s ++ [wrapper Sized])
      /\ (getContext W (clock s) number = true ->
          render W (clock s) number = None ->
          r = Returned (mkReturn true (DPage number) None)
          /\ pageContainer s' = pageContainer s ++ [wrapper Painted]
          /\ onErrorCalls s' = onErrorCalls s)).
Proof.
  cbv zeta. rewrite getPdfPage_run. cbn [fst snd].
  unfold getPdfPage_result, after_getPdfPage, rendered, result_of, reported,
    caught, appended, canvas_after.
  split; [|split].
  - intros Hdoc. rewrite Hdoc. destruct s; repeat split.
  - intros [doc Hdoc] e He. rewrite Hdoc, He.
    destruct s; cbn. rewrite !app_nil_r. repeat split.
  - intros [doc Hdoc] Hpage. rewrite Hdoc, Hpage.
    split; [destruct s; reflexivity|].
    split; [|split].
    + intros Hctx. rewrite Hctx. destruct s; repeat split.
    + intros Hctx e He. rewrite Hctx, He. destruct s; repeat split.
    + intros Hctx Hr. rewrite Hctx, Hr. destruct s; cbn.
      rewrite app_nil_r. repeat split.
Qed.

Lemma failed_render_leaves_wrapper_witness :
  map (fun w => (pw_number w, pw_canvas w))
    (pageContainer (snd (getPdfPage sample_world 2 sample_first)))
  = [(1, Painted); (2, Sized)].
Proof.
  assert (Hdoc : is_Some (pdfDoc sample_first)) by (vm_compute; eauto).
  destruct (proj2 (proj2 (failed_render_leaves_wrapper sample_world 2 sample_first))
              Hdoc eq_refl) as (_ & _ & Hrej & _).
  destruct (Hrej eq_refl (JsError "render cancelled") eq_refl) as (_ & Hc).
  rewrite Hc. vm_compute. reflexivity.
Defined.

(** ** Opening a document *)

Lemma after_getPdfPage_chrome (W : World) (number : Z) (s : State) :
  tocButton (after_getPdfPage W number s) = tocButton s
  /\ onLoadCalls (after_getPdfPage W number s) = onLoadCalls s
  /\ tocSearchInput (after_getPdfPage W number s) = tocSearchInput s.
Proof.
  unfold after_getPdfPage, rendered. destruct (pdfDoc s); destruct s; repeat split.
Qed.

Lemma steps_chrome (W : World) (k : nat) (s : State) :
  tocButton (steps W k s) = tocButton s
  /\ onLoadCalls (steps W k s) = onLoadCalls s
  /\ tocListContainer (steps W k s) = tocListContainer s
  /\ pageIndicator (steps W k s) = pageIndicator s
  /\ dom_children (steps W k s) = dom_children s.
Proof.
  revert s. induction k as [|k IH]; intros s; [repeat split|].
  cbn [steps]. destruct (IH (next_page W s)) as (H1 & H2 & H3 & H4 & H5).
  rewrite H1, H2, H3, H4, H5. unfold next_page.
  destruct (after_getPdfPage_chrome W (pageNumber s + 1) s) as (C1 & C2 & _).
  destruct (after_getPdfPage_same W (pageNumber s + 1) s)
    as (_ & _ & _ & _ & _ & S1 & _ & S2 & S3 & _).
  destruct (after_getPdfPage W (pageNumber s + 1) s); cbn in *.
  repeat split; assumption.
Qed.

Lemma steps_errors (W : World) (k : nat) (s : State) :
  (length (onErrorCalls (steps W k s)) <= length (onErrorCalls s) + k)%nat.
Proof.
  revert s. induction k as [|k IH]; intros s; [cbn; lia|].
  cbn [steps]. specialize (IH (next_page W s)).
  assert (H : (length (onErrorCalls (next_page W s))
               <= length (onErrorCalls s) + 1)%nat).
  { unfold next_page, after_getPdfPage, rendered, reported.
    destruct (pdfDoc s); [|destruct s; cbn; lia].
    destruct (caught W (clock s) (pageNumber s + 1));
      [destruct (onError s)|]; destruct s; cbn; rewrite ?length_app; cbn; lia. }
  lia.
Qed.

(** X9: when pdf.js loads the document, [pdfPreview] on a fresh engine
    resolves with a success result carrying the document; the engine
    then holds the document and its page count, has called [onLoad] once
    with it (when the callback was supplied) and [onError] at most once
    for each page it asked for, the mount holds its earlier children and
    the viewer container, and the engine is idle.  The page indicator
    and the table of contents are left out: observer reports arrive
    while the fill is rendered, and [renderOutline()] is not awaited. *)
Theorem open_stores_document (W : World) (options : RenderOptions)
  (doc : PDFDocumentProxy) (fuel : nat) :
  workerUrl W = None -> getDocument W = inr doc ->
  numPages doc <= Z.of_nat fuel ->
  exists s,
    pdfPreview W fuel (constructor options)
    = Some (Returned (mkReturn true (DDocument doc) None), s)
    /\ pdfDoc s = Some doc
    /\ total s = numPages doc
    /\ onLoadCalls s
       = (if has_onLoad options then [mkReturn true (DDocument doc) None] else [])
    /\ (length (onErrorCalls s) <= length (requests s))%nat
    /\ dom_children s = dom options ++ [ViewerContainer]
    /\ isLoading s = false.
Proof.
  intros Hworker Hdoc Hfuel.
  destruct (pdfPreview_loaded W fuel (constructor options) doc Hworker Hdoc)
    as (k & Hrun & _); [reflexivity|cbn; lia|].
  exists (steps W k (opened doc (constructor options))).
  split; [exact Hrun|].
  destruct (steps_fields W k (opened doc (constructor options)))
    as (Hr & _ & Ht & Hl & Hd).
  destruct (steps_chrome W k (opened doc (constructor options)))
    as (_ & H2 & _ & _ & H5).
  pose proof (steps_errors W k (opened doc (constructor options))) as He.
  destruct (opened_fields doc (constructor options))
    as (O1 & O2 & _ & O4 & O5 & _ & _ & _ & O9 & O10).
  rewrite Ht, Hl, Hd, H2, H5, Hr, O1, O2, O4, O5, O9.
  rewrite O10 in He.
  split; [reflexivity|]. split; [reflexivity|].
  split.
  { unfold opened, bind, modify, call_onLoad, updatePageIndicator, renderOutline,
      get, ret, constructor.
    cbn. destruct (has_onLoad options); cbn;
      destruct (0 <? numPages doc); cbn;
      destruct (outline doc); cbn; reflexivity. }
  split.
  { rewrite length_app, length_seqZ. cbn in He |- *. lia. }
  split; reflexivity.
Qed.

Lemma open_stores_document_witness :
  exists s,
    pdfPreview sample_world 10 (constructor sample_options)
    = Some (Returned (mkReturn true (DDocument sample_doc) None), s)
    /\ pdfDoc s = Some sample_doc /\ total s = 10.
Proof.
  assert (Hfuel : numPages sample_doc <= Z.of_nat 10) by (cbn; lia).
  destruct (open_stores_document sample_world sample_options sample_doc 10
              eq_refl eq_refl Hfuel) as (s & Hrun & Hd & Ht & _).
  exists s. repeat split; assumption.
Defined.

(** X10: when setting up the pdf.js worker throws, [pdfPreview]
    rejects without asking pdf.js for the document: whatever
    [getDocument] would have returned, no document is stored, nothing is
    rendered, and the [onError] callback (when supplied) receives the
    message of the error, or the text [Unknown error in PDF preview] for
    a thrown value that is not an [Error]. *)
Theorem worker_failure_rejects (W : World) (options : RenderOptions)
  (fuel : nat) (e : JsThrown) :
  workerUrl W = Some e ->
  exists s,
    pdfPreview W fuel (constructor options) = Some (Thrown rejection, s)
    /\ pdfDoc s = None /\ requests s = [] /\ pageContainer s = []
    /\ onLoadCalls s = []
    /\ onErrorCalls s
       = (if has_onError options
          then [failure (match e with
                         | JsError m => m
                         | JsOther _ => "Unknown error in PDF preview"
                         end)]
          else []).
Proof.
  intros Hworker. unfold pdfPreview. rewrite Hworker.
  unfold bind, call_onError, modify, throw, constructor. cbn.
  destruct (has_onError options); cbn; eexists; repeat split;
    destruct e; reflexivity.
Qed.

Lemma worker_failure_rejects_witness :
  exists s,
    pdfPreview (mkWorld false (JsNum 1) (Some (JsOther "TypeError")) (inr sample_doc)
                  (fun _ _ => None) (fun _ _ => true) (fun _ _ => None)
                  0 (fun _ => 0) (fun _ => 0))
      3 (constructor sample_options) = Some (Thrown rejection, s)
    /\ onErrorCalls s = [failure "Unknown error in PDF preview"].
Proof.
  destruct (worker_failure_rejects
              (mkWorld false (JsNum 1) (Some (JsOther "TypeError")) (inr sample_doc)
                 (fun _ _ => None) (fun _ _ => true) (fun _ _ => None)
                 0 (fun _ => 0) (fun _ => 0))
              sample_options 3 (JsOther "TypeError") eq_refl)
    as (s & Hrun & _ & _ & _ & _ & Herr).
  exists s. split; [exact Hrun|exact Herr].
Defined.

(** X11: [renderPdf] resolves in every case (given the iterations the
    initial fill needs) and never removes what the mount element held:
    when the file cannot be read no viewer is constructed, the mount is
    untouched and [onError] (when supplied) receives one message; when
    it can be read the viewer container is appended after the earlier
    children. *)
Theorem renderPdf_resolves (W : World) (file : FileRead)
  (options : RenderOptions) :
  exists m,
    renderPdf W file options (open_fuel W) = Some m
    /\ match file with
       | ReadBuffer =>
           mount m = dom options ++ [ViewerContainer] /\ is_Some (engine m)
       | ReadNull =>
           mount m = dom options /\ engine m = None
           /\ errors m = (if has_onError options
                          then [failure "Failed to read PDF file"] else [])
       | ReadRejected e =>
           mount m = dom options /\ engine m = None
           /\ errors m = (if has_onError options
                          then [failure (message_or "Failed to render PDF" e)]
                          else [])
       end.
Proof.
  destruct file as [| |e]; cbn [renderPdf].
  - destruct (run_flow W [Open] (constructor options) (constructor_flow W options))
      as (s & Hrun & _).
    cbn [run dispatch] in Hrun.
    assert (Hdom : match pdfPreview W (open_fuel W) (constructor options) with
                   | Some (_, s') =>
                       dom_children s' = dom options ++ [ViewerContainer]
                   | None => True
                   end).
    { unfold pdfPreview.
      assert (Herr : forall msg e0,
                dom_children
                  (snd ((call_onError msg ;; throw (A:=BaseReturn) e0)
                          (constructor options)))
                = dom options ++ [ViewerContainer]).
      { intros msg e0. unfold bind, call_onError, modify, throw. cbn.
        destruct (has_onError options); reflexivity. }
      destruct (workerUrl W) as [e0|].
      { specialize (Herr (failure (message_or "Unknown error in PDF preview" e0))
                      rejection).
        destruct ((call_onError _ ;; throw _) (constructor options)). exact Herr. }
      destruct (getDocument W) as [e|doc] eqn:Hdoc.
      { specialize (Herr (failure (message_of e)) rejection).
        destruct ((call_onError _ ;; throw _) (constructor options)). exact Herr. }
      rewrite opened_run.
      destruct (initialFill_run W (open_fuel W) (opened doc (constructor options)))
        as (k & _ & Hfill & _).
      { destruct (opened_fields doc (constructor options)) as (_ & _ & _ & Hl & _).
        rewrite Hl. reflexivity. }
      { destruct (opened_fields doc (constructor options)) as (_ & Ht & Hp' & _).
        rewrite Ht, Hp'. unfold open_fuel. rewrite Hdoc. cbn. lia. }
      rewrite Hfill.
      destruct (steps_chrome W k (opened doc (constructor options)))
        as (_ & _ & _ & _ & Hd).
      destruct (opened_fields doc (constructor options))
        as (_ & _ & _ & _ & _ & _ & _ & _ & Hd' & _).
      rewrite Hd, Hd'. reflexivity. }
    destruct (pdfPreview W (open_fuel W) (constructor options))
      as [[[r|e] s']|] eqn:Hp; [| |discriminate].
    + eexists. split; [reflexivity|]. cbn. split; [exact Hdom|eauto].
    + eexists. split; [reflexivity|]. cbn. split; [exact Hdom|eauto].
  - eexists. split; [reflexivity|]. cbn. repeat split.
  - eexists. split; [reflexivity|]. cbn. repeat split.
Qed.

(** ** The table of contents *)

Lemma to_outline_createOutlineItem (item : OutlineNode) :
  to_outline (createOutlineItem item) = item.
Proof.
  induction item as [title items IH] using OutlineNode_forest_ind.
  cbn [createOutlineItem]. destruct items as [|a l]; [reflexivity|].
  cbn [to_outline]. f_equal. rewrite map_map.
  induction IH as [|b l' Hb _ IHl]; [reflexivity|].
  cbn [map]. rewrite Hb, IHl. reflexivity.
Qed.

Lemma nodes_createOutlineItem (item : OutlineNode) :
  Forall (fun n => display_of n = "" /\ is_Some (titleSpan_of n))
    (nodes (createOutlineItem item)).
Proof.
  induction item as [title items IH] using OutlineNode_forest_ind.
  cbn [createOutlineItem]. destruct items as [|a l].
  { repeat constructor. cbn. eauto. }
  cbn [nodes]. constructor; [split; cbn; eauto|].
  induction IH as [|b l' Hb _ IHl]; [constructor|].
  cbn [map flat_map]. apply Forall_app. split; assumption.
Qed.

(** X12: [renderOutline] shows the table of contents button and builds
    the list exactly when the open document has an outline.  The list
    mirrors the outline: read back, its items give the outline entries
    with the same titles, order and nesting, and every item has a title
    and is displayed.  Without an outline the button is hidden and the
    list is left as it was. *)
Theorem outline_list_mirrors_outline (doc : PDFDocumentProxy) (s : State) :
  pdfDoc s = Some doc ->
  let s' := snd (renderOutline s) in
  match outline doc with
  | [] => tocButton s' = "none" /\ tocListContainer s' = tocListContainer s
  | _ :: _ =>
      tocButton s' = "block"
      /\ exists items,
           tocListContainer s' = Some items
           /\ map to_outline items = outline doc
           /\ Forall (fun n => display_of n = "" /\ is_Some (titleSpan_of n))
                (flat_map nodes items)
  end.
Proof.
  intros Hdoc. cbv zeta. unfold renderOutline, bind, get, modify. rewrite Hdoc.
  destruct (outline doc) as [|a l] eqn:Ho.
  - destruct s; split; reflexivity.
  - cbn [snd]. split; [destruct s; reflexivity|].
    exists (map createOutlineItem (a :: l)).
    split; [destruct s; reflexivity|]. split.
    + rewrite map_map. rewrite <- (map_id (a :: l)) at 2.
      apply map_ext. intros x. apply to_outline_createOutlineItem.
    + generalize (a :: l). intros items.
      induction items as [|b items IH]; [constructor|].
      cbn [map flat_map]. apply Forall_app. split; [|exact IH].
      apply nodes_createOutlineItem.
Qed.

Lemma outline_list_mirrors_outline_witness :
  exists items,
    tocListContainer (snd (renderOutline sample_loaded)) = Some items
    /\ map to_outline items = sample_outline.
Proof.
  pose proof (outline_list_mirrors_outline sample_doc sample_loaded eq_refl)
    as H.
  cbv zeta in H. change (outline sample_doc) with sample_outline in H.
  unfold sample_outline in H at 1.
  destruct H as (_ & items & Hitems & Hback & _).
  exists items. split; [exact Hitems|exact Hback].
Defined.

(** ** Searches, one after another *)

Lemma shown_shown (q1 q2 : string) (item : TocItem) :
  shown q2 (shown q1 item) = shown q2 item.
Proof.
  rewrite <- (shown_of_structure q2 (shown q1 item)), shown_structure.
  apply shown_of_structure.
Qed.

Lemma search_list (text : string) (s : State) :
  tocListContainer (search text s)
  = option_map (map (shown (trim (toLowerCase text)))) (tocListContainer s).
Proof.
  unfold search. destruct (tocListContainer s) as [items|] eqn:Hitems.
  - rewrite (handleTocSearch_run _ items) by (destruct s; exact Hitems).
    destruct s; reflexivity.
  - unfold handleTocSearch, modify. cbn [snd].
    destruct s; cbn in *. rewrite Hitems. reflexivity.
Qed.

(** X13: the result of a search depends on the current query only: a
    search after any earlier search leaves the list as the same search
    alone would, and repeating a search changes nothing. *)
Theorem search_forgets_earlier_searches (q1 q2 : string) (s : State) :
  tocListContainer (search q2 (search q1 s)) = tocListContainer (search q2 s)
  /\ tocListContainer (search q2 (search q2 s)) = tocListContainer (search q2 s).
Proof.
  assert (H : forall q, tocListContainer (search q2 (search q s))
                        = tocListContainer (search q2 s)).
  { intros q. rewrite !search_list.
    destruct (tocListContainer s) as [items|]; [|reflexivity].
    cbn [option_map]. f_equal. rewrite map_map. apply map_ext.
    intros item. apply shown_shown. }
  split; apply H.
Qed.

(** X14: after a search, a node one of whose children is displayed is
    displayed itself, so every displayed node can be reached from the top
    of the list through displayed nodes. *)
Theorem shown_node_has_shown_parent (text : string) (s : State)
  (items : list TocItem) :
  tocListContainer (search text s) = Some items ->
  Forall (fun n => (exists c, c ∈ children n /\ display_of c = "") ->
                   display_of n = "")
    (flat_map nodes items).
Proof.
  rewrite search_list. destruct (tocListContainer s) as [items0|]; [|discriminate].
  cbn [option_map]. intros H. injection H as <-.
  set (q := trim (toLowerCase text)).
  rewrite forest_nodes_shown. apply List.Forall_forall. intros n Hn.
  apply List.in_map_iff in Hn as (n0 & <- & _).
  intros (c & Hc & Hdisp).
  destruct n0 as [t d [l|]]; cbn [shown children option_map] in *.
  2:{ inversion Hc. }
  apply list_elem_of_fmap in Hc as (c0 & -> & Hc0).
  assert (Hm : matches q c0 = true).
  { destruct c0 as [t0 d0 sub0]. cbn [shown display_of] in Hdisp.
    destruct (matches q (Li t0 d0 sub0)); [reflexivity|discriminate]. }
  cbn [display_of].
  change (matches q (Li t d (Some l)))
    with (own_match q (Li t d (Some l)) || existsb (matches q) l).
  assert (He : existsb (matches q) l = true).
  { apply existsb_exists. exists c0. split; [|exact Hm].
    apply list_elem_of_In. exact Hc0. }
  rewrite He, orb_true_r. reflexivity.
Qed.

Lemma shown_node_has_shown_parent_witness :
  Forall (fun n => (exists c, c ∈ children n /\ display_of c = "") ->
                   display_of n = "")
    (flat_map nodes
       (map (shown "beta") (map createOutlineItem sample_outline))).
Proof.
  apply (shown_node_has_shown_parent "Beta " sample_state).
  vm_compute. reflexivity.
Defined.

Lemma lower_space (c : ascii) : is_space c = true -> lower c = c.
Proof.
  unfold is_space, lower. intros H.
  destruct ((65 <=? nat_of_ascii c)%nat && (nat_of_ascii c <=? 90)%nat) eqn:E;
    [|reflexivity].
  apply andb_true_iff in E as [E1 E2].
  apply Nat.leb_le in E1. apply Nat.leb_le in E2.
  apply orb_true_iff in H as [H|H].
  - apply andb_true_iff in H as [_ H]. apply Nat.leb_le in H. lia.
  - apply Nat.eqb_eq in H. lia.
Qed.

Lemma trim_blank (text : string) :
  blank text = true -> trim (toLowerCase text) = "".
Proof.
  unfold trim. induction text as [|c text IH]; [reflexivity|].
  cbn [blank toLowerCase trimStart]. intros H.
  apply andb_true_iff in H as [Hc Hrest].
  rewrite (lower_space c Hc), Hc. apply IH, Hrest.
Qed.

Lemma search_blank (text : string) (s : State)
  (contents : list OutlineNode) (items : list TocItem) :
  blank text = true ->
  tocListContainer s = Some items ->
  map structure items = map structure (map createOutlineItem contents) ->
  tocListContainer (search text s) = Some (map createOutlineItem contents).
Proof.
  intros Hblank Hitems Hsame. rewrite search_list, Hitems, (trim_blank text Hblank).
  cbn [option_map]. f_equal.
  transitivity (map (shown "") (map structure items)).
  { rewrite map_map. apply map_ext. intros item.
    symmetry. apply shown_of_structure. }
  rewrite Hsame, !map_map. apply map_ext. intros item.
  rewrite shown_of_structure. apply shown_createOutlineItem.
Qed.

(** X15: a query of nothing but white space (the empty query
    included) shows the whole table of contents: a list that was built
    from the outline is exactly as built again, whatever an earlier
    search had hidden. *)
Theorem blank_query_shows_everything (text : string) (s : State)
  (contents : list OutlineNode) (items : list TocItem) :
  blank text = true ->
  tocListContainer s = Some items ->
  map structure items = map structure (map createOutlineItem contents) ->
  tocListContainer (search text s) = Some (map createOutlineItem contents).
Proof. apply search_blank. Qed.

Lemma blank_query_shows_everything_witness :
  tocListContainer (search "   " (search "beta" sample_state))
  = Some (map createOutlineItem sample_outline).
Proof.
  apply (blank_query_shows_everything "   " (search "beta" sample_state)
           sample_outline
           (map (shown "beta") (map createOutlineItem sample_outline))).
  - reflexivity.
  - vm_compute. reflexivity.
  - rewrite map_map. apply map_ext. intros item. apply shown_structure.
Defined.

Lemma prefix_append (a b : string) :
  String.prefix a b = true <-> exists post, b = a +:+ post.
Proof.
  revert b. induction a as [|c a IH]; intros b.
  - split; [intros _; exists b; reflexivity|]. intros _. destruct b; reflexivity.
  - destruct b as [|c' b]; cbn [String.prefix].
    + split; [discriminate|]. intros (post & H). discriminate.
    + destruct (Ascii.ascii_dec c c') as [->|Hne].
      * rewrite IH. split; intros (post & H); exists post.
        -- cbn. rewrite H. reflexivity.
        -- cbn in H. injection H as H. exact H.
      * split; [discriminate|]. intros (post & H). cbn in H.
        injection H as H _. congruence.
Qed.

Lemma includes_append (s sub : string) :
  includes s sub = true <-> exists pre post, s = pre +:+ sub +:+ post.
Proof.
  induction s as [|c s IH].
  - cbn [includes]. rewrite orb_false_r, prefix_append. split.
    + intros (post & H). exists "", post. exact H.
    + intros (pre & post & H). destruct pre; [exists post; exact H|discriminate].
  - cbn [includes]. rewrite orb_true_iff, prefix_append, IH. split.
    + intros [(post & H)|(pre & post & H)].
      * exists "", post. exact H.
      * exists (String c pre), post. cbn. rewrite H. reflexivity.
    + intros (pre & post & H). destruct pre as [|c' pre].
      * left. exists post. exact H.
      * right. cbn in H. injection H as _ H. exists pre, post. exact H.
Qed.

(** X16: whether the title of a node itself matches what was typed is
    a matter of substrings in lower case: the node matches exactly when
    its title, lower-cased, can be cut into a part before, the query
    lower-cased and trimmed, and a part after; a node without a title
    never matches by itself. *)
Theorem own_title_matches_substring (text : string) (titleSpan : option string)
  (display : string) :
  fst (filterTocItem (Li titleSpan display None) (trim (toLowerCase text))) = true
  <-> exists title pre post,
        titleSpan = Some title
        /\ toLowerCase title = pre +:+ trim (toLowerCase text) +:+ post.
Proof.
  cbn [filterTocItem fst]. rewrite orb_false_r.
  destruct titleSpan as [title|].
  - rewrite includes_append. split.
    + intros (pre & post & H). exists title, pre, post. auto.
    + intros (title' & pre & post & Ht & H). injection Ht as <-. eauto.
  - split; [discriminate|]. intros (title & _ & _ & Ht & _). discriminate.
Qed.

(** ** The table of contents panel *)

Lemma toggleToc_hidden (v : Viewer) :
  tocContainer v = "translateX(100%)" ->
  toggleToc v
  = mkViewer (search "" (core v)) "translateX(0)" "rgba(0, 0, 0, 0.7)" true
      (scroll_listener v) (pdfDoc_destroy v).
Proof.
  intros H. unfold toggleToc. rewrite H.
  rewrite bool_decide_eq_true_2 by reflexivity. reflexivity.
Qed.

Lemma toggleToc_shown (v : Viewer) :
  tocContainer v <> "translateX(100%)" ->
  toggleToc v
  = mkViewer (core v) "translateX(100%)" "rgba(0, 0, 0, 0.5)"
      (tocSearchInput_focus v) (scroll_listener v) (pdfDoc_destroy v).
Proof.
  intros H. unfold toggleToc. rewrite bool_decide_eq_false_2 by exact H.
  reflexivity.
Qed.

Lemma search_input (text : string) (s : State) :
  tocSearchInput (search text s) = text.
Proof.
  unfold search, handleTocSearch, modify. cbn [snd].
  destruct s; cbn. destruct tocListContainer0; reflexivity.
Qed.

(** X17: [toggleToc] on a hidden panel slides it in, empties the
    search box, runs the search (so a list built from the outline is
    shown whole, whatever an earlier search had hidden) and focuses the
    box; toggling again slides the panel out and touches neither the
    search box nor the list. *)
Theorem toggleToc_opens_clean (v : Viewer) (contents : list OutlineNode)
  (items : list TocItem) :
  tocContainer v = "translateX(100%)" ->
  tocListContainer (core v) = Some items ->
  map structure items = map structure (map createOutlineItem contents) ->
  let v1 := toggleToc v in
  let v2 := toggleToc v1 in
  tocContainer v1 = "translateX(0)"
  /\ tocButton_backgroundColor v1 = "rgba(0, 0, 0, 0.7)"
  /\ tocSearchInput (core v1) = ""
  /\ tocListContainer (core v1) = Some (map createOutlineItem contents)
  /\ tocSearchInput_focus v1 = true
  /\ tocContainer v2 = "translateX(100%)"
  /\ tocButton_backgroundColor v2 = "rgba(0, 0, 0, 0.5)"
  /\ core v2 = core v1.
Proof.
  intros Hhidden Hitems Hsame. cbv zeta.
  rewrite (toggleToc_hidden v Hhidden).
  rewrite toggleToc_shown by (cbn; discriminate). cbn.
  repeat split.
  - apply search_input.
  - apply (search_blank "" _ contents items); auto.
Qed.

Lemma toggleToc_opens_clean_witness :
  let v := with_core (search "beta" sample_state) (new_viewer sample_options) in
  tocListContainer (core (toggleToc v)) = Some (map createOutlineItem sample_outline)
  /\ core (toggleToc (toggleToc v)) = core (toggleToc v).
Proof.
  cbv zeta.
  assert (Hitems : tocListContainer (search "beta" sample_state)
                   = Some (map (shown "beta") (map createOutlineItem sample_outline)))
    by (vm_compute; reflexivity).
  assert (Hsame : map structure (map (shown "beta")
                                   (map createOutlineItem sample_outline))
                  = map structure (map createOutlineItem sample_outline)).
  { rewrite map_map. apply map_ext. intros item. apply shown_structure. }
  destruct (toggleToc_opens_clean
              (with_core (search "beta" sample_state) (new_viewer sample_options))
              sample_outline _ eq_refl Hitems Hsame)
    as (_ & _ & _ & Hlist & _ & _ & _ & Hcore).
  split; [exact Hlist|exact Hcore].
Defined.

(** ** A click on an outline title *)

(** X18: a click on an outline title does nothing while the engine is
    busy or has no document, and nothing when the destination resolves
    to none.  When a lookup is rejected it only hides the loading
    indicator: nothing is rendered and the panel stays as it was.  When
    the page index is found it navigates to the page after that index
    and then toggles the panel; the panel is toggled also when that
    page is outside the document and the navigation was refused. *)
Theorem title_click (W : World) (R : Resolver) (dest : ItemDest) (v : Viewer) :
  let resolved :=
    match dest with
    | Named name => getDestination R name
    | Explicit d => inr d
    end in
  (pdfDoc (core v) = None \/ isLoading (core v) = true ->
   title_onclick W R dest v = v)
  /\ (is_Some (pdfDoc (core v)) -> isLoading (core v) = false ->
      (resolved = inr None -> title_onclick W R dest v = v)
      /\ (forall e, resolved = inl e ->
          title_onclick W R dest v = with_core (hideLoading (core v)) v)
      /\ (forall ref e,
            resolved = inr (Some ref) -> getPageIndex R ref = inl e ->
            title_onclick W R dest v = with_core (hideLoading (core v)) v)
      /\ (forall ref pageIndex,
            resolved = inr (Some ref) -> getPageIndex R ref = inr pageIndex ->
            title_onclick W R dest v
            = toggleToc (with_core (snd (navigateToPage W (pageIndex + 1) (core v))) v)
            /\ (pageIndex < 0 \/ total (core v) <= pageIndex ->
                title_onclick W R dest v = toggleToc v))).
Proof.
  cbv zeta. unfold title_onclick. split.
  - intros [H|H].
    + rewrite H. rewrite bool_decide_eq_false_2 by (intros [? ?]; discriminate).
      reflexivity.
    + rewrite H, orb_true_r. reflexivity.
  - intros Hdoc Hbusy.
    rewrite bool_decide_eq_true_2 by exact Hdoc. rewrite Hbusy. cbn [negb orb].
    split; [|split; [|split]].
    + intros ->. reflexivity.
    + intros e ->. reflexivity.
    + intros ref e -> ->. reflexivity.
    + intros ref pageIndex -> Hidx. rewrite Hidx.
      assert (Hret : fst (navigateToPage W (pageIndex + 1) (core v)) = Returned tt).
      { destruct (Z_lt_dec (pageIndex + 1) 1) as [H1|H1].
        { rewrite navigateToPage_skip by (left; exact H1). reflexivity. }
        destruct (Z_lt_dec (total (core v)) (pageIndex + 1)) as [H2|H2].
        { rewrite navigateToPage_skip by (right; left; exact H2). reflexivity. }
        rewrite navigateToPage_run by (assumption || lia). reflexivity. }
      destruct (navigateToPage W (pageIndex + 1) (core v)) as [r s'] eqn:Hnav.
      cbn [fst snd] in *. subst r. split; [reflexivity|].
      intros Hout.
      rewrite navigateToPage_skip in Hnav by lia.
      injection Hnav as <-. destruct v; reflexivity.
Qed.

Lemma title_click_witness :
  title_onclick sample_world sample_resolver (Named "missing") sample_viewer
  = sample_viewer
  /\ title_onclick sample_world sample_resolver (Explicit (Some 99)) sample_viewer
     = with_core (hideLoading (core sample_viewer)) sample_viewer
  /\ title_onclick sample_world sample_resolver (Named "chapter-b") sample_viewer
     = toggleToc (with_core (snd (navigateToPage sample_world (4 + 1)
                                    (core sample_viewer))) sample_viewer).
Proof.
  assert (Hdoc : is_Some (pdfDoc (core sample_viewer))) by (vm_compute; eauto).
  assert (Hidle : isLoading (core sample_viewer) = false)
    by (vm_compute; reflexivity).
  destruct (proj2 (title_click sample_world sample_resolver (Named "missing")
                     sample_viewer) Hdoc Hidle) as (Hnone & _).
  destruct (proj2 (title_click sample_world sample_resolver (Explicit (Some 99))
                     sample_viewer) Hdoc Hidle) as (_ & _ & Hrej & _).
  destruct (proj2 (title_click sample_world sample_resolver (Named "chapter-b")
                     sample_viewer) Hdoc Hidle) as (_ & _ & _ & Hnav).
  split; [exact (Hnone eq_refl)|].
  split; [exact (Hrej 99 (JsError "Invalid page reference") eq_refl eq_refl)|].
  exact (proj1 (Hnav 7 4 eq_refl eq_refl)).
Defined.

Example title_click_sample :
  requests (core (title_onclick sample_world sample_resolver
                    (Named "chapter-b") sample_viewer))
  = [1; 2; 3; 5; 6; 7]
  /\ tocContainer (title_onclick sample_world sample_resolver
                     (Named "chapter-b") sample_viewer) = "translateX(0)".
Proof. vm_compute. split; reflexivity. Qed.

(** ** Teardown *)

(** X19: [destroy] empties the mount element whatever it held,
    disconnects the observer and removes the scroll listener, in any
    state and also when no document was ever opened; pdf.js is asked to
    destroy the document exactly when one is loaded.  The reference to
    the document is kept, so a second [destroy] changes nothing of the
    page but asks pdf.js once more; the busy flag, the cursor and the
    detached page container are left as they were. *)
Theorem destroy_empties_mount (v : Viewer) :
  let v1 := destroy v in
  dom_children (core v1) = []
  /\ observed (core v1) = []
  /\ scroll_listener v1 = false
  /\ pdfDoc_destroy v1
     = (pdfDoc_destroy v + if bool_decide (is_Some (pdfDoc (core v))) then 1 else 0)%nat
  /\ pdfDoc (core v1) = pdfDoc (core v)
  /\ isLoading (core v1) = isLoading (core v)
  /\ pageNumber (core v1) = pageNumber (core v)
  /\ pageContainer (core v1) = pageContainer (core v)
  /\ core (destroy v1) = core v1
  /\ pdfDoc_destroy (destroy v1)
     = (pdfDoc_destroy v1 + if bool_decide (is_Some (pdfDoc (core v))) then 1 else 0)%nat.
Proof.
  cbv zeta. destruct v as [s t b f l d]. unfold destroy. cbn [core pdfDoc_destroy
    scroll_listener]. destruct s; cbn.
  destruct pdfDoc0.
  - rewrite !bool_decide_eq_true_2 by eauto. repeat split; lia.
  - rewrite !bool_decide_eq_false_2 by (intros [? ?]; discriminate).
    repeat split; lia.
Qed.

(** * Object storage *)

Lemma filled_false (s : string) : S3.filled s = false <-> s = "".
Proof.
  unfold S3.filled. rewrite negb_false_iff. apply String.eqb_eq.
Qed.

Lemma filled_true (s : string) : S3.filled s = true <-> s <> "".
Proof.
  unfold S3.filled. rewrite negb_true_iff. apply String.eqb_neq.
Qed.

Lemma strip_slash_spec (s : string) :
  s = S3.strip_slash s +:+ "/"
  \/ (S3.strip_slash s = s /\ forall pre, s <> pre +:+ "/").
Proof.
  induction s as [|c s IH].
  - right. split; [reflexivity|]. intros [|? ?]; discriminate.
  - destruct s as [|c' s'].
    + cbn [S3.strip_slash]. destruct (Ascii.eqb_spec c "/") as [->|Hne].
      * left. reflexivity.
      * right. split; [reflexivity|]. intros [|a [|b pre]] H; cbn in H.
        -- inversion H. congruence.
        -- discriminate.
        -- discriminate.
    + change (S3.strip_slash (String c (String c' s')))
        with (String c (S3.strip_slash (String c' s'))).
      destruct IH as [IH|[IH Hno]].
      * left.
        change (String c (String c' s')
                = String c (S3.strip_slash (String c' s') +:+ "/")).
        rewrite <- IH. reflexivity.
      * right. rewrite IH. split; [reflexivity|].
        intros [|a pre] H; cbn in H; [discriminate|].
        injection H as _ H. apply (Hno pre H).
Qed.

(** X20: the S3 client is built exactly when settings are stored with
    an endpoint, an access key and a secret key that are not empty (the
    bucket name is not needed).  Its endpoint is the stored one without
    its trailing slash, if it has one (one slash only is removed); its
    region is the stored region, or [us-east-1] when none or an empty
    one is stored, so never empty; the credentials are the stored ones;
    path-style access is forced exactly when [isMinio] is set. *)
Theorem s3_client_settings (stored : option S3.S3Settings) :
  match S3.getS3Client stored with
  | None =>
      stored = None
      \/ exists settings,
           stored = Some settings
           /\ (S3.endpoint settings = "" \/ S3.accessKeyId settings = ""
               \/ S3.secretAccessKey settings = "")
  | Some client =>
      exists settings,
        stored = Some settings
        /\ S3.endpoint settings <> "" /\ S3.accessKeyId settings <> ""
        /\ S3.secretAccessKey settings <> ""
        /\ (S3.endpoint settings = S3.client_endpoint client +:+ "/"
            \/ (S3.client_endpoint client = S3.endpoint settings
                /\ forall pre, S3.endpoint settings <> pre +:+ "/"))
        /\ S3.client_region client <> ""
        /\ (forall r, S3.region settings = Some r -> r <> "" ->
            S3.client_region client = r)
        /\ (S3.region settings = None \/ S3.region settings = Some "" ->
            S3.client_region client = "us-east-1")
        /\ S3.client_accessKeyId client = S3.accessKeyId settings
        /\ S3.client_secretAccessKey client = S3.secretAccessKey settings
        /\ (S3.forcePathStyle client = true <-> S3.isMinio settings = Some true)
  end.
Proof.
  unfold S3.getS3Client. destruct stored as [settings|]; [|left; reflexivity].
  destruct (S3.filled (S3.endpoint settings)) eqn:He; cbn [negb orb].
  2:{ right. exists settings. apply filled_false in He. auto. }
  destruct (S3.filled (S3.accessKeyId settings)) eqn:Ha; cbn [negb orb].
  2:{ right. exists settings. apply filled_false in Ha. auto. }
  destruct (S3.filled (S3.secretAccessKey settings)) eqn:Hs; cbn [negb orb].
  2:{ right. exists settings. apply filled_false in Hs. auto. }
  apply filled_true in He, Ha, Hs.
  exists settings. unfold S3.clientSettings. cbn.
  split; [reflexivity|]. do 3 (split; [assumption|]).
  split; [apply strip_slash_spec|].
  split.
  { unfold S3.or_else. destruct (S3.region settings) as [r|]; [|discriminate].
    destruct (S3.filled r) eqn:Hr; [apply filled_true, Hr|discriminate]. }
  split.
  { intros r -> Hr. unfold S3.or_else. apply filled_true in Hr. rewrite Hr.
    reflexivity. }
  split.
  { intros [->| ->]; reflexivity. }
  split; [reflexivity|]. split; [reflexivity|].
  destruct (S3.isMinio settings) as [[|]|]; split; congruence.
Qed.

(** X21: [testS3Connection] checks before it connects.  With the
    endpoint, the access key or the secret key empty it fails with the
    message that the three are required, and with those given but the
    bucket name empty with the message that the bucket name is required;
    in both cases nothing is sent.  Otherwise it sends exactly one
    listing of the bucket, limited to one key, through a client built as
    above, succeeds exactly when the store answers, and reports the
    message of the rejection otherwise; it never throws. *)
Theorem s3_test_connection (R : S3.Store) (settings : S3.S3Settings) :
  let required := S3.endpoint settings = "" \/ S3.accessKeyId settings = ""
                  \/ S3.secretAccessKey settings = "" in
  let command := S3.ListObjectsV2 (S3.bucketName settings) None None 1 in
  let client := S3.clientSettings settings in
  (required ->
   S3.testS3Connection R settings
   = (S3.mkStatus false
        (Some "Endpoint, Access Key, and Secret Key are required."), S3.quiet))
  /\ (~ required -> S3.bucketName settings = "" ->
      S3.testS3Connection R settings
      = (S3.mkStatus false
           (Some "Bucket Name is required to test the connection."), S3.quiet))
  /\ (~ required -> S3.bucketName settings <> "" ->
      S3.sent (snd (S3.testS3Connection R settings)) = [(client, command)]
      /\ S3.alerts (snd (S3.testS3Connection R settings)) = []
      /\ fst (S3.testS3Connection R settings)
         = match S3.list_objects R client command with
           | inr _ => S3.mkStatus true None
           | inl err => S3.mkStatus false (Some (message_of err))
           end).
Proof.
  cbv zeta. unfold S3.testS3Connection.
  destruct (S3.filled (S3.endpoint settings)) eqn:He;
    [|apply filled_false in He; repeat split; tauto].
  destruct (S3.filled (S3.accessKeyId settings)) eqn:Ha;
    [|apply filled_false in Ha; repeat split; tauto].
  destruct (S3.filled (S3.secretAccessKey settings)) eqn:Hs;
    [|apply filled_false in Hs; repeat split; tauto].
  apply filled_true in He, Ha, Hs. cbn [negb orb].
  split; [tauto|].
  destruct (S3.filled (S3.bucketName settings)) eqn:Hb; cbn [negb].
  - apply filled_true in Hb. split; [tauto|]. intros _ _.
    destruct (S3.list_objects R _ _); repeat split.
  - apply filled_false in Hb. split; [reflexivity|]. tauto.
Qed.

Lemma s3_test_connection_witness :
  let settings := S3.mkSettings "http://127.0.0.1:9000/" "" None "key" "secret" None in
  let R := S3.mkStore (fun _ _ => inl (JsError "down")) (fun _ _ => None)
             (fun _ _ => inl (JsError "down")) (fun _ _ => None) in
  S3.testS3Connection R settings
  = (S3.mkStatus false
       (Some "Bucket Name is required to test the connection."), S3.quiet).
Proof.
  cbv zeta.
  apply (proj1 (proj2 (s3_test_connection _ _))); [|reflexivity].
  cbn. intros [H|[H|H]]; discriminate.
Defined.

(** X22: [listS3Files] never throws and returns files with a key
    only: the keys returned are the keys of the listed objects that have
    one, in the order of the listing, with the continuation token of the
    answer.  It sends at most one command, whose page size is the one
    asked for when one other than 0 is asked, and 50 when none or 0 is
    asked.  Without a client it alerts that the
    settings are missing; without a bucket name it returns the empty
    list silently; when the store rejects the listing it alerts and
    returns the empty list without a token. *)
Theorem s3_list_files (R : S3.Store) (stored : option S3.S3Settings)
  (options : S3.ListOptions) :
  let r := fst (S3.listS3Files R stored options) in
  let eff := snd (S3.listS3Files R stored options) in
  Forall (fun f => S3.key f <> "") (S3.files r)
  /\ (S3.getS3Client stored = None ->
      r = S3.mkResult [] None /\ eff = S3.mkEffects [S3.not_configured] [])
  /\ (forall client settings,
        S3.getS3Client stored = Some client -> stored = Some settings ->
        (S3.bucketName settings = "" -> r = S3.mkResult [] None /\ eff = S3.quiet)
        /\ (S3.bucketName settings <> "" ->
            exists n,
              let command := S3.ListObjectsV2 (S3.bucketName settings)
                               (S3.continuationToken options)
                               (S3.prefix options) n in
              ((S3.maxKeys options = Some n /\ n <> 0)
               \/ (n = 50 /\ (S3.maxKeys options = None
                               \/ S3.maxKeys options = Some 0)))
              /\ S3.sent eff = [(client, command)]
              /\ match S3.list_objects R client command with
                 | inl err =>
                     r = S3.mkResult [] None
                     /\ S3.alerts eff
                        = ["Failed to list files from S3. Error: " +:+ message_of err]
                 | inr response =>
                     S3.alerts eff = []
                     /\ S3.nextContinuationToken r = S3.NextContinuationToken response
                     /\ map S3.key (S3.files r)
                        = List.filter S3.filled
                            (map (fun item => default "" (S3.Key item))
                               (default [] (S3.Contents response)))
                 end)).
Proof.
  cbv zeta. unfold S3.listS3Files.
  destruct (S3.getS3Client stored) as [client|] eqn:Hclient.
  2:{ split; [constructor|]. split; [auto|]. intros ? ? H; discriminate. }
  destruct stored as [settings|]; [|discriminate].
  destruct (S3.filled (S3.bucketName settings)) eqn:Hb; cbn [negb].
  2:{ apply filled_false in Hb. split; [constructor|]. split; [discriminate|].
      intros c st Hc Hst. injection Hst as <-. split; [auto|]. tauto. }
  apply filled_true in Hb.
  set (n := match S3.maxKeys options with
            | Some n => if n =? 0 then 50 else n
            | None => 50
            end).
  assert (Hn : (S3.maxKeys options = Some n /\ n <> 0)
               \/ (n = 50 /\ (S3.maxKeys options = None
                               \/ S3.maxKeys options = Some 0))).
  { unfold n. destruct (S3.maxKeys options) as [m|]; [|right; auto].
    destruct (Z.eqb_spec m 0) as [Hm|Hm]; [subst m; right; auto|left; auto]. }
  set (command := S3.ListObjectsV2 _ _ _ n).
  assert (Hfiles : forall items,
            map S3.key
              (List.filter (fun item => S3.filled (S3.key item))
                 (map (fun item =>
                         S3.mkFile (match S3.Key item with
                                    | Some k => k
                                    | None => ""
                                    end)
                           (S3.LastModified item) (S3.Size item)) items))
            = List.filter S3.filled
                (map (fun item => default "" (S3.Key item)) items)).
  { induction items as [|a l IH]; [reflexivity|]. cbn [map List.filter].
    cbn [S3.key]. unfold default at 1.
    destruct (S3.filled _); cbn [map S3.key]; rewrite IH; reflexivity. }
  split.
  { destruct (S3.list_objects R client command) as [err|response];
      cbn [fst S3.files]; [constructor|].
    destruct (S3.Contents response) as [items|]; [|constructor].
    apply List.Forall_forall. intros f Hf.
    apply List.filter_In in Hf as [_ Hf]. apply filled_true, Hf. }
  split; [discriminate|].
  intros c st Hc Hst. injection Hc as <-. injection Hst as <-.
  split; [tauto|]. intros _. exists n. cbv zeta. fold command.
  split; [exact Hn|].
  destruct (S3.list_objects R client command) as [err|response];
    cbn [fst snd S3.sent S3.alerts]; [repeat split|].
  split; [reflexivity|]. split; [reflexivity|]. split; [reflexivity|].
  cbn [S3.files]. destruct (S3.Contents response) as [items|]; [|reflexivity].
  apply Hfiles.
Qed.


Lemma endsWith_append (s suffix : string) :
  S3.endsWith s suffix = true <-> exists pre, s = pre +:+ suffix.
Proof.
  induction s as [|c s IH]; cbn [S3.endsWith].
  - rewrite orb_false_r, String.eqb_eq. split.
    + intros <-. exists "". reflexivity.
    + intros ([|? ?] & H); [exact H|discriminate].
  - rewrite orb_true_iff, String.eqb_eq, IH. split.
    + intros [<-|(pre & ->)]; [exists ""; reflexivity|].
      exists (String c pre). reflexivity.
    + intros ([|c' pre] & H); [left; exact H|].
      right. cbn in H. injection H as _ H. exists pre. exact H.
Qed.

Lemma split_nonempty (sep : ascii) (s : string) : S3.split sep s <> [].
Proof.
  destruct s as [|c s]; cbn [S3.split]; [discriminate|].
  destruct (Ascii.eqb c sep); [discriminate|].
  destruct (S3.split sep s); discriminate.
Qed.

Lemma split_append (sep : ascii) (a b : string) :
  S3.split sep (a +:+ String sep b) = S3.split sep a ++ S3.split sep b.
Proof.
  induction a as [|c a IH].
  - change ("" +:+ String sep b) with (String sep b).
    cbn [S3.split app]. rewrite Ascii.eqb_refl. reflexivity.
  - change (String c a +:+ String sep b) with (String c (a +:+ String sep b)).
    cbn [S3.split]. rewrite IH.
    destruct (Ascii.eqb c sep); [reflexivity|].
    destruct (S3.split sep a) as [|h t] eqn:E;
      [exfalso; exact (split_nonempty sep a E)|reflexivity].
Qed.

Lemma split_whole (sep : ascii) (s : string) :
  includes s (String sep "") = false -> S3.split sep s = [s].
Proof.
  induction s as [|c s IH]; [reflexivity|].
  cbn [includes String.prefix S3.split]. intros H.
  apply orb_false_iff in H as [H1 H2].
  destruct (Ascii.ascii_dec sep c) as [->|Hne].
  - destruct s; discriminate.
  - rewrite (IH H2).
    destruct (Ascii.eqb_spec c sep); [congruence|reflexivity].
Qed.

Lemma pop_last (l : list string) (s : string) : S3.pop (l ++ [s]) = s.
Proof. unfold S3.pop. apply List.last_last. Qed.

(** X24: the file name taken from an object key is the part after the
    last slash: for a key [dir/name] with a name that is not empty and
    has no slash it is [name], whatever slashes [dir] has; for a key
    without a slash, and for a key that ends with a slash, it is the
    whole key. *)
Theorem fileName_is_last_segment (fileKey : string) :
  (forall dir name,
     fileKey = dir +:+ "/" +:+ name -> name <> "" ->
     includes name "/" = false -> S3.fileName_of fileKey = name)
  /\ (includes fileKey "/" = false -> S3.fileName_of fileKey = fileKey)
  /\ (S3.endsWith fileKey "/" = true -> S3.fileName_of fileKey = fileKey).
Proof.
  unfold S3.fileName_of. split; [|split].
  - intros dir name -> Hne Hslash.
    change ("/" +:+ name) with (String "/" name).
    rewrite split_append, (split_whole "/" name Hslash), pop_last.
    apply filled_true in Hne. rewrite Hne. reflexivity.
  - intros Hslash. rewrite (split_whole "/" fileKey Hslash).
    cbn. destruct (S3.filled fileKey); reflexivity.
  - intros Hend. apply endsWith_append in Hend as (pre & ->).
    change (pre +:+ "/") with (pre +:+ String "/" "").
    rewrite split_append. cbn [S3.split]. rewrite pop_last. reflexivity.
Qed.

Lemma fileName_is_last_segment_witness :
  S3.fileName_of "reports/2024/Budget.XLSX" = "Budget.XLSX"
  /\ S3.fileName_of "reports/2024/" = "reports/2024/".
Proof.
  split.
  - apply (proj1 (fileName_is_last_segment "reports/2024/Budget.XLSX")
             "reports/2024" "Budget.XLSX"); [reflexivity|discriminate|reflexivity].
  - apply (proj2 (proj2 (fileName_is_last_segment "reports/2024/"))). reflexivity.
Defined.


Example s3_sample_download :
  fst (S3.downloadFromS3 sample_store (Some sample_settings)
         "reports/2024/Budget.XLSX")
  = Returned
      (Some (S3.mkFileObject [Byte.x00; Byte.x01; Byte.x02] "Budget.XLSX"
               "application/vnd.openxmlformats-officedocument.spreadsheetml.sheet"))
  /\ fst (S3.downloadFromS3 sample_store (Some sample_settings) "empty")
     = Thrown (JsError "Empty file from S3 or unknown content length.")
  /\ S3.downloadFromS3 sample_store None "empty"
     = (Returned None, S3.mkEffects [S3.not_configured] []).
Proof. vm_compute. repeat split. Qed.

Example s3_sample_client :
  S3.getS3Client (Some sample_settings)
  = Some (S3.mkConfig "http://127.0.0.1:9000" "us-east-1" "minio" "secret" true)
  /\ map S3.key (S3.files (fst (S3.listS3Files sample_store (Some sample_settings)
                                  (S3.mkListOptions None None (Some 0)))))
     = ["reports/2024/Budget.XLSX"]
  /\ fst (S3.uploadToS3 sample_store (Some sample_settings) "a.docx" [])
     = S3.mkStatus false (Some "AccessDenied").
Proof. vm_compute. repeat split. Qed.

(** * The file sidebar *)

Lemma remove_load_more_rows (rows : list Sidebar.Child) :
  Forall Sidebar.clean rows ->
  Sidebar.remove_load_more rows = rows
  /\ Sidebar.remove_load_more (rows ++ [Sidebar.LoadMore]) = rows.
Proof.
  induction 1 as [|child rows Hchild _ [IH1 IH2]].
  - split; reflexivity.
  - destruct child as [k n c inside| |]; cbn in Hchild;
      [subst inside| |contradiction];
      cbn [Sidebar.remove_load_more app]; rewrite IH1, IH2; split; reflexivity.
Qed.

Lemma remove_load_more_tidy (fileList : list Sidebar.Child) :
  Sidebar.tidy fileList ->
  Forall Sidebar.clean (Sidebar.remove_load_more fileList).
Proof.
  intros (rows & Hshape & Hrows).
  destruct (remove_load_more_rows rows Hrows) as (H1 & H2).
  destruct Hshape as [-> | ->]; rewrite ?H1, ?H2; exact Hrows.
Qed.

Lemma row_of_clean (P : Sidebar.Parser) (file : S3.S3File) :
  Sidebar.intact (P (S3.fileName_of (S3.key file))) = true ->
  Sidebar.clean (Sidebar.row_of P file).
Proof.
  unfold Sidebar.intact, Sidebar.row_of, Sidebar.clean. intros H.
  apply andb_prop in H as [_ H]. apply Nat.eqb_eq, H.
Qed.

Lemma intact_buttons (dom : Sidebar.RowDom) :
  Sidebar.intact dom = true ->
  Sidebar.download_btn dom && Sidebar.delete_btn dom = true.
Proof. unfold Sidebar.intact. intros H. apply andb_prop in H as [H _]. exact H. Qed.

Lemma append_rows_stops (P : Sidebar.Parser) (before : list S3.S3File)
  (rest : list S3.S3File) (fileList : list Sidebar.Child) :
  Forall (fun file => Sidebar.intact (P (S3.fileName_of (S3.key file))) = true)
    before ->
  Sidebar.append_rows P (before ++ rest) fileList
  = Sidebar.append_rows P rest (fileList ++ map (Sidebar.row_of P) before)
  /\ Forall Sidebar.clean (map (Sidebar.row_of P) before).
Proof.
  intros H. revert fileList.
  induction H as [|file before Hfile _ IH]; intros fileList.
  - cbn [app map]. rewrite app_nil_r. split; [reflexivity|constructor].
  - cbn [app map Sidebar.append_rows]. rewrite (intact_buttons _ Hfile).
    destruct (IH (fileList ++ [Sidebar.row_of P file])) as (IH1 & IH2).
    rewrite IH1, <- app_assoc. split; [reflexivity|].
    constructor; [apply row_of_clean, Hfile|exact IH2].
Qed.

(** X26: a refresh of the file list that finds a listing in flight
    changes nothing and sends nothing; any other refresh lists the files
    under the current search prefix (from the stored token when
    appending, from the start otherwise) and releases its busy flag.
    On a list with at most one "Load More" item, at its end:
    when every row written parses as the template, the token of the
    answer is stored and the list holds the earlier rows when appending
    and none otherwise, then one row per file listed, in order (or the
    "No files found" block when nothing was listed and the list was not
    appended to), then the "Load More" item exactly when the answer has
    a token that is not empty; when the row of some file listed lacks a
    button because of the markup in its name, the rows of the files
    before it are there but neither its own row nor those after it, the
    "Load More" item is gone, and the stored token is the old one. *)
Theorem refresh_rebuilds_list (P : Sidebar.Parser) (R : S3.Store)
  (stored : option S3.S3Settings) (append : bool) (page : Sidebar.Page)
  (children : list Sidebar.Child) :
  Sidebar.fileList page = Some children -> Sidebar.tidy children ->
  let page' := fst (Sidebar.refreshS3FileList P R stored append page) in
  let asked :=
    S3.listS3Files R stored
      (S3.mkListOptions
         (if append then Sidebar.s3NextContinuationToken page else None)
         (Some (Sidebar.s3SearchPrefix page)) None) in
  let listed := fst asked in
  let more := match S3.nextContinuationToken listed with
              | Some token => S3.filled token
              | None => false
              end in
  let base := if append then Sidebar.remove_load_more children else [] in
  let parsed file := P (S3.fileName_of (S3.key file)) in
  (Sidebar.s3IsLoading page = true ->
   Sidebar.refreshS3FileList P R stored append page = (page, S3.quiet))
  /\ (Sidebar.s3IsLoading page = false ->
      Sidebar.s3IsLoading page' = false
      /\ snd (Sidebar.refreshS3FileList P R stored append page) = snd asked
      /\ (Forall (fun file => Sidebar.intact (parsed file) = true)
            (S3.files listed) ->
          Sidebar.s3NextContinuationToken page' = S3.nextContinuationToken listed
          /\ exists children',
               Sidebar.fileList page' = Some children'
               /\ Sidebar.tidy children'
               /\ children'
                  = base
                    ++ (match S3.files listed, append with
                        | [], false => [Sidebar.EmptyState]
                        | files, _ => map (Sidebar.row_of P) files
                        end)
                    ++ (if more then [Sidebar.LoadMore] else []))
      /\ (forall before bad after,
            S3.files listed = before ++ bad :: after ->
            Forall (fun file => Sidebar.intact (parsed file) = true) before ->
            Sidebar.download_btn (parsed bad) && Sidebar.delete_btn (parsed bad)
            = false ->
            Sidebar.s3NextContinuationToken page'
            = Sidebar.s3NextContinuationToken page
            /\ Sidebar.fileList page'
               = Some (base ++ map (Sidebar.row_of P) before)
            /\ Forall Sidebar.clean (base ++ map (Sidebar.row_of P) before))).
Proof.
  intros Hlist Htidy. cbv zeta. unfold Sidebar.refreshS3FileList.
  split; [intros ->; reflexivity|]. intros ->. rewrite Hlist.
  set (asked := S3.listS3Files R stored _).
  set (base := if append then Sidebar.remove_load_more children else []).
  assert (Hbase : Forall Sidebar.clean base).
  { unfold base. destruct append; [|constructor].
    apply remove_load_more_tidy, Htidy. }
  split; [destruct (snd (Sidebar.populateSidebar P _ append children));
          reflexivity|].
  split; [destruct (snd (Sidebar.populateSidebar P _ append children));
          reflexivity|].
  split.
  - intros Hintact.
    set (rows := match S3.files (fst asked), append with
                 | [], false => [Sidebar.EmptyState]
                 | files, _ => map (Sidebar.row_of P) files
                 end).
    destruct (append_rows_stops P (S3.files (fst asked)) [] base Hintact)
      as (Happ & Hclean).
    rewrite app_nil_r in Happ. cbn [Sidebar.append_rows] in Happ.
    assert (Hpop : Sidebar.populateSidebar P (S3.files (fst asked)) append children
                   = (base ++ rows, true)).
    { unfold Sidebar.populateSidebar. fold base. unfold rows.
      destruct (S3.files (fst asked)) as [|f l] eqn:E.
      - destruct append; [|reflexivity]. cbn. rewrite app_nil_r. reflexivity.
      - destruct append; exact Happ. }
    assert (Hrows : Forall Sidebar.clean (base ++ rows)).
    { apply Forall_app. split; [exact Hbase|]. unfold rows.
      destruct (S3.files (fst asked)) as [|f l]; [|destruct append; exact Hclean].
      destruct append; repeat constructor. }
    rewrite Hpop. cbn [fst snd].
    split; [reflexivity|].
    destruct (remove_load_more_rows (base ++ rows) Hrows) as (Hrm & _).
    destruct (match S3.nextContinuationToken (fst asked) with
              | Some token => S3.filled token
              | None => false
              end).
    + eexists. split; [reflexivity|]. unfold Sidebar.addLoadMoreButton.
      rewrite Hrm. split; [|rewrite app_assoc; reflexivity].
      exists (base ++ rows). auto.
    + eexists. split; [reflexivity|]. rewrite app_nil_r.
      split; [|reflexivity]. exists (base ++ rows). auto.
  - intros before bad after Hfiles Hbefore Hbad.
    destruct (append_rows_stops P before (bad :: after) base Hbefore)
      as (Happ & Hclean).
    cbn [Sidebar.append_rows] in Happ. rewrite Hbad in Happ.
    assert (Hpop : Sidebar.populateSidebar P (S3.files (fst asked)) append children
                   = (base ++ map (Sidebar.row_of P) before, false)).
    { unfold Sidebar.populateSidebar. fold base. rewrite Hfiles.
      destruct (before ++ bad :: after) eqn:E;
        [destruct before; discriminate|].
      destruct append; exact Happ. }
    rewrite Hpop. cbn [fst snd].
    split; [reflexivity|]. split; [reflexivity|].
    apply Forall_app. split; [exact Hbase|exact Hclean].
Qed.

Lemma refresh_rebuilds_list_witness :
  let page := Sidebar.mkPage false None ""
                (Some [Sidebar.FileRow "old" "old" "#6b7280" 0; Sidebar.LoadMore]) in
  Sidebar.fileList
    (fst (Sidebar.refreshS3FileList sample_parser sample_store
            (Some sample_settings) true page))
  = Some [Sidebar.FileRow "old" "old" "#6b7280" 0;
          Sidebar.FileRow "reports/2024/Budget.XLSX" "Budget.XLSX" "#059669" 0;
          Sidebar.LoadMore].
Proof.
  cbv zeta.
  assert (Htidy : Sidebar.tidy
                    [Sidebar.FileRow "old" "old" "#6b7280" 0; Sidebar.LoadMore]).
  { exists [Sidebar.FileRow "old" "old" "#6b7280" 0].
    split; [right; reflexivity|]. repeat constructor. }
  destruct (proj2 (refresh_rebuilds_list sample_parser sample_store
                     (Some sample_settings) true
                     (Sidebar.mkPage false None ""
                        (Some [Sidebar.FileRow "old" "old" "#6b7280" 0;
                               Sidebar.LoadMore]))
                     _ eq_refl Htidy) eq_refl)
    as (_ & _ & Hgood & _).
  destruct Hgood as (_ & children' & Hlist & _ & Hshape).
  { vm_compute. repeat constructor. }
  rewrite Hlist, Hshape. vm_compute. reflexivity.
Defined.

(** A name that opens a comment: the row of the first document is
    there, its own and the third are not, no "Load More" item is added
    although the answer has a token, and the token is not stored. *)
Example refresh_with_markup :
  Sidebar.refreshS3FileList sample_parser markup_store (Some sample_settings)
    false (Sidebar.mkPage false None "" (Some [Sidebar.LoadMore]))
  = (Sidebar.mkPage false None ""
       (Some [Sidebar.FileRow "documents/a.docx" "a.docx" "#2563eb" 0]),
     snd (S3.listS3Files markup_store (Some sample_settings)
            (S3.mkListOptions None (Some "") None))).
Proof. vm_compute. reflexivity. Qed.

Lemma extension_of_last (name ext : string) :
  (name = ext \/ exists base, name = base +:+ "." +:+ ext) ->
  includes ext "." = false ->
  Sidebar.extension_of name = toLowerCase ext.
Proof.
  unfold Sidebar.extension_of. intros [->|(base & ->)] Hdot.
  - rewrite (split_whole "." ext Hdot). reflexivity.
  - change ("." +:+ ext) with (String "." ext).
    rewrite split_append, (split_whole "." ext Hdot), pop_last. reflexivity.
Qed.

(** X27: what a file is opened with, and the colour of its icon in
    the sidebar, is decided by the part of its name after the last dot
    (the whole name when it has no dot), in lower case: a name whose
    part is one of jpg, jpeg, png, gif, bmp and webp goes to the image
    viewer, one whose part is pdf to the PDF viewer, every other to the
    office editor; the icon is blue for docx and doc, green for xlsx and
    xls, red for pptx and ppt, and grey otherwise. *)
Theorem extension_decides (name ext : string) :
  (name = ext \/ exists base, name = base +:+ "." +:+ ext) ->
  includes ext "." = false ->
  let e := toLowerCase ext in
  let icon := Sidebar.iconColor_of (Sidebar.extension_of name) in
  (Sidebar.opener_of name = Sidebar.ImageViewer
   <-> In e ["jpg"; "jpeg"; "png"; "gif"; "bmp"; "webp"])
  /\ (Sidebar.opener_of name = Sidebar.PdfViewer <-> e = "pdf")
  /\ (Sidebar.opener_of name = Sidebar.OfficeEditor
      <-> ~ In e ["jpg"; "jpeg"; "png"; "gif"; "bmp"; "webp"; "pdf"])
  /\ (icon = "#2563eb" <-> e = "docx" \/ e = "doc")
  /\ (icon = "#059669" <-> e = "xlsx" \/ e = "xls")
  /\ (icon = "#dc2626" <-> e = "pptx" \/ e = "ppt")
  /\ (icon = "#6b7280" <-> ~ In e ["docx"; "doc"; "xlsx"; "xls"; "pptx"; "ppt"])
  /\ (forall P file,
        S3.fileName_of (S3.key file) = name ->
        exists inside,
          Sidebar.row_of P file = Sidebar.FileRow (S3.key file) name icon inside).
Proof.
  intros Hname Hdot. cbv zeta.
  assert (Hrow : forall P file,
            S3.fileName_of (S3.key file) = name ->
            exists inside,
              Sidebar.row_of P file
              = Sidebar.FileRow (S3.key file) name
                  (Sidebar.iconColor_of (Sidebar.extension_of name)) inside).
  { intros P file Hf. unfold Sidebar.row_of. rewrite Hf. eexists. reflexivity. }
  revert Hrow. unfold Sidebar.opener_of.
  rewrite (extension_of_last name ext Hname Hdot).
  generalize (toLowerCase ext). intros e Hrow.
  split; [|split; [|split; [|split; [|split; [|split; [|split;
    [|exact Hrow]]]]]]].
  all: unfold Sidebar.iconColor_of; cbn [existsb In]; split;
    repeat match goal with
           | |- context [String.eqb ?x ?s] =>
               is_var x; destruct (String.eqb_spec x s); [subst x|]
           end;
    cbn; intuition (try discriminate; try congruence).
Qed.

Lemma extension_decides_witness :
  Sidebar.opener_of "Scan.2024.PDF" = Sidebar.PdfViewer
  /\ Sidebar.iconColor_of (Sidebar.extension_of "docx") = "#2563eb".
Proof.
  split.
  - apply (proj1 (proj2 (extension_decides "Scan.2024.PDF" "PDF"
                           (or_intror (ex_intro _ "Scan.2024" eq_refl)) eq_refl))).
    reflexivity.
  - apply (proj1 (proj2 (proj2 (proj2 (extension_decides "docx" "docx"
                                         (or_introl eq_refl) eq_refl))))).
    left. reflexivity.
Defined.

Example opener_samples :
  Sidebar.opener_of "Scan.2024.PDF" = Sidebar.PdfViewer
  /\ Sidebar.opener_of "pdf" = Sidebar.PdfViewer
  /\ Sidebar.opener_of "photo.JPeG" = Sidebar.ImageViewer
  /\ Sidebar.opener_of "notes.pdf.docx" = Sidebar.OfficeEditor.
Proof. vm_compute. repeat split. Qed.
